(** * EOPatch: the patch container of eo-learn, and the fetch task's timestamp guard

    A shallow embedding of [core/eolearn/core/eodata.py] (classes [EOPatch] and
    [_FeatureDict]) and, from [io/eolearn/io/processing_api.py], of
    [SentinelHubInputBase.execute] and [check_timestamp_difference] and of
    [_get_timestamp] and [_add_request_bands] of [SentinelHubInputTask].
    Saving and loading work on a description of the folder of a patch; the
    readers of files ([pickle], [numpy], [gzip]) and the order of
    [os.listdir] are parameters.

    Python values are modelled as a tree type [value]; a numpy array is a
    shape together with a buffer.  The type of the buffer is a parameter:
    with [B := list Z] an array carries its elements (value semantics, used
    for merge, equality, consolidation and saving), with [B := loc] it
    carries the address of its buffer in a store (used for copy and deep
    copy, where sharing of buffers is what matters). *)

From Stdlib Require Import ZArith List String Ascii Bool Lia Permutation.
From stdpp Require Import base option list strings gmap sorting.
Import ListNotations.
Local Open Scope string_scope.
Local Open Scope list_scope.

(** ** Feature types *)

(** Modelled from the spec: the enumeration [FeatureType] of
    [core/eolearn/core/feature_types.py], which is not among the sources.
    Its members are the thirteen keyword arguments of [EOPatch.__init__], in
    that order; the spec lists the same namespaces. *)
Inductive FeatureType :=
| DATA | MASK | SCALAR | LABEL | VECTOR
| DATA_TIMELESS | MASK_TIMELESS | SCALAR_TIMELESS | LABEL_TIMELESS | VECTOR_TIMELESS
| META_INFO | BBOX | TIMESTAMP.

Module FeatureType.

(** Iteration order of [for feature_type in FeatureType]. *)
Definition all : list FeatureType :=
  [DATA; MASK; SCALAR; LABEL; VECTOR;
   DATA_TIMELESS; MASK_TIMELESS; SCALAR_TIMELESS; LABEL_TIMELESS; VECTOR_TIMELESS;
   META_INFO; BBOX; TIMESTAMP].

(** [feature_type.value]: the attribute name under which [EOPatch] stores it. *)
Definition value (ft : FeatureType) : string :=
  match ft with
  | DATA => "data" | MASK => "mask" | SCALAR => "scalar" | LABEL => "label"
  | VECTOR => "vector"
  | DATA_TIMELESS => "data_timeless" | MASK_TIMELESS => "mask_timeless"
  | SCALAR_TIMELESS => "scalar_timeless" | LABEL_TIMELESS => "label_timeless"
  | VECTOR_TIMELESS => "vector_timeless"
  | META_INFO => "meta_info" | BBOX => "bbox" | TIMESTAMP => "timestamp"
  end.

(** [FeatureType(key)]: lookup by the external string form. *)
Definition of_value (key : string) : option FeatureType :=
  List.find (fun ft => String.eqb (value ft) key) all.

(** [FeatureType.has_value(key)] *)
Definition has_value (key : string) : bool :=
  match of_value key with Some _ => true | None => false end.

(** The three container kinds a namespace can declare ([feature_type.type()]):
    a mapping ([dict]), an ordered sequence ([list]) for the timestamps, and a
    singleton value for the bounding box.  [EOPatch.__init__] assigns
    [self.bbox = bbox] with the default [None] through the type check of
    [__setattr__], and [set_bbox] takes a bounding box of any type, so the
    singleton kind admits every object. *)
Inductive container_kind := KDict | KList | KObject.

Definition type (ft : FeatureType) : container_kind :=
  match ft with
  | TIMESTAMP => KList
  | BBOX => KObject
  | _ => KDict
  end.

(** [feature_type.has_dict()] *)
Definition has_dict (ft : FeatureType) : bool :=
  match type ft with KDict => true | _ => false end.

(** [feature_type.ndim()]: the expected rank, [None] where no rank is fixed. *)
Definition ndim (ft : FeatureType) : option nat :=
  match ft with
  | DATA | MASK => Some 4
  | SCALAR | LABEL => Some 2
  | DATA_TIMELESS | MASK_TIMELESS => Some 3
  | SCALAR_TIMELESS | LABEL_TIMELESS => Some 1
  | _ => None
  end.

(** [feature_type.contains_ndarrays()] *)
Definition contains_ndarrays (ft : FeatureType) : bool :=
  match ndim ft with Some _ => true | None => false end.

(** [feature_type.is_time_dependent()]: the five per-time namespaces are
    time-dependent, their timeless counterparts, the meta information and
    the bounding box are not.  For the timestamp list these sources do not
    tell: the spec counts a namespace whose "sequence length is indexed by
    acquisition time", while the loop of [consolidate_timestamps] calls
    [.items()] on every time-dependent namespace.  The entry of the table
    for the timestamps is therefore the parameter [timestamp_entry]. *)
Definition is_time_dependent (timestamp_entry : bool) (ft : FeatureType) : bool :=
  match ft with
  | DATA | MASK | SCALAR | LABEL | VECTOR => true
  | TIMESTAMP => timestamp_entry
  | _ => false
  end.

End FeatureType.

#[global] Instance FeatureType_eq_dec : EqDecision FeatureType.
Proof. solve_decision. Defined.

(** ** Python values *)

#[local] Unset Elimination Schemes.

(** [numpy.ndarray]: the shape and the buffer (row-major).  The element type
    is not modelled; elements are integers. *)
Record ndarray (B : Type) := mk_ndarray { shape : list nat; buffer : B }.
Arguments mk_ndarray {B} _ _.
Arguments shape {B} _.
Arguments buffer {B} _.

(** [array.ndim] *)
Definition array_ndim {B} (a : ndarray B) : nat := length (shape a).

(** The Python objects a patch can hold.  A [dict] is an association list in
    insertion order; [_FeatureDict] is the subclass of [dict] that remembers
    its feature type. *)
Inductive value (B : Type) :=
| VNone
| VInt (z : Z)
| VStr (s : string)
| VDatetime (t : Z)
| VArray (a : ndarray B)
| VList (l : list (value B))
| VTuple (l : list (value B))
| VDict (d : list (string * value B))
| VFeatureDict (ft : FeatureType) (d : list (string * value B)).
Arguments VNone {B}.
Arguments VInt {B} _.
Arguments VStr {B} _.
Arguments VDatetime {B} _.
Arguments VArray {B} _.
Arguments VList {B} _.
Arguments VTuple {B} _.
Arguments VDict {B} _.
Arguments VFeatureDict {B} _ _.

#[local] Set Elimination Schemes.

(** ** Exceptions *)

(** The exceptions the embedded code raises, one constructor per [raise]
    (with the data its message is formatted from) or per failing built-in. *)
Inductive exn :=
| TypeError_attribute (ft : FeatureType)
    (* 'Attribute {} only takes items of type {}' *)
| TypeError_no_dict (ft : FeatureType)
    (* '{} does not contain a dictionary of features' *)
| ValueError_dimension (ft : FeatureType) (n : nat)
    (* '{} feature has to be {} of dimension {}' *)
| ValueError_merge_feature (ft : FeatureType) (name : string)
    (* 'Could not merge ({}, {}) feature because values differ' *)
| ValueError_merge (ft : FeatureType)
    (* 'Could not merge {} feature because values differ' *)
| ValueError_concatenate
    (* 'Could not concatenate data because non-temporal dimensions do not match' *)
| ValueError_feature_type (key : string)
    (* FeatureType(key) for a key that is no feature type *)
| ValueError_feature_list
    (* the three ValueErrors of _parse_to_dict *)
| ValueError_numpy
    (* raised inside numpy: zero-dimensional concatenate, ambiguous truth value *)
| ValueError_timestamp
    (* 'Trying to write data to an existing eopatch with a different timestamp.' *)
| ValueError_eopatch_or_bbox
    (* 'Either an eopatch must be provided or bbox and time interval, not both.' *)
| ValueError_external
    (* raised by a collaborator of the fetch task *)
| AttributeError (attr : string)
| TypeError_len
    (* len() of an object without length *)
| TypeError_not_mapping
    (* ** or .keys() applied to an object that is no mapping *)
| TypeError_subscript
    (* obj[name], obj[name] = value or del obj[name] on an object without string keys *)
| TypeError_concat
    (* + between objects that are not both lists *)
| TypeError_unhashable
| TypeError_not_iterable
| IndexError
| KeyError (name : string)
| BaseException_file_exists
    (* 'File exists at the given path' *)
| BaseException_folder_not_empty
    (* 'Folder at the given path contains files. ...' *)
| BaseException_casing (name lowered : string).
    (* "Features '{}' and '{}' differ only in casing" *)

Inductive result (A : Type) :=
| Ok (a : A)
| Raise (e : exn).
Arguments Ok {A} _.
Arguments Raise {A} _.

Definition rbind {A C} (r : result A) (k : A -> result C) : result C :=
  match r with Ok a => k a | Raise e => Raise e end.

Notation "'let*' x ':=' r 'in' k" := (rbind r (fun x => k))
  (at level 10, x name, r at level 100, k at level 200).

(** Left-to-right loop with an accumulator that stops at the first exception. *)
Fixpoint foldM {A X} (f : A -> X -> result A) (xs : list X) (a : A) : result A :=
  match xs with
  | [] => Ok a
  | x :: xs' => let* a' := f a x in foldM f xs' a'
  end.

(** [[f(x) for x in xs]] where [f] may raise. *)
Fixpoint mapM {X Y} (f : X -> result Y) (xs : list X) : result (list Y) :=
  match xs with
  | [] => Ok []
  | x :: xs' => let* y := f x in let* ys := mapM f xs' in Ok (y :: ys)
  end.

(** A computation on a mutable object of type [S]: it returns or raises, and
    leaves the object in the state of the second component. *)
Definition stateful (S A : Type) : Type := S -> result A * S.

Definition sbind {S A C} (m : stateful S A) (k : A -> stateful S C) : stateful S C :=
  fun s =>
    match m s with
    | (Ok a, s') => k a s'
    | (Raise e, s') => (Raise e, s')
    end.

(** A computation that does not touch the object. *)
Definition lift {S A} (r : result A) : stateful S A := fun s => (r, s).

(** Reading the object itself ([self]). *)
Definition self_ {S} : stateful S S := fun s => (Ok s, s).

Notation "'let!' x ':=' m 'in' k" := (sbind m (fun x => k))
  (at level 10, x name, m at level 100, k at level 200).

(** ** Dictionaries *)

Section Dict.
Context {V : Type}.

Fixpoint dict_get (k : string) (d : list (string * V)) : option V :=
  match d with
  | [] => None
  | (k', v) :: d' => if String.eqb k k' then Some v else dict_get k d'
  end.

(** [d[k] = v]: an existing key keeps its position, a new one goes last. *)
Fixpoint dict_set (k : string) (v : V) (d : list (string * V)) : list (string * V) :=
  match d with
  | [] => [(k, v)]
  | (k', v') :: d' =>
      if String.eqb k k' then (k, v) :: d' else (k', v') :: dict_set k v d'
  end.

(** [del d[k]] for a key that is present. *)
Fixpoint dict_del (k : string) (d : list (string * V)) : list (string * V) :=
  match d with
  | [] => []
  | (k', v') :: d' => if String.eqb k k' then d' else (k', v') :: dict_del k d'
  end.

Definition dict_keys (d : list (string * V)) : list string := map fst d.

(** [k in d] *)
Definition dict_mem (k : string) (d : list (string * V)) : bool :=
  match dict_get k d with Some _ => true | None => false end.

(** [{**d1, **d2}] *)
Definition dict_union (d1 d2 : list (string * V)) : list (string * V) :=
  fold_left (fun acc kv => dict_set (fst kv) (snd kv) acc) d2 d1.

(** The elements of [d1.keys() & d2.keys()], listed as [d1] has them. *)
Definition common_keys (d1 d2 : list (string * V)) : list string :=
  List.filter (fun k => dict_mem k d2) (dict_keys d1).
End Dict.

(** ** Values whose arrays carry their elements *)

Abbreviation array := (ndarray (list Z)).
Abbreviation pyvalue := (value (list Z)).
Abbreviation pydict := (list (string * value (list Z))).

(** [bool(v)], as [if v], [not v], [v and w] evaluate it.  numpy refuses the
    truth value of an array with more than one element. *)
Definition truthy (v : pyvalue) : result bool :=
  match v with
  | VNone => Ok false
  | VInt z => Ok (negb (Z.eqb z 0))
  | VStr s => Ok (negb (String.eqb s ""))
  | VDatetime _ => Ok true
  | VArray a =>
      match buffer a with
      | [] => Ok false
      | [z] => Ok (negb (Z.eqb z 0))
      | _ => Raise ValueError_numpy
      end
  | VList l => Ok (negb (Nat.eqb (length l) 0))
  | VTuple l => Ok (negb (Nat.eqb (length l) 0))
  | VDict d => Ok (negb (Nat.eqb (length d) 0))
  | VFeatureDict _ d => Ok (negb (Nat.eqb (length d) 0))
  end.

(** [np.array_equal]: same shape and same elements. *)
Definition array_equal (a b : array) : bool :=
  bool_decide (shape a = shape b) && bool_decide (buffer a = buffer b).

(** Two sequences are equal when they have the same length and equal
    elements at each position. *)
Definition seq_eqb {V} (eqb : V -> V -> bool) : list V -> list V -> bool :=
  fix go (l m : list V) {struct l} : bool :=
    match l, m with
    | [], [] => true
    | u :: l', w :: m' => eqb u w && go l' m'
    | _, _ => false
    end.

(** Every entry of [d] has an equal value under its key in [e]. *)
Definition entries_in {V} (eqb : V -> V -> bool) (e : list (string * V))
    : list (string * V) -> bool :=
  fix go (d : list (string * V)) {struct d} : bool :=
    match d with
    | [] => true
    | (k, u) :: d' =>
        match dict_get k e with
        | Some w => eqb u w
        | None => false
        end && go d'
    end.

(** Two mappings are equal when they have the same keys and equal values
    under each key, whatever the order of insertion. *)
Definition mapping_eqb {V} (eqb : V -> V -> bool) (d e : list (string * V)) : bool :=
  Nat.eqb (length d) (length e) && entries_in eqb e d.

(** Modelled from the spec: [deep_eq] of [core/eolearn/core/utilities.py],
    which is not among the sources.  "Deeply structurally equal (array-wise
    element equality for arrays; recursive equality for nested containers;
    exact equality for scalars/strings/dates)". *)
Fixpoint deep_eq (x y : pyvalue) {struct x} : bool :=
  match x, y with
  | VNone, VNone => true
  | VInt a, VInt b => Z.eqb a b
  | VStr a, VStr b => String.eqb a b
  | VDatetime a, VDatetime b => Z.eqb a b
  | VArray a, VArray b => array_equal a b
  | VList l, VList m => seq_eqb deep_eq l m
  | VTuple l, VTuple m => seq_eqb deep_eq l m
  | VDict d, VDict e => mapping_eqb deep_eq d e
  | VDict d, VFeatureDict _ e => mapping_eqb deep_eq d e
  | VFeatureDict _ d, VDict e => mapping_eqb deep_eq d e
  | VFeatureDict _ d, VFeatureDict _ e => mapping_eqb deep_eq d e
  | _, _ => false
  end.

(** A Python [dict] has no key twice.  [distinct_keys v] says so for every
    mapping inside [v]; every Python object satisfies it. *)
Fixpoint nodupb (l : list string) : bool :=
  match l with
  | [] => true
  | k :: l' => negb (existsb (String.eqb k) l') && nodupb l'
  end.

Fixpoint distinct_keys {B} (v : value B) : bool :=
  match v with
  | VList l => forallb distinct_keys l
  | VTuple l => forallb distinct_keys l
  | VDict d => nodupb (dict_keys d) && forallb (fun kv => distinct_keys (snd kv)) d
  | VFeatureDict _ d => nodupb (dict_keys d) && forallb (fun kv => distinct_keys (snd kv)) d
  | _ => true
  end.

(** [np.concatenate((a1, a2), axis=0)]: both arrays need a first axis and the
    same remaining dimensions; the buffers are row-major, so the result's
    buffer is the first followed by the second. *)
Definition np_concatenate (a1 a2 : array) : result array :=
  match shape a1, shape a2 with
  | t1 :: r1, t2 :: r2 =>
      if bool_decide (r1 = r2)
      then Ok (mk_ndarray (t1 + t2 :: r1) (buffer a1 ++ buffer a2))
      else Raise ValueError_numpy
  | _, _ => Raise ValueError_numpy
  end.

(** The number of elements of one slice along the first axis. *)
Definition row_size (a : array) : nat := fold_right Nat.mul 1 (tl (shape a)).

(** The [i]-th slice along the first axis. *)
Definition row (a : array) (i : nat) : list Z :=
  firstn (row_size a) (skipn (i * row_size a) (buffer a)).

(** [a[idxs, ...]]: the slices at the listed positions of the first axis, in
    the order listed; a position past the axis is an [IndexError], and so is
    any index into an array without axes. *)
Definition np_take (a : array) (idxs : list nat) : result array :=
  match shape a with
  | [] => Raise IndexError
  | t :: r =>
      if forallb (fun i => Nat.ltb i t) idxs
      then Ok (mk_ndarray (length idxs :: r) (concat (map (row a) idxs)))
      else Raise IndexError
  end.

(** ** Values whose arrays point into a store of buffers *)

(** An array object is its shape and the address of its buffer; the store
    holds the buffers.  Two arrays with the same address share their
    elements: writing through one is seen through the other. *)
Abbreviation loc := nat.
Abbreviation rvalue := (value loc).
Abbreviation heap := (list (list Z)).

#[global] Instance ndarray_loc_eq_dec : EqDecision (ndarray loc).
Proof. solve_decision. Defined.

(** A new buffer, at the first free address. *)
Definition alloc (h : heap) (b : list Z) : loc * heap := (length h, h ++ [b]).

(** [a[...] = b]: the elements of the buffer are replaced in place. *)
Definition write_buffer (h : heap) (l : loc) (b : list Z) : heap := <[l := b]> h.

(** The array an array object stands for in a store. *)
Definition read_array (h : heap) (a : ndarray loc) : option array :=
  match h !! buffer a with
  | Some b => Some (mk_ndarray (shape a) b)
  | None => None
  end.

(** [copy.copy(v)]: a new container holding the same objects, which as a
    value is the same; for an array, a new array with a buffer of its own. *)
Definition py_copy (v : rvalue) (h : heap) : rvalue * heap :=
  match v with
  | VArray a =>
      let (l, h') := alloc h (default [] (h !! buffer a)) in
      (VArray (mk_ndarray (shape a) l), h')
  | _ => (v, h)
  end.

(** The memo of [copy.deepcopy]: the arrays copied so far, with their copies. *)
Abbreviation memo := (list (ndarray nat * ndarray nat)).

Fixpoint memo_get (a : ndarray loc) (m : memo) : option (ndarray loc) :=
  match m with
  | [] => None
  | (a0, a') :: m' => if decide (a0 = a) then Some a' else memo_get a m'
  end.

(** A loop that rebuilds a sequence while threading a state. *)
Definition map_state {X Y S} (f : X -> S -> Y * S) : list X -> S -> list Y * S :=
  fix go (l : list X) (st : S) {struct l} : list Y * S :=
    match l with
    | [] => ([], st)
    | x :: l' =>
        let (y, st1) := f x st in
        let (l'', st2) := go l' st1 in
        (y :: l'', st2)
    end.

(** [copy.deepcopy(v, memo)]: containers are rebuilt, every array met for the
    first time gets a new buffer with the same elements, an array met again
    is replaced by the copy made before. *)
Fixpoint py_deepcopy (v : rvalue) (st : memo * heap) {struct v} : rvalue * (memo * heap) :=
  match v with
  | VArray a =>
      match memo_get a (fst st) with
      | Some a' => (VArray a', st)
      | None =>
          let (l, h') := alloc (snd st) (default [] (snd st !! buffer a)) in
          let a' := mk_ndarray (shape a) l in
          (VArray a', ((a, a') :: fst st, h'))
      end
  | VList l =>
      let (l', st') := map_state py_deepcopy l st in (VList l', st')
  | VTuple l =>
      let (l', st') := map_state py_deepcopy l st in (VTuple l', st')
  | VDict d =>
      let (d', st') :=
        map_state (fun kv st => let (u, st1) := py_deepcopy (snd kv) st in
                                ((fst kv, u), st1)) d st in
      (VDict d', st')
  | VFeatureDict ft d =>
      let (d', st') :=
        map_state (fun kv st => let (u, st1) := py_deepcopy (snd kv) st in
                                ((fst kv, u), st1)) d st in
      (VFeatureDict ft d', st')
  | _ => (v, st)
  end.

(** ** The validated mapping [_FeatureDict] *)

(** [isinstance(value, np.ndarray) and value.ndim == n] *)
Definition is_ndarray_of_ndim {B} (n : nat) (v : value B) : bool :=
  match v with
  | VArray a => Nat.eqb (array_ndim a) n
  | _ => false
  end.

(** [isinstance(value, feature_type.type())] *)
Definition isinstance_kind {B} (k : FeatureType.container_kind) (v : value B) : bool :=
  match k, v with
  | FeatureType.KObject, _ => true
  | FeatureType.KList, VList _ => true
  | FeatureType.KDict, VDict _ => true
  | FeatureType.KDict, VFeatureDict _ _ => true
  | _, _ => false
  end.

(** [isinstance(value, _FeatureDict)] *)
Definition is_FeatureDict {B} (v : value B) : bool :=
  match v with
  | VFeatureDict _ _ => true
  | _ => false
  end.

(** The entries of a mapping, [None] for an object that is no mapping. *)
Definition mapping_items {B} (v : value B) : option (list (string * value B)) :=
  match v with
  | VDict d => Some d
  | VFeatureDict _ d => Some d
  | _ => None
  end.

Module FeatureDict.

(** The guard of [__setitem__]:
    [self.ndim and (not isinstance(value, np.ndarray) or value.ndim != self.ndim)].
    [self.ndim] is [feature_type.ndim()]; [None] and [0] are falsy. *)
Definition violates {B} (ft : FeatureType) (v : value B) : bool :=
  match FeatureType.ndim ft with
  | Some n => negb (Nat.eqb n 0) && negb (is_ndarray_of_ndim n v)
  | None => false
  end.

(** [_FeatureDict.__setitem__], on the entries of a mapping of type [ft]. *)
Definition setitem {B} (ft : FeatureType) (d : list (string * value B))
    (feature_name : string) (v : value B) : result (list (string * value B)) :=
  if violates ft v
  then Raise (ValueError_dimension ft (default 0 (FeatureType.ndim ft)))
  else Ok (dict_set feature_name v d).

(** [_FeatureDict.__init__]: every entry of [feature_dict] goes through
    [__setitem__], in the order of [feature_dict.items()]. *)
Definition init {B} (feature_dict : list (string * value B)) (ft : FeatureType)
    : result (value B) :=
  let* d := foldM (fun acc kv => setitem ft acc (fst kv) (snd kv)) feature_dict [] in
  Ok (VFeatureDict ft d).

(** [get_dict]: a plain [dict] with the same entries. *)
Definition get_dict {B} (d : list (string * value B)) : value B := VDict d.

End FeatureDict.

(** ** The patch *)

Module EOPatch.

(** The feature-type attributes of an [EOPatch] object.  The same record
    serves for the keyword arguments of the constructor, where [VNone] is an
    argument left out. *)
Record t (B : Type) := mk {
  data : value B;
  mask : value B;
  scalar : value B;
  label : value B;
  vector : value B;
  data_timeless : value B;
  mask_timeless : value B;
  scalar_timeless : value B;
  label_timeless : value B;
  vector_timeless : value B;
  meta_info : value B;
  bbox : value B;
  timestamp : value B
}.
Arguments mk {B}.
Arguments data {B} _.
Arguments mask {B} _.
Arguments scalar {B} _.
Arguments label {B} _.
Arguments vector {B} _.
Arguments data_timeless {B} _.
Arguments mask_timeless {B} _.
Arguments scalar_timeless {B} _.
Arguments label_timeless {B} _.
Arguments vector_timeless {B} _.
Arguments meta_info {B} _.
Arguments bbox {B} _.
Arguments timestamp {B} _.

(** [EOPatch()] is called with no keyword argument. *)
Definition no_args {B} : t B :=
  mk VNone VNone VNone VNone VNone VNone VNone VNone VNone VNone VNone VNone VNone.

(** [__getitem__]: [getattr(self, FeatureType(feature_type).value)] *)
Definition getitem {B} (p : t B) (ft : FeatureType) : value B :=
  match ft with
  | DATA => data p | MASK => mask p | SCALAR => scalar p | LABEL => label p
  | VECTOR => vector p
  | DATA_TIMELESS => data_timeless p | MASK_TIMELESS => mask_timeless p
  | SCALAR_TIMELESS => scalar_timeless p | LABEL_TIMELESS => label_timeless p
  | VECTOR_TIMELESS => vector_timeless p
  | META_INFO => meta_info p | BBOX => bbox p | TIMESTAMP => timestamp p
  end.

(** [super().__setattr__(key, value)] for a feature-type key: the plain store
    into the object. *)
Definition store {B} (p : t B) (ft : FeatureType) (v : value B) : t B :=
  match ft with
  | DATA => mk v (mask p) (scalar p) (label p) (vector p) (data_timeless p) (mask_timeless p) (scalar_timeless p) (label_timeless p) (vector_timeless p) (meta_info p) (bbox p) (timestamp p)
  | MASK => mk (data p) v (scalar p) (label p) (vector p) (data_timeless p) (mask_timeless p) (scalar_timeless p) (label_timeless p) (vector_timeless p) (meta_info p) (bbox p) (timestamp p)
  | SCALAR => mk (data p) (mask p) v (label p) (vector p) (data_timeless p) (mask_timeless p) (scalar_timeless p) (label_timeless p) (vector_timeless p) (meta_info p) (bbox p) (timestamp p)
  | LABEL => mk (data p) (mask p) (scalar p) v (vector p) (data_timeless p) (mask_timeless p) (scalar_timeless p) (label_timeless p) (vector_timeless p) (meta_info p) (bbox p) (timestamp p)
  | VECTOR => mk (data p) (mask p) (scalar p) (label p) v (data_timeless p) (mask_timeless p) (scalar_timeless p) (label_timeless p) (vector_timeless p) (meta_info p) (bbox p) (timestamp p)
  | DATA_TIMELESS => mk (data p) (mask p) (scalar p) (label p) (vector p) v (mask_timeless p) (scalar_timeless p) (label_timeless p) (vector_timeless p) (meta_info p) (bbox p) (timestamp p)
  | MASK_TIMELESS => mk (data p) (mask p) (scalar p) (label p) (vector p) (data_timeless p) v (scalar_timeless p) (label_timeless p) (vector_timeless p) (meta_info p) (bbox p) (timestamp p)
  | SCALAR_TIMELESS => mk (data p) (mask p) (scalar p) (label p) (vector p) (data_timeless p) (mask_timeless p) v (label_timeless p) (vector_timeless p) (meta_info p) (bbox p) (timestamp p)
  | LABEL_TIMELESS => mk (data p) (mask p) (scalar p) (label p) (vector p) (data_timeless p) (mask_timeless p) (scalar_timeless p) v (vector_timeless p) (meta_info p) (bbox p) (timestamp p)
  | VECTOR_TIMELESS => mk (data p) (mask p) (scalar p) (label p) (vector p) (data_timeless p) (mask_timeless p) (scalar_timeless p) (label_timeless p) v (meta_info p) (bbox p) (timestamp p)
  | META_INFO => mk (data p) (mask p) (scalar p) (label p) (vector p) (data_timeless p) (mask_timeless p) (scalar_timeless p) (label_timeless p) (vector_timeless p) v (bbox p) (timestamp p)
  | BBOX => mk (data p) (mask p) (scalar p) (label p) (vector p) (data_timeless p) (mask_timeless p) (scalar_timeless p) (label_timeless p) (vector_timeless p) (meta_info p) v (timestamp p)
  | TIMESTAMP => mk (data p) (mask p) (scalar p) (label p) (vector p) (data_timeless p) (mask_timeless p) (scalar_timeless p) (label_timeless p) (vector_timeless p) (meta_info p) (bbox p) v
  end.

(** A method of a patch: it runs on the object, may change it, and returns
    or raises.  The object after the call is the second component, also when
    the call raises. *)
Definition method (B A : Type) : Type := stateful (t B) A.

(** The check and the cast of [__setattr__] for a feature-type key: the value
    that ends up stored, or the exception. *)
Definition checked_value {B} (ft : FeatureType) (v : value B) : result (value B) :=
  if negb (isinstance_kind (FeatureType.type ft) v)
  then Raise (TypeError_attribute ft)
  else if FeatureType.has_dict ft && negb (is_FeatureDict v)
  then FeatureDict.init (default [] (mapping_items v)) ft
  else Ok v.

(** [__setattr__(key, value)].  A key that is no feature type names an
    ordinary attribute, which is not part of this state. *)
Definition setattr {B} (key : string) (v : value B) : method B unit :=
  fun p =>
    match FeatureType.of_value key with
    | Some ft =>
        match checked_value ft v with
        | Ok v' => (Ok tt, store p ft v')
        | Raise e => (Raise e, p)
        end
    | None => (Ok tt, p)
    end.

(** [__setitem__(feature_type, value)]: [setattr(self, FeatureType(feature_type).value, value)] *)
Definition setitem {B} (ft : FeatureType) (v : value B) : method B unit :=
  setattr (FeatureType.value ft) v.

(** [value if value is not None else default] *)
Definition or_default {B} (v dflt : value B) : value B :=
  match v with
  | VNone => dflt
  | _ => v
  end.

(** [__init__]: the thirteen assignments, each through [__setattr__], in the
    order of the source. *)
Definition init {B} (kw : t B) : result (t B) :=
  let* v1 := checked_value DATA (or_default (data kw) (VDict [])) in
  let* v2 := checked_value MASK (or_default (mask kw) (VDict [])) in
  let* v3 := checked_value SCALAR (or_default (scalar kw) (VDict [])) in
  let* v4 := checked_value LABEL (or_default (label kw) (VDict [])) in
  let* v5 := checked_value VECTOR (or_default (vector kw) (VDict [])) in
  let* v6 := checked_value DATA_TIMELESS (or_default (data_timeless kw) (VDict [])) in
  let* v7 := checked_value MASK_TIMELESS (or_default (mask_timeless kw) (VDict [])) in
  let* v8 := checked_value SCALAR_TIMELESS (or_default (scalar_timeless kw) (VDict [])) in
  let* v9 := checked_value LABEL_TIMELESS (or_default (label_timeless kw) (VDict [])) in
  let* v10 := checked_value VECTOR_TIMELESS (or_default (vector_timeless kw) (VDict [])) in
  let* v11 := checked_value META_INFO (or_default (meta_info kw) (VDict [])) in
  let* v12 := checked_value BBOX (bbox kw) in
  let* v13 := checked_value TIMESTAMP (or_default (timestamp kw) (VList [])) in
  Ok (mk v1 v2 v3 v4 v5 v6 v7 v8 v9 v10 v11 v12 v13).

(** [_check_if_dict] *)
Definition _check_if_dict (ft : FeatureType) : result unit :=
  match FeatureType.type ft with
  | FeatureType.KDict => Ok tt
  | _ => Raise (TypeError_no_dict ft)
  end.

(** [self[feature_type][feature_name] = value]: item assignment on the object
    the attribute holds.  On a [_FeatureDict] it is [_FeatureDict.__setitem__];
    a plain [dict] stores without a check; anything else has no string keys. *)
Definition setitem_feature {B} (ft : FeatureType) (feature_name : string) (v : value B)
    : method B unit :=
  fun p =>
    match getitem p ft with
    | VFeatureDict ft' d =>
        match FeatureDict.setitem ft' d feature_name v with
        | Ok d' => (Ok tt, store p ft (VFeatureDict ft' d'))
        | Raise e => (Raise e, p)
        end
    | VDict d => (Ok tt, store p ft (VDict (dict_set feature_name v d)))
    | _ => (Raise TypeError_subscript, p)
    end.

(** [add_feature] *)
Definition add_feature {B} (ft : FeatureType) (feature_name : string) (v : value B)
    : method B unit :=
  fun p =>
    match _check_if_dict ft with
    | Ok _ => setitem_feature ft feature_name v p
    | Raise e => (Raise e, p)
    end.

(** [remove_feature]: [del self[feature_type][feature_name]] when the name is
    there, nothing otherwise. *)
Definition remove_feature {B} (ft : FeatureType) (feature_name : string) : method B unit :=
  fun p =>
    match _check_if_dict ft with
    | Ok _ =>
        match getitem p ft with
        | VFeatureDict ft' d =>
            if dict_mem feature_name d
            then (Ok tt, store p ft (VFeatureDict ft' (dict_del feature_name d)))
            else (Ok tt, p)
        | VDict d =>
            if dict_mem feature_name d
            then (Ok tt, store p ft (VDict (dict_del feature_name d)))
            else (Ok tt, p)
        | _ => (Raise TypeError_subscript, p)
        end
    | Raise e => (Raise e, p)
    end.

(** [set_bbox] and [set_timestamp] *)
Definition set_bbox {B} (new_bbox : value B) : method B unit :=
  setattr "bbox" new_bbox.

Definition set_timestamp {B} (new_timestamp : value B) : method B unit :=
  setattr "timestamp" new_timestamp.

(** [get_feature(feature_type, feature_name)] with a name. *)
Definition get_feature {B} (p : t B) (ft : FeatureType) (feature_name : string)
    : result (value B) :=
  match mapping_items (getitem p ft) with
  | Some d =>
      match dict_get feature_name d with
      | Some v => Ok v
      | None => Raise (KeyError feature_name)
      end
  | None => Raise TypeError_subscript
  end.

(** *** Equality and merge *)

(** [__eq__], between two patches. *)
Definition eq (p q : t (list Z)) : bool :=
  forallb (fun ft => deep_eq (getitem p ft) (getitem q ft)) FeatureType.all.

(** [concatenate_data]: [data.shape] exists on arrays only. *)
Definition concatenate_data (data1 data2 : pyvalue) : result pyvalue :=
  match data1, data2 with
  | VArray a1, VArray a2 =>
      if negb (bool_decide (tl (shape a1) = tl (shape a2)))
      then Raise ValueError_concatenate
      else let* a := np_concatenate a1 a2 in Ok (VArray a)
  | _, _ => Raise (AttributeError "shape")
  end.

(** [eopatch1[feature_type] + eopatch2[feature_type]] on the timestamp
    attribute, which holds a list (the type check of [__setattr__]). *)
Definition list_add (v1 v2 : pyvalue) : result pyvalue :=
  match v1, v2 with
  | VList l1, VList l2 => Ok (VList (l1 ++ l2))
  | _, _ => Raise TypeError_concat
  end.

Section Concatenate.

(** The entry of the timestamps in the table of [is_time_dependent]. *)
Variable timestamp_entry : bool.

(** The order in which Python iterates over the set
    [eopatch1[feature_type].keys() & eopatch2[feature_type].keys()] is not
    specified: it is a parameter, some rearrangement of the common names. *)
Variable set_order : list string -> list string.

(** One round of the loop over the common names. *)
Definition merge_name (ft : FeatureType) (timestamps_match : bool) (d1 d2 : pydict)
    (content : pydict) (feature_name : string) : result pydict :=
  match dict_get feature_name d1, dict_get feature_name d2 with
  | Some data1, Some data2 =>
      if FeatureType.is_time_dependent timestamp_entry ft && negb timestamps_match
      then let* v := concatenate_data data1 data2 in
           Ok (dict_set feature_name v content)
      else if negb (deep_eq data1 data2)
      then Raise (ValueError_merge_feature ft feature_name)
      else Ok content
  | _, _ => Raise (KeyError feature_name)
  end.

(** The branch [if feature_type.has_dict()]. *)
Definition merge_dicts (ft : FeatureType) (timestamps_match : bool) (v1 v2 : pyvalue)
    : result pyvalue :=
  match mapping_items v1, mapping_items v2 with
  | Some d1, Some d2 =>
      let* content := foldM (merge_name ft timestamps_match d1 d2)
                        (set_order (common_keys d1 d2)) (dict_union d1 d2) in
      Ok (VDict content)
  | _, _ => Raise TypeError_not_mapping
  end.

(** The two other branches; [copy] of an object is the same value. *)
Definition merge_other (ft : FeatureType) (timestamps_exist timestamps_match : bool)
    (v1 v2 : pyvalue) : result pyvalue :=
  if bool_decide (ft = TIMESTAMP) && timestamps_exist && negb timestamps_match
  then list_add v1 v2
  else
    let* t1 := truthy v1 in
    if negb t1 || deep_eq v1 v2 then Ok v2
    else
      let* t2 := truthy v2 in
      if negb t2 then Ok v1 else Raise (ValueError_merge ft).

(** The body of [for feature_type in FeatureType]. *)
Definition merge_feature_type (eopatch1 eopatch2 : t (list Z))
    (timestamps_exist timestamps_match : bool) (ft : FeatureType) : result pyvalue :=
  if FeatureType.has_dict ft
  then merge_dicts ft timestamps_match (getitem eopatch1 ft) (getitem eopatch2 ft)
  else merge_other ft timestamps_exist timestamps_match
         (getitem eopatch1 ft) (getitem eopatch2 ft).

(** [concatenate] *)
Definition concatenate (eopatch1 eopatch2 : t (list Z)) : result (t (list Z)) :=
  let* t1 := truthy (timestamp eopatch1) in
  let* timestamps_exist := (if t1 then truthy (timestamp eopatch2) else Ok false) in
  let timestamps_match :=
    timestamps_exist && deep_eq (timestamp eopatch1) (timestamp eopatch2) in
  let* eopatch_content :=
    foldM (fun content ft =>
             let* v := merge_feature_type eopatch1 eopatch2
                         timestamps_exist timestamps_match ft in
             Ok (store content ft v))
          FeatureType.all no_args in
  init eopatch_content.

End Concatenate.

(** *** Timestamp consolidation *)

(** [x in l], by [==].  On the objects a set can hold (None, numbers,
    strings, dates and tuples of these) [==] is structural equality. *)
Definition list_mem (x : pyvalue) (l : list pyvalue) : bool :=
  existsb (deep_eq x) l.

Fixpoint hashable (v : pyvalue) : bool :=
  match v with
  | VNone | VInt _ | VStr _ | VDatetime _ => true
  | VTuple l => forallb hashable l
  | _ => false
  end.

(** [set(l)]: every element once.  A set has no order; here its elements
    are listed where they occur last in [l]. *)
Fixpoint set_of (l : list pyvalue) : list pyvalue :=
  match l with
  | [] => []
  | x :: l' => if list_mem x l' then set_of l' else x :: set_of l'
  end.

(** [set(l).difference(other)] *)
Definition set_difference (l other : list pyvalue) : result (list pyvalue) :=
  if forallb hashable l && forallb hashable other
  then Ok (List.filter (fun x => negb (list_mem x other)) (set_of l))
  else Raise TypeError_unhashable.

(** [l.index(x)]: the first position holding [x]. *)
Fixpoint index (l : list pyvalue) (x : pyvalue) : option nat :=
  match l with
  | [] => None
  | y :: l' => if deep_eq y x then Some 0 else option_map S (index l' x)
  end.

(** [[l[idx] for idx in idxs]] *)
Definition take_items (l : list pyvalue) (idxs : list nat) : result (list pyvalue) :=
  mapM (fun idx => match nth_error l idx with
                   | Some x => Ok x
                   | None => Raise IndexError
                   end) idxs.

(** [enumerate(l)] *)
Definition enumerate {X} (l : list X) : list (nat * X) :=
  combine (seq 0 (length l)) l.

(** A loop whose body is a method. *)
Fixpoint for_each {B X} (body : X -> method B unit) (xs : list X) : method B unit :=
  fun p =>
    match xs with
    | [] => (Ok tt, p)
    | x :: xs' =>
        match body x p with
        | (Ok _, p') => for_each body xs' p'
        | (Raise e, p') => (Raise e, p')
        end
    end.

(** The body of the inner loop of [consolidate_timestamps]. *)
Definition consolidate_feature (good_timestamp_idxs : list nat) (ft : FeatureType)
    (item : string * pyvalue) : method (list Z) unit :=
  fun p =>
    match snd item with
    | VArray a =>
        match np_take a good_timestamp_idxs with
        | Ok a' => setitem_feature ft (fst item) (VArray a') p
        | Raise e => (Raise e, p)
        end
    | VList l =>
        match take_items l good_timestamp_idxs with
        | Ok l' => setitem_feature ft (fst item) (VList l') p
        | Raise e => (Raise e, p)
        end
    | _ => (Ok tt, p)
    end.

(** The body of the outer loop: [for feature_name, value in self[feature_type].items()]. *)
Definition consolidate_feature_type (good_timestamp_idxs : list nat) (ft : FeatureType)
    : method (list Z) unit :=
  fun p =>
    match mapping_items (getitem p ft) with
    | Some d => for_each (consolidate_feature good_timestamp_idxs ft) d p
    | None => (Raise (AttributeError "items"), p)
    end.

(** [consolidate_timestamps]; the set it returns is listed without order.
    The timestamp attribute holds a list (the type check of [__setattr__]). *)
Definition consolidate_timestamps (timestamp_entry : bool) (timestamps : list pyvalue)
    : method (list Z) (list pyvalue) :=
  fun p =>
    match timestamp p with
    | VList ts =>
        match set_difference ts timestamps with
        | Ok remove_from_patch =>
            let remove_from_patch_idxs := omap (index ts) remove_from_patch in
            let kept :=
              List.filter (fun it => negb (existsb (Nat.eqb (fst it)) remove_from_patch_idxs))
                          (enumerate ts) in
            let good_timestamp_idxs := map fst kept in
            let good_timestamps := map snd kept in
            match for_each (consolidate_feature_type good_timestamp_idxs)
                    (List.filter (FeatureType.is_time_dependent timestamp_entry) FeatureType.all) p with
            | (Ok _, p1) =>
                match setattr "timestamp" (VList good_timestamps) p1 with
                | (Ok _, p2) => (Ok remove_from_patch, p2)
                | (Raise e, p2) => (Raise e, p2)
                end
            | (Raise e, p1) => (Raise e, p1)
            end
        | Raise e => (Raise e, p)
        end
    | _ => (Raise TypeError_not_iterable, p)
    end.

(** *** Saving *)

Inductive FileFormat := PICKLE | NPY.

(** What [save] leaves in a file: a pickled object, or one array written by
    [np.save], through gzip or not. *)
Inductive file_content :=
| Pickled (v : pyvalue)
| NpyFile (compressed : bool) (v : pyvalue).

(** What is at [path]: nothing, a file, or a folder with its files, each
    under its path relative to the folder. *)
Inductive path_state :=
| NoPath
| IsFile
| IsDir (files : list (string * file_content)).

(** What [str.lower()] does on names of ASCII letters, for the examples. *)
Definition lower_ascii (c : ascii) : ascii :=
  let n := nat_of_ascii c in
  if Nat.leb 65 n && Nat.leb n 90 then ascii_of_nat (n + 32) else c.

Fixpoint ascii_lower (s : string) : string :=
  match s with
  | EmptyString => EmptyString
  | String c s' => String (lower_ascii c) (ascii_lower s')
  end.

Section Save.

(** [str.lower()] is Python's own, with its table of the letters of every
    script: it is a parameter. *)
Variable lower : string -> string.

(** The first loop of [_save_npy_feature_type], over the feature names. *)
Fixpoint check_casing (names : list string) (case_insensitive_feature_names : list string)
    : result unit :=
  match names with
  | [] => Ok tt
  | feature_name :: names' =>
      let case_insensitive_feature_name := lower feature_name in
      if negb (existsb (String.eqb case_insensitive_feature_name)
                 case_insensitive_feature_names)
      then check_casing names'
             (case_insensitive_feature_name :: case_insensitive_feature_names)
      else Raise (BaseException_casing feature_name case_insensitive_feature_name)
  end.

(** [_save_npy_feature_type]: the files of the folder before and after. *)
Definition _save_npy_feature_type (p : t (list Z)) (ft : FeatureType) (compress : bool)
    (files : list (string * file_content)) : result unit * list (string * file_content) :=
  match mapping_items (getitem p ft) with
  | Some d =>
      match check_casing (dict_keys d) [] with
      | Ok _ =>
          (Ok tt,
           fold_left
             (fun fs item =>
                dict_set (FeatureType.value ft ++ "/" ++ fst item
                            ++ (if compress then ".npy.gz" else ".npy"))
                         (NpyFile compress (snd item)) fs)
             d files)
      | Raise e => (Raise e, files)
      end
  | None => (Raise (AttributeError "items"), files)
  end.

(** The body of the loop of [save] over the feature types. *)
Definition save_feature_type (p : t (list Z)) (file_format : FileFormat) (compress : bool)
    (ft : FeatureType) (files : list (string * file_content))
    : result unit * list (string * file_content) :=
  match truthy (getitem p ft) with
  | Raise e => (Raise e, files)
  | Ok false => (Ok tt, files)
  | Ok true =>
      if match file_format with PICKLE => true | NPY => false end
         || negb (FeatureType.contains_ndarrays ft)
      then
        if FeatureType.has_dict ft
        then match getitem p ft with
             | VFeatureDict _ d =>
                 (Ok tt, dict_set (FeatureType.value ft) (Pickled (FeatureDict.get_dict d)) files)
             | _ => (Raise (AttributeError "get_dict"), files)
             end
        else (Ok tt, dict_set (FeatureType.value ft) (Pickled (getitem p ft)) files)
      else _save_npy_feature_type p ft compress files
  end.

Fixpoint save_loop (p : t (list Z)) (file_format : FileFormat) (compress : bool)
    (feature_list : list FeatureType) (files : list (string * file_content))
    : result unit * list (string * file_content) :=
  match feature_list with
  | [] => (Ok tt, files)
  | ft :: feature_list' =>
      match save_feature_type p file_format compress ft files with
      | (Ok _, files') => save_loop p file_format compress feature_list' files'
      | (Raise e, files') => (Raise e, files')
      end
  end.

(** [save]: the outcome and what is at [path] afterwards. *)
Definition save (p : t (list Z)) (path : path_state)
    (feature_list : option (list FeatureType)) (file_format : FileFormat)
    (overwrite compress : bool) : result unit * path_state :=
  match path with
  | IsFile => (Raise BaseException_file_exists, path)
  | IsDir (_ :: _) =>
      if negb overwrite
      then (Raise BaseException_folder_not_empty, path)
      else
        let (r, files) :=
          save_loop p file_format compress (default FeatureType.all feature_list) [] in
        (r, IsDir files)
  | _ =>
      let (r, files) :=
        save_loop p file_format compress (default FeatureType.all feature_list) [] in
      (r, IsDir files)
  end.

End Save.

(** *** Copies *)

(** An item of [feature_list]: a feature type, a tuple or list that is not
    empty (its first element, when that is a feature type, and the names
    after it), an empty tuple or list, or anything else. *)
Inductive feature_item :=
| ItemType (ft : FeatureType)
| ItemTuple (first : option FeatureType) (names : list string)
| ItemEmpty
| ItemOther.

(** A value of the dictionary [_parse_to_dict] builds: [True] or a set of names. *)
Inductive selection :=
| Whole
| Names (names : list string).

Fixpoint selection_get (ft : FeatureType) (d : list (FeatureType * selection))
    : option selection :=
  match d with
  | [] => None
  | (ft', sel) :: d' => if decide (ft = ft') then Some sel else selection_get ft d'
  end.

Fixpoint selection_set (ft : FeatureType) (sel : selection)
    (d : list (FeatureType * selection)) : list (FeatureType * selection) :=
  match d with
  | [] => [(ft, sel)]
  | (ft', sel') :: d' =>
      if decide (ft = ft') then (ft, sel) :: d' else (ft', sel') :: selection_set ft sel d'
  end.

(** [names.add(name)] *)
Definition set_add (name : string) (names : list string) : list string :=
  if existsb (String.eqb name) names then names else names ++ [name].

(** The body of the loop of [_parse_to_dict]. *)
Definition parse_item (feature_dict : list (FeatureType * selection))
    (feature_item : feature_item) : result (list (FeatureType * selection)) :=
  match feature_item with
  | ItemType ft => Ok (selection_set ft Whole feature_dict)
  | ItemTuple None _ => Raise ValueError_feature_list
  | ItemTuple (Some ft) names =>
      if bool_decide (ft = TIMESTAMP) || bool_decide (ft = BBOX)
      then Raise ValueError_feature_list
      else
        match default (Names []) (selection_get ft feature_dict) with
        | Whole => Ok (selection_set ft Whole feature_dict)
        | Names old =>
            Ok (selection_set ft (Names (fold_left (fun acc n => set_add n acc) names old))
                  feature_dict)
        end
  | ItemEmpty => Raise IndexError
  | ItemOther => Raise ValueError_feature_list
  end.

(** [_parse_to_dict]: [None] and the empty list stand for every feature type. *)
Definition _parse_to_dict (feature_list : option (list feature_item))
    : result (list (FeatureType * selection)) :=
  let feature_list :=
    match feature_list with
    | None | Some [] => map ItemType FeatureType.all
    | Some l => l
    end in
  foldM parse_item feature_list [].

(** The body of the loop of [__copy__], on the new patch and the store. *)
Definition copy_selected (self : t loc) (st : t loc * heap)
    (entry : FeatureType * selection) : result (t loc * heap) :=
  let (ft, features) := entry in
  match features with
  | Whole =>
      let (v, h') := py_copy (getitem self ft) (snd st) in
      match setitem ft v (fst st) with
      | (Ok _, new_eopatch) => Ok (new_eopatch, h')
      | (Raise e, _) => Raise e
      end
  | Names names =>
      let* new_eopatch :=
        foldM (fun new_eopatch feature_name =>
                 let* v := get_feature self ft feature_name in
                 match setitem_feature ft feature_name v new_eopatch with
                 | (Ok _, new_eopatch') => Ok new_eopatch'
                 | (Raise e, _) => Raise e
                 end)
              names (fst st) in
      Ok (new_eopatch, snd st)
  end.

(** [__copy__]: the new patch and the store after the call. *)
Definition copy (self : t loc) (feature_list : option (list feature_item)) (h : heap)
    : result (t loc * heap) :=
  let* new_eopatch := init no_args in
  let* feature_dict := _parse_to_dict feature_list in
  foldM (copy_selected self) feature_dict (new_eopatch, h).

(** [__deepcopy__]: [deepcopy] is called once for each feature type, each
    time with a memo of its own. *)
Definition deepcopy (self : t loc) (feature_list : option (list feature_item)) (h : heap)
    : result (t loc * heap) :=
  let* st := copy self feature_list h in
  foldM (fun st ft =>
           let '(v, (_, h')) := py_deepcopy (getitem (fst st) ft) ([], snd st) in
           match setitem ft v (fst st) with
           | (Ok _, new_eopatch) => Ok (new_eopatch, h')
           | (Raise e, _) => Raise e
           end)
        FeatureType.all st.

(** The elements of the array stored under a feature name, read through the
    store. *)
Definition read_feature (h : heap) (p : t loc) (ft : FeatureType) (feature_name : string)
    : option array :=
  match get_feature p ft feature_name with
  | Ok (VArray a) => read_array h a
  | _ => None
  end.

End EOPatch.

(** ** The fetch task *)

Module SentinelHubInputBase.

(** [len(v)] *)
Definition py_len (v : pyvalue) : result nat :=
  match v with
  | VList l => Ok (length l)
  | VTuple l => Ok (length l)
  | VStr s => Ok (String.length s)
  | VDict d => Ok (length d)
  | VFeatureDict _ d => Ok (length d)
  | VArray a =>
      match shape a with
      | n :: _ => Ok n
      | [] => Raise TypeError_len
      end
  | _ => Raise TypeError_len
  end.

(** The elements [zip] draws from an object: the items of a list or tuple,
    the characters of a string, the keys of a mapping, the slices of an array
    along its first axis.  Nothing else among these values is iterable. *)
Definition py_iter (v : pyvalue) : result (list pyvalue) :=
  match v with
  | VList l => Ok l
  | VTuple l => Ok l
  | VStr s => Ok (map (fun c => VStr (String c EmptyString)) (list_ascii_of_string s))
  | VDict d => Ok (map VStr (dict_keys d))
  | VFeatureDict _ d => Ok (map VStr (dict_keys d))
  | VArray a =>
      match shape a with
      | t :: r => Ok (map (fun i => VArray (mk_ndarray r (row a i))) (seq 0 t))
      | [] => Raise TypeError_not_iterable
      end
  | _ => Raise TypeError_not_iterable
  end.

(** [check_timestamp_difference]; [ts1 != ts2] between time points is the
    negation of structural equality. *)
Definition check_timestamp_difference (timestamp1 timestamp2 : pyvalue) : result unit :=
  let* n1 := py_len timestamp1 in
  let* n2 := py_len timestamp2 in
  if negb (Nat.eqb n1 n2) then Raise ValueError_timestamp
  else
    let* l1 := py_iter timestamp1 in
    let* l2 := py_iter timestamp2 in
    foldM (fun _ ts => if negb (deep_eq (fst ts) (snd ts))
                       then Raise ValueError_timestamp else Ok tt)
          (combine l1 l2) tt.

Section Execute.

(** The task object: [self.size] and [self.resolution], [None] when not given. *)
Variable size : option (pyvalue * pyvalue).
Variable resolution : option pyvalue.

(** The collaborators, which are outside these sources: the geometry and
    time utilities of sentinelhub, the method [_get_timestamp] of the
    subclass, and everything from [_build_payloads] through the download
    to [_extract_data], which writes the downloaded data into the patch. *)
Variable bbox_to_dimensions : pyvalue -> pyvalue -> result (pyvalue * pyvalue).
Variable parse_time_interval : pyvalue -> result pyvalue.
Variable _get_timestamp : pyvalue -> pyvalue -> result pyvalue.
Variable download_and_extract :
  pyvalue -> pyvalue * pyvalue -> pyvalue -> pyvalue -> EOPatch.method (list Z) unit.
Variable _add_meta_info : EOPatch.method (list Z) unit.

(** [execute], from the computation of the size on, as a method of the
    patch it works on. *)
Definition execute_on (bbox time_interval : pyvalue) : EOPatch.method (list Z) unit :=
  let! eopatch := self_ in
  let! sz := lift (match size, resolution with
                   | Some sz, _ => Ok sz
                   | None, Some res => bbox_to_dimensions (EOPatch.bbox eopatch) res
                   | None, None => Raise ValueError_external
                   end) in
  let! resolved := lift (let* t := truthy time_interval in
                         if t then
                           let* ti := parse_time_interval time_interval in
                           let* ts := _get_timestamp ti bbox in
                           Ok (ti, ts)
                         else Ok (time_interval, VNone)) in
  let time_interval' := fst resolved in
  let timestamp := snd resolved in
  let! has_timestamp := lift (truthy (EOPatch.timestamp eopatch)) in
  let! _ := (if has_timestamp
             then lift (check_timestamp_difference timestamp (EOPatch.timestamp eopatch))
             else
               let! t := lift (truthy timestamp) in
               if t then EOPatch.setattr "timestamp" timestamp else lift (Ok tt)) in
  let! _ := download_and_extract bbox sz timestamp time_interval' in
  let! _ := EOPatch.setitem_feature META_INFO "size_x" (fst sz) in
  let! _ := EOPatch.setitem_feature META_INFO "size_y" (snd sz) in
  let! _ := EOPatch.setitem_feature META_INFO "time_interval" time_interval' in
  let! _ := EOPatch.setitem_feature META_INFO "service_type" (VStr "processing") in
  _add_meta_info.

(** [execute]: the patch it returns or the exception, and the state
    afterwards of the patch that was passed in, if one was. *)
Definition execute (eopatch : option (EOPatch.t (list Z))) (bbox time_interval : pyvalue)
    : result (EOPatch.t (list Z)) * option (EOPatch.t (list Z)) :=
  match eopatch with
  | Some p =>
      match (let* b := truthy bbox in if b then Ok true else truthy time_interval) with
      | Raise e => (Raise e, Some p)
      | Ok true => (Raise ValueError_eopatch_or_bbox, Some p)
      | Ok false =>
          match execute_on bbox time_interval p with
          | (Ok _, p') => (Ok p', Some p')
          | (Raise e, p') => (Raise e, Some p')
          end
      end
  | None =>
      match
        (let* p0 := EOPatch.init EOPatch.no_args in
         match EOPatch.setattr "bbox" bbox p0 with
         | (Ok _, p1) => Ok p1
         | (Raise e, _) => Raise e
         end)
      with
      | Raise e => (Raise e, None)
      | Ok p1 =>
          match execute_on bbox time_interval p1 with
          | (Ok _, p') => (Ok p', None)
          | (Raise e, _) => (Raise e, None)
          end
      end
  end.

End Execute.

End SentinelHubInputBase.

(** ** States of a patch *)

(** What the type check of [__setattr__] leaves in an attribute: a
    [_FeatureDict] in a mapping namespace, a list in the timestamp
    attribute, any object as the bounding box. *)
Definition attribute_ok {B} (ft : FeatureType) (v : value B) : Prop :=
  match FeatureType.type ft with
  | FeatureType.KDict => exists ft' d, v = VFeatureDict ft' d
  | FeatureType.KList => exists l, v = VList l
  | FeatureType.KObject => True
  end.

Definition well_typed {B} (p : EOPatch.t B) : Prop :=
  forall ft, attribute_ok ft (EOPatch.getitem p ft).

(** The calls that change a patch. *)
Inductive mutation {B} : EOPatch.method B unit -> Prop :=
| mut_setattr key v : mutation (EOPatch.setattr key v)
| mut_setitem ft v : mutation (EOPatch.setitem ft v)
| mut_setitem_feature ft name v : mutation (EOPatch.setitem_feature ft name v)
| mut_add_feature ft name v : mutation (EOPatch.add_feature ft name v)
| mut_remove_feature ft name : mutation (EOPatch.remove_feature ft name)
| mut_set_bbox v : mutation (EOPatch.set_bbox v)
| mut_set_timestamp v : mutation (EOPatch.set_timestamp v).

(** The patches a program can hold: built by the constructor, then changed
    by any number of calls, whether they return or raise. *)
Inductive reachable {B} : EOPatch.t B -> Prop :=
| reach_init kw p :
    EOPatch.init kw = Ok p -> reachable p
| reach_call m p r p' :
    reachable p -> mutation m -> m p = (r, p') -> reachable p'.

(** The entries of a validated mapping of type [ft] all passed its check. *)
Definition valid_mapping {B} (ft : FeatureType) (v : value B) : bool :=
  match v with
  | VFeatureDict ft' d =>
      bool_decide (ft' = ft) && forallb (fun kv => negb (FeatureDict.violates ft (snd kv))) d
  | _ => false
  end.

(** A patch whose mappings are each bound to their own namespace, as the
    constructor makes them from plain dictionaries. *)
Definition well_formed {B} (p : EOPatch.t B) : bool :=
  forallb (fun ft =>
             distinct_keys (EOPatch.getitem p ft) &&
             match FeatureType.type ft with
             | FeatureType.KDict => valid_mapping ft (EOPatch.getitem p ft)
             | FeatureType.KList =>
                 match EOPatch.getitem p ft with VList _ => true | _ => false end
             | FeatureType.KObject => true
             end)
          FeatureType.all.

(** The names of the features of a namespace. *)
Definition feature_names {B} (p : EOPatch.t B) (ft : FeatureType) : list string :=
  dict_keys (default [] (mapping_items (EOPatch.getitem p ft))).

(** The patch [EOPatch()] builds. *)
Definition empty_patch {B} : EOPatch.t B :=
  EOPatch.mk (VFeatureDict DATA []) (VFeatureDict MASK []) (VFeatureDict SCALAR [])
    (VFeatureDict LABEL []) (VFeatureDict VECTOR []) (VFeatureDict DATA_TIMELESS [])
    (VFeatureDict MASK_TIMELESS []) (VFeatureDict SCALAR_TIMELESS [])
    (VFeatureDict LABEL_TIMELESS []) (VFeatureDict VECTOR_TIMELESS [])
    (VFeatureDict META_INFO []) VNone (VList []).

(** The two patches hold values under the same name of a namespace that are
    not deeply equal. *)
Definition conflicting (p1 p2 : EOPatch.t (list Z)) (ft : FeatureType) (name : string)
    : Prop :=
  exists a b, EOPatch.get_feature p1 ft name = Ok a /\
              EOPatch.get_feature p2 ft name = Ok b /\
              deep_eq a b = false.

(** A patch with one rank-4 feature ["x"] in the data namespace and the
    given timestamps, for the examples. *)
Definition example_array (t : nat) (b : list Z) : pyvalue :=
  VArray (mk_ndarray [t; 1; 1; 1] b).

Definition example_patch (x : pyvalue) (ts : list pyvalue) : EOPatch.t (list Z) :=
  EOPatch.store (EOPatch.store empty_patch DATA (VFeatureDict DATA [("x", x)]))
                TIMESTAMP (VList ts).

(** For the examples: a patch whose vector namespace holds a list ["w"] and
    an array ["v"] of shape (1, cols); and a patch whose data namespace is
    the validated mapping [EOPatch(meta_info={'w': [1]}).meta_info], with
    the array ["v"] in the vector namespace. *)
Definition shared_list_patch (cols : nat) (ts : list pyvalue) : EOPatch.t (list Z) :=
  EOPatch.store
    (EOPatch.store empty_patch VECTOR
       (VFeatureDict VECTOR
          [("w", VList [VInt 1]); ("v", VArray (mk_ndarray [1; cols] (repeat 0%Z cols)))]))
    TIMESTAMP (VList ts).

Definition foreign_list_patch (cols : nat) (ts : list pyvalue) : EOPatch.t (list Z) :=
  EOPatch.store
    (EOPatch.store
       (EOPatch.store empty_patch DATA (VFeatureDict META_INFO [("w", VList [VInt 1])]))
       VECTOR
       (VFeatureDict VECTOR [("v", VArray (mk_ndarray [1; cols] (repeat 0%Z cols)))]))
    TIMESTAMP (VList ts).

(** The patch with the given attributes. *)
Definition of_function {B} (f : FeatureType -> value B) : EOPatch.t B :=
  EOPatch.mk (f DATA) (f MASK) (f SCALAR) (f LABEL) (f VECTOR) (f DATA_TIMELESS)
    (f MASK_TIMELESS) (f SCALAR_TIMELESS) (f LABEL_TIMELESS) (f VECTOR_TIMELESS)
    (f META_INFO) (f BBOX) (f TIMESTAMP).

(** The entries of the mapping a namespace holds. *)
Definition items_of {B} (p : EOPatch.t B) (ft : FeatureType) : list (string * value B) :=
  default [] (mapping_items (EOPatch.getitem p ft)).

(** What the merge of two patches without a common feature name holds: in a
    mapping namespace the union, as timestamps and as bounding box those of
    the first patch unless they are empty. *)
Definition disjoint_merge (p1 p2 : EOPatch.t (list Z)) (ft : FeatureType) : pyvalue :=
  match FeatureType.type ft with
  | FeatureType.KDict => VFeatureDict ft (dict_union (items_of p1 ft) (items_of p2 ft))
  | _ =>
      match truthy (EOPatch.getitem p1 ft) with
      | Ok true => EOPatch.getitem p1 ft
      | _ => EOPatch.getitem p2 ft
      end
  end.




(** The store [h'] is [h] with new buffers after it. *)
Definition grows (h h' : heap) : Prop := exists ext, h' = h ++ ext.




(** The same example in a store: the feature ["x"] is an array whose buffer
    is at address 0. *)
Definition example_stored_patch : EOPatch.t loc :=
  EOPatch.store empty_patch DATA
    (VFeatureDict DATA [("x", VArray (mk_ndarray [1; 1; 1; 1] 0))]).

(** ** Frames of a patch *)






(** ** Feature lists *)



(** ** The input task for satellite bands *)

Module SentinelHubInputTask.

(** The numpy types the task names. *)
Inductive dtype := np_bool | np_uint8 | np_uint16 | np_float32.

(** [ProcApiType = namedtuple('ProcApiType', 'id unit sample_type np_dtype feature_type')] *)
Record ProcApiType := mk_type {
  id : string;
  unit : string;
  sample_type : string;
  np_dtype : dtype;
  feature_type : FeatureType
}.

#[global] Instance dtype_eq_dec : EqDecision dtype.
Proof. solve_decision. Defined.

#[global] Instance ProcApiType_eq_dec : EqDecision ProcApiType.
Proof. solve_decision. Defined.

(** [PREDEFINED_BAND_TYPES], in the order of the dictionary display. *)
Definition PREDEFINED_BAND_TYPES : list (ProcApiType * list string) :=
  [ (mk_type "mask" "DN" "UINT8" np_bool MASK, ["dataMask"]);
    (mk_type "uint8_data" "DN" "UINT8" np_uint8 DATA, ["SCL"; "SNW"; "CLD"]);
    (mk_type "bands" "DN" "UINT16" np_uint16 DATA,
     ["B01"; "B02"; "B03"; "B04"; "B05"; "B06"; "B07"; "B08"; "B8A"; "B09"; "B10";
      "B11"; "B12"; "B13"]);
    (mk_type "other" "REFLECTANCE" "FLOAT32" np_float32 DATA,
     ["sunAzimuthAngles"; "sunZenithAngles"; "viewAzimuthMean"; "viewZenithMean"]) ].

Definition CUSTOM_BAND_TYPE : ProcApiType :=
  mk_type "custom" "REFLECTANCE" "FLOAT32" np_float32 DATA.

(** A dictionary with [ProcApiType] keys, in insertion order. *)
Fixpoint requests_get {V} (k : ProcApiType) (d : list (ProcApiType * V)) : option V :=
  match d with
  | [] => None
  | (k', v) :: d' => if decide (k = k') then Some v else requests_get k d'
  end.

Fixpoint requests_set {V} (k : ProcApiType) (v : V) (d : list (ProcApiType * V))
    : list (ProcApiType * V) :=
  match d with
  | [] => [(k, v)]
  | (k', v') :: d' =>
      if decide (k = k') then (k, v) :: d' else (k', v') :: requests_set k v d'
  end.

(** [found or (CUSTOM_BAND_TYPE, band)], its first component: the first
    predefined type that lists the band, the custom type when none does. *)
Definition api_type_of (band : string) : ProcApiType :=
  match List.find (fun entry => existsb (String.eqb band) (snd entry))
                  PREDEFINED_BAND_TYPES with
  | Some (btype, _) => btype
  | None => CUSTOM_BAND_TYPE
  end.

(** [_add_request_bands]: the body of the loop and the loop; the dictionary
    is changed in place, here it is returned. *)
Definition add_request_band (request_dict : list (ProcApiType * list string))
    (band : string) : list (ProcApiType * list string) :=
  let api_type := api_type_of band in
  let request_dict :=
    match requests_get api_type request_dict with
    | Some _ => request_dict
    | None => requests_set api_type [] request_dict
    end in
  requests_set api_type
    (default [] (requests_get api_type request_dict) ++ [band]) request_dict.

Definition _add_request_bands (request_dict : list (ProcApiType * list string))
    (added_bands : list string) : list (ProcApiType * list string) :=
  fold_left add_request_band added_bands request_dict.

(** The exceptions of [_get_timestamp]. *)
Inductive timestamp_error :=
| ValueError_no_images
    (* 'No available images for requested time range: {}' *)
| IndexError_dates.

(** [_get_timestamp].  A date is a number of microseconds since the epoch,
    a [timedelta] a number of microseconds.  [time_interval] is the pair
    [parse_time_interval] returned and [get_dates] the list of dates
    [wfs.get_dates()] returns; the service itself is outside these
    sources. *)
Definition _get_timestamp (single_scene : bool) (time_difference : Z)
    (time_interval : pyvalue * pyvalue) (get_dates : list Z)
    : timestamp_error + list pyvalue :=
  if single_scene then inr [fst time_interval]
  else
    let dates := get_dates in
    if Nat.eqb (length dates) 0 then inl ValueError_no_images
    else
      let dates := merge_sort Z.le dates in
      match dates with
      | [] => inl IndexError_dates
      | first :: _ =>
          inr (map VDatetime
                 ([first] ++
                  map snd
                    (List.filter (fun d => Z.ltb time_difference (snd d - fst d))
                       (combine (removelast dates) (tl dates)))))
      end.

End SentinelHubInputTask.

(** ** Listing the features of a patch *)

Module EOPatchFeatures.

(** [set(names)]: every name once. *)
Definition set_of_names (names : list string) : list string :=
  fold_left (fun acc n => EOPatch.set_add n acc) names [].

(** [get_features]: the dictionary has a key for each feature type that is
    not empty, with the set of its feature names, or [True] for the
    timestamps and the bounding box. *)
Definition get_features (p : EOPatch.t (list Z))
    : result (list (FeatureType * EOPatch.selection)) :=
  foldM (fun feature_dict ft =>
           let* nonempty := truthy (EOPatch.getitem p ft) in
           if nonempty
           then
             if FeatureType.has_dict ft
             then match mapping_items (EOPatch.getitem p ft) with
                  | Some d =>
                      Ok (EOPatch.selection_set ft
                            (EOPatch.Names (set_of_names (dict_keys d))) feature_dict)
                  | None => Raise TypeError_not_iterable
                  end
             else Ok (EOPatch.selection_set ft EOPatch.Whole feature_dict)
           else Ok feature_dict)
        FeatureType.all [].

(** [get_feature_list]: a pair of feature type and name for every feature
    of a mapping namespace, and the feature type alone for the timestamps
    and the bounding box when they are not empty. *)
Definition get_feature_list (p : EOPatch.t (list Z)) : result (list EOPatch.feature_item) :=
  foldM (fun feature_list ft =>
           if FeatureType.has_dict ft
           then match mapping_items (EOPatch.getitem p ft) with
                | Some d =>
                    Ok (feature_list ++
                        map (fun feature_name => EOPatch.ItemTuple (Some ft) [feature_name])
                            (dict_keys d))
                | None => Raise TypeError_not_iterable
                end
           else
             let* nonempty := truthy (EOPatch.getitem p ft) in
             if nonempty then Ok (feature_list ++ [EOPatch.ItemType ft])
             else Ok feature_list)
        FeatureType.all [].

End EOPatchFeatures.

(** ** Loading a patch *)

Module EOPatchIO.

(** The exceptions of [load] and of what it calls. *)
Inductive load_error :=
| ValueError_path
    (* 'Specified path {} does not exist' *)
| ValueError_file_formats
    (* 'Found multiple file formats of the same data in {}' *)
| IsADirectoryError
    (* open() on a folder *)
| Raised (e : exn).
    (* raised by pickle, by numpy or by the constructor of the patch *)

Inductive outcome (A : Type) :=
| Loaded (a : A)
| Failed (e : load_error).
Arguments Loaded {A} _.
Arguments Failed {A} _.

(** [s.endswith(suffix)] and [s[:-n]], for a string of [n] characters at
    least. *)
Definition ends_with (s suffix : string) : bool :=
  Nat.leb (String.length suffix) (String.length s) &&
  String.eqb (String.substring (String.length s - String.length suffix)
                (String.length suffix) s) suffix.

Definition drop_last (n : nat) (s : string) : string :=
  String.substring 0 (String.length s - n) s.

(** What is left of [s] behind [prefix], when [s] starts with it. *)
Fixpoint strip_prefix (prefix s : string) : option string :=
  match prefix, s with
  | EmptyString, _ => Some s
  | String c prefix', String c' s' =>
      if Ascii.eqb c c' then strip_prefix prefix' s' else None
  | String _ _, EmptyString => None
  end.

(** The folder of a patch is described as [save] has it: its files under
    their paths relative to the folder, with ['/'] between a sub-folder and
    a file in it.  So a sub-folder is there when a file is in it, every file
    has content ([os.path.getsize] is never zero), and feature names are
    taken not to contain ['/']. *)
Section Disk.
Variable files : list (string * EOPatch.file_content).

(** [os.path.isfile(os.path.join(path, name))] *)
Definition isfile (name : string) : bool := dict_mem name files.

(** The files of the sub-folder [name], under their names in it. *)
Definition folder_files (name : string) : list (string * EOPatch.file_content) :=
  omap (fun kv => option_map (fun file_name => (file_name, snd kv))
                    (strip_prefix (name ++ "/") (fst kv))) files.

(** [os.path.isdir(os.path.join(path, name))] *)
Definition isdir (name : string) : bool :=
  negb (isfile name) && negb (Nat.eqb (length (folder_files name)) 0).

(** [os.path.exists(os.path.join(path, name))] *)
Definition path_exists (name : string) : bool := isfile name || isdir name.

(** [_get_file_paths] *)
Definition _get_file_paths (feature_list : list FeatureType) : list string :=
  map FeatureType.value feature_list.

(** [_get_file_format] *)
Definition _get_file_format : outcome (option EOPatch.FileFormat) :=
  fold_left
    (fun acc feature_path =>
       match acc with
       | Failed e => Failed e
       | Loaded file_format =>
           if isfile feature_path || isdir feature_path
           then
             let ftype_file_format :=
               if isfile feature_path then EOPatch.PICKLE else EOPatch.NPY in
             match file_format with
             | None => Loaded (Some ftype_file_format)
             | Some f =>
                 if match f, ftype_file_format with
                    | EOPatch.PICKLE, EOPatch.PICKLE | EOPatch.NPY, EOPatch.NPY => true
                    | _, _ => false
                    end
                 then Loaded file_format
                 else Failed ValueError_file_formats
             end
           else Loaded file_format
       end)
    (_get_file_paths (List.filter FeatureType.contains_ndarrays FeatureType.all))
    (Loaded None).

End Disk.

Section Load.

(** The order in which [os.listdir] lists the files of a folder is not
    specified: it is a parameter.  So are the readers, which are outside
    these sources: [pickle.load], [np.load] (with [mmap_mode='r'] or
    without) and [np.load] on a file opened by [gzip.open], each on the
    content of a file.  [loader_object] stands for the function object
    [_get_npy_gzip_loader] returns for a file. *)
Variable listdir_order :
  list (string * EOPatch.file_content) -> list (string * EOPatch.file_content).
Variable pickle_load : EOPatch.file_content -> result pyvalue.
Variable np_load : bool -> EOPatch.file_content -> result pyvalue.
Variable np_load_gzip : EOPatch.file_content -> result pyvalue.
Variable loader_object : EOPatch.file_content -> pyvalue.

(** [_load_npy_feature_type], on the files of the folder. *)
Definition _load_npy_feature_type (folder : list (string * EOPatch.file_content))
    (mmap lazy : bool) : result pydict :=
  foldM (fun data file =>
           let file_name := fst file in
           if ends_with file_name ".npy"
           then
             let feature_name := drop_last 4 file_name in
             let* feature := np_load mmap (snd file) in
             Ok (dict_set feature_name feature data)
           else if ends_with file_name ".npy.gz"
           then
             let feature_name := drop_last 7 file_name in
             let* feature := (if lazy then Ok (loader_object (snd file))
                              else np_load_gzip (snd file)) in
             Ok (dict_set feature_name feature data)
           else Ok data)
        (listdir_order folder) [].

(** The body of the loop of [load]. *)
Definition load_feature_type (files : list (string * EOPatch.file_content))
    (file_format : option EOPatch.FileFormat) (mmap lazy : bool)
    (eopatch_content : EOPatch.t (list Z)) (ft : FeatureType)
    : outcome (EOPatch.t (list Z)) :=
  let ftype_path := FeatureType.value ft in
  if negb (path_exists files ftype_path) then Loaded eopatch_content
  else if match file_format with Some EOPatch.PICKLE => true | _ => false end
          || negb (FeatureType.contains_ndarrays ft)
  then
    match dict_get ftype_path files with
    | Some content =>
        match pickle_load content with
        | Ok v => Loaded (EOPatch.store eopatch_content ft v)
        | Raise e => Failed (Raised e)
        end
    | None => Failed IsADirectoryError
    end
  else
    match _load_npy_feature_type (folder_files files ftype_path) mmap lazy with
    | Ok data => Loaded (EOPatch.store eopatch_content ft (VDict data))
    | Raise e => Failed (Raised e)
    end.

(** [load].  Under a path that is a file nothing exists, which is the
    folder without files. *)
Definition load (path : EOPatch.path_state) (feature_list : option (list FeatureType))
    (mmap lazy : bool) : outcome (EOPatch.t (list Z)) :=
  match path with
  | EOPatch.NoPath => Failed ValueError_path
  | _ =>
      let files := match path with EOPatch.IsDir files => files | _ => [] end in
      match _get_file_format files with
      | Failed e => Failed e
      | Loaded file_format =>
          match
            fold_left
              (fun acc ft =>
                 match acc with
                 | Failed e => Failed e
                 | Loaded eopatch_content =>
                     load_feature_type files file_format mmap lazy eopatch_content ft
                 end)
              (default FeatureType.all feature_list) (Loaded EOPatch.no_args)
          with
          | Failed e => Failed e
          | Loaded eopatch_content =>
              match EOPatch.init eopatch_content with
              | Ok p => Loaded p
              | Raise e => Failed (Raised e)
              end
          end
      end
  end.

End Load.

(** *** The folder a patch is saved to *)

(** The pickle file [save] writes for a namespace, if it writes one: for a
    namespace that is not empty, in the pickle format or when it holds no
    arrays. *)
Definition saved_file (p : EOPatch.t (list Z)) (file_format : EOPatch.FileFormat)
    (ft : FeatureType) : option EOPatch.file_content :=
  match truthy (EOPatch.getitem p ft) with
  | Ok true =>
      if match file_format with EOPatch.PICKLE => true | EOPatch.NPY => false end
         || negb (FeatureType.contains_ndarrays ft)
      then Some (EOPatch.Pickled (if FeatureType.has_dict ft
                                  then VDict (items_of p ft)
                                  else EOPatch.getitem p ft))
      else None
  | _ => None
  end.

(** The files [save] writes into the sub-folder of a namespace: one for each
    feature, for a namespace of arrays that is not empty, in the npy format. *)
Definition saved_folder (p : EOPatch.t (list Z)) (file_format : EOPatch.FileFormat)
    (compress : bool) (ft : FeatureType) : list (string * EOPatch.file_content) :=
  match truthy (EOPatch.getitem p ft) with
  | Ok true =>
      if match file_format with EOPatch.PICKLE => true | EOPatch.NPY => false end
         || negb (FeatureType.contains_ndarrays ft)
      then []
      else map (fun item => ((fst item ++ (if compress then ".npy.gz" else ".npy"))%string,
                             EOPatch.NpyFile compress (snd item)))
               (items_of p ft)
  | _ => []
  end.

(** Both, under their paths in the folder of the patch. *)
Definition saved_files (p : EOPatch.t (list Z)) (file_format : EOPatch.FileFormat)
    (compress : bool) (ft : FeatureType) : list (string * EOPatch.file_content) :=
  match saved_file p file_format ft with
  | Some content => [(FeatureType.value ft, content)]
  | None => []
  end ++
  map (fun file => ((FeatureType.value ft ++ "/" ++ fst file)%string, snd file))
      (saved_folder p file_format compress ft).

(** A feature name without the separator of paths. *)
Fixpoint plain_name (s : string) : bool :=
  match s with
  | EmptyString => true
  | String c s' => negb (Ascii.eqb c "/") && plain_name s'
  end.

(** A path that is neither the pickle file of a namespace nor in its
    sub-folder. *)
Definition foreign (ft : FeatureType) (k : string) : Prop :=
  k <> FeatureType.value ft /\ strip_prefix (FeatureType.value ft ++ "/") k = None.

(** Readers for the examples: they give back what [save] wrote and raise on
    any other file (the kind of the exception plays no part). *)
Definition example_pickle_load (content : EOPatch.file_content) : result pyvalue :=
  match content with
  | EOPatch.Pickled v => Ok v
  | EOPatch.NpyFile _ _ => Raise ValueError_external
  end.

Definition example_np_load (mmap : bool) (content : EOPatch.file_content)
    : result pyvalue :=
  match content with
  | EOPatch.NpyFile false (VArray a) => Ok (VArray a)
  | _ => Raise ValueError_numpy
  end.

Definition example_np_load_gzip (content : EOPatch.file_content) : result pyvalue :=
  match content with
  | EOPatch.NpyFile true (VArray a) => Ok (VArray a)
  | _ => Raise ValueError_numpy
  end.

End EOPatchIO.

(** * Properties *)

(** ** Attributes *)

Lemma of_value_value ft : FeatureType.of_value (FeatureType.value ft) = Some ft.
Proof. destruct ft; reflexivity. Qed.

Lemma getitem_store_eq {B} (p : EOPatch.t B) ft v :
  EOPatch.getitem (EOPatch.store p ft v) ft = v.
Proof. destruct ft; reflexivity. Qed.

Lemma getitem_store_ne {B} (p : EOPatch.t B) ft ft' v :
  ft <> ft' -> EOPatch.getitem (EOPatch.store p ft v) ft' = EOPatch.getitem p ft'.
Proof. destruct ft, ft'; intros H; try reflexivity; congruence. Qed.

Lemma store_getitem {B} (p : EOPatch.t B) ft v ft' :
  EOPatch.getitem (EOPatch.store p ft v) ft' =
  if decide (ft = ft') then v else EOPatch.getitem p ft'.
Proof.
  destruct (decide (ft = ft')) as [<-|Hne].
  - apply getitem_store_eq.
  - now apply getitem_store_ne.
Qed.

Lemma all_complete ft : In ft FeatureType.all.
Proof. destruct ft; cbn; tauto. Qed.

(** A successful check yields an object of the attribute's kind. *)
Lemma checked_value_ok {B} ft (v v' : value B) :
  EOPatch.checked_value ft v = Ok v' -> attribute_ok ft v'.
Proof.
  unfold EOPatch.checked_value, attribute_ok, FeatureType.has_dict.
  destruct (isinstance_kind (FeatureType.type ft) v) eqn:Hk; cbn; [|discriminate].
  destruct (FeatureType.type ft) eqn:Ht; cbn.
  - destruct v; cbn in Hk; try discriminate; cbn.
    + unfold FeatureDict.init.
      destruct (foldM _ _ _); cbn; [|discriminate].
      intros [= <-]. eauto.
    + intros [= <-]. eauto.
  - destruct v; cbn in Hk; try discriminate. intros [= <-]. eauto.
  - trivial.
Qed.

Lemma init_well_typed {B} (kw p : EOPatch.t B) :
  EOPatch.init kw = Ok p -> well_typed p.
Proof.
  unfold EOPatch.init. intros H.
  repeat match type of H with
         | rbind ?r _ = Ok _ =>
             let E := fresh "E" in
             destruct r eqn:E; cbn [rbind] in H; [apply checked_value_ok in E|discriminate]
         end.
  injection H as <-. intros ft. destruct ft; cbn; assumption.
Qed.

Lemma store_well_typed {B} (p : EOPatch.t B) ft v :
  well_typed p -> attribute_ok ft v -> well_typed (EOPatch.store p ft v).
Proof.
  intros Hp Hv ft'. rewrite store_getitem.
  destruct (decide (ft = ft')) as [<-|]; [assumption|apply Hp].
Qed.

Lemma setattr_well_typed {B} key (v : value B) p r p' :
  well_typed p -> EOPatch.setattr key v p = (r, p') -> well_typed p'.
Proof.
  unfold EOPatch.setattr. intros Hp.
  destruct (FeatureType.of_value key) as [ft|].
  - destruct (EOPatch.checked_value ft v) eqn:E; intros [= <- <-]; [|assumption].
    apply store_well_typed; [assumption|]. eapply checked_value_ok, E.
  - intros [= <- <-]. assumption.
Qed.

Lemma attribute_ok_same_kind {B} ft ft' (d d' : list (string * value B)) :
  attribute_ok ft (VFeatureDict ft' d) -> attribute_ok ft (VFeatureDict ft' d').
Proof.
  unfold attribute_ok. destruct (FeatureType.type ft); eauto.
  intros [l Hl]. discriminate.
Qed.

Lemma setitem_feature_well_typed {B} ft name (v : value B) p r p' :
  well_typed p -> EOPatch.setitem_feature ft name v p = (r, p') -> well_typed p'.
Proof.
  unfold EOPatch.setitem_feature. intros Hp.
  pose proof (Hp ft) as Hft.
  destruct (EOPatch.getitem p ft) eqn:E; try (intros [= <- <-]; assumption).
  - unfold attribute_ok in Hft. destruct (FeatureType.type ft) eqn:Ht.
    + destruct Hft as (? & ? & ?); discriminate.
    + destruct Hft as (? & ?); discriminate.
    + intros [= <- <-]. apply store_well_typed; [assumption|].
      unfold attribute_ok. rewrite Ht. trivial.
  - destruct (FeatureDict.setitem ft0 d name v); intros [= <- <-]; [|assumption].
    apply store_well_typed; [assumption|]. eapply attribute_ok_same_kind, Hft.
Qed.

Lemma mutation_well_typed {B} (m : EOPatch.method B unit) p r p' :
  mutation m -> well_typed p -> m p = (r, p') -> well_typed p'.
Proof.
  intros Hm Hp. destruct Hm.
  - apply setattr_well_typed, Hp.
  - apply setattr_well_typed, Hp.
  - apply setitem_feature_well_typed, Hp.
  - unfold EOPatch.add_feature. destruct (EOPatch._check_if_dict ft).
    + apply setitem_feature_well_typed, Hp.
    + intros [= <- <-]. assumption.
  - unfold EOPatch.remove_feature. destruct (EOPatch._check_if_dict ft).
    + pose proof (Hp ft) as Hft.
      destruct (EOPatch.getitem p ft) eqn:E; try (intros [= <- <-]; assumption).
      * destruct (dict_mem name d); intros [= <- <-]; [|assumption].
        apply store_well_typed; [assumption|].
        unfold attribute_ok in *. destruct (FeatureType.type ft); trivial.
        -- destruct Hft as (? & ? & ?); discriminate.
        -- destruct Hft as (? & ?); discriminate.
      * destruct (dict_mem name d); intros [= <- <-]; [|assumption].
        apply store_well_typed; [assumption|]. eapply attribute_ok_same_kind, Hft.
    + intros [= <- <-]. assumption.
  - apply setattr_well_typed, Hp.
  - apply setattr_well_typed, Hp.
Qed.

(** Every patch a program can hold is well typed. *)
Lemma reachable_well_typed {B} (p : EOPatch.t B) : reachable p -> well_typed p.
Proof.
  induction 1 as [kw p H|m p r p' _ IH Hm Hcall].
  - eapply init_well_typed, H.
  - eapply mutation_well_typed; eassumption.
Qed.

Lemma init_no_args {B} : EOPatch.init (B:=B) EOPatch.no_args = Ok empty_patch.
Proof. reflexivity. Qed.

Lemma empty_patch_reachable {B} : reachable (B:=B) empty_patch.
Proof. eapply reach_init, init_no_args. Qed.

(** C1 (amended): in every patch a program can hold, the attribute of every
    namespace other than the bounding box never reads [None]; in the patch
    built with no arguments the mappings and the timestamp list are empty,
    and the bounding box is [None]. *)
Theorem C1_attribute_not_None {B} (p : EOPatch.t B) (ft : FeatureType) :
  reachable p -> ft <> BBOX ->
  EOPatch.getitem p ft <> VNone /\
  (EOPatch.init EOPatch.no_args = Ok p ->
   EOPatch.getitem p ft = (if FeatureType.has_dict ft then VFeatureDict ft [] else VList []) /\
   EOPatch.bbox p = VNone).
Proof.
  intros Hp Hft. split.
  - pose proof (reachable_well_typed p Hp ft) as H. unfold attribute_ok in H.
    destruct ft; cbn in *; try congruence;
      destruct H as (? & H); try destruct H as (? & H); congruence.
  - intros H. pose proof (@init_no_args B) as H0. rewrite H0 in H.
    injection H as <-. split; [|reflexivity].
    destruct ft; try reflexivity. congruence.
Qed.

Lemma C1_attribute_not_None_witness :
  reachable (B:=list Z) empty_patch /\ TIMESTAMP <> BBOX /\
  EOPatch.getitem (B:=list Z) empty_patch TIMESTAMP <> VNone.
Proof.
  split; [apply empty_patch_reachable|]. split; [discriminate|].
  apply (C1_attribute_not_None empty_patch TIMESTAMP);
    [apply empty_patch_reachable|discriminate].
Defined.

(** C1, as stated, fails: the patch built with no arguments reads [None]
    as its bounding box. *)
Lemma C1_bbox_is_None :
  EOPatch.init (B:=list Z) EOPatch.no_args = Ok empty_patch /\
  reachable (B:=list Z) empty_patch /\
  EOPatch.getitem (B:=list Z) empty_patch BBOX = VNone.
Proof. split; [reflexivity|]. split; [apply empty_patch_reachable|reflexivity]. Qed.

(** ** The rank check *)

Lemma ndim_positive ft r : FeatureType.ndim ft = Some r -> r <> 0.
Proof. destruct ft; cbn; intros [= <-]; discriminate. Qed.

Lemma violates_iff {B} ft r (v : value B) :
  FeatureType.ndim ft = Some r ->
  FeatureDict.violates ft v = negb (is_ndarray_of_ndim r v).
Proof.
  intros H. unfold FeatureDict.violates. rewrite H.
  apply ndim_positive in H. destruct r; [congruence|reflexivity].
Qed.

Lemma setitem_violates {B} ft r (v : value B) d name :
  FeatureType.ndim ft = Some r -> is_ndarray_of_ndim r v = false ->
  FeatureDict.setitem ft d name v = Raise (ValueError_dimension ft r).
Proof.
  intros Hr Hv. unfold FeatureDict.setitem.
  rewrite (violates_iff ft r), Hv, Hr by assumption. reflexivity.
Qed.

(** Wrapping a plain mapping stops at its first entry that fails the check;
    every failing entry raises the same exception. *)
Lemma init_loop_violates {B} ft r (v : value B) name raw acc :
  FeatureType.ndim ft = Some r -> is_ndarray_of_ndim r v = false ->
  In (name, v) raw ->
  foldM (fun acc kv => FeatureDict.setitem ft acc (fst kv) (snd kv)) raw acc
  = Raise (ValueError_dimension ft r).
Proof.
  intros Hr Hv. revert acc. induction raw as [|[k u] raw IH]; intros acc Hin.
  - destruct Hin.
  - cbn [foldM fst snd]. destruct (FeatureDict.setitem ft acc k u) eqn:E; cbn [rbind].
    + destruct Hin as [[= -> ->]|Hin].
      * rewrite (setitem_violates ft r) in E by assumption. discriminate.
      * apply IH, Hin.
    + unfold FeatureDict.setitem in E.
      destruct (FeatureDict.violates ft u); [|discriminate].
      rewrite Hr in E. symmetry. exact E.
Qed.

Lemma checked_value_violates {B} ft r (v : value B) name raw :
  FeatureType.ndim ft = Some r -> is_ndarray_of_ndim r v = false ->
  In (name, v) raw ->
  EOPatch.checked_value ft (VDict raw) = Raise (ValueError_dimension ft r).
Proof.
  intros Hr Hv Hin. unfold EOPatch.checked_value, FeatureDict.init.
  assert (FeatureType.type ft = FeatureType.KDict) as Ht
    by (destruct ft; cbn in Hr; try discriminate; reflexivity).
  unfold FeatureType.has_dict. rewrite Ht. cbn.
  rewrite (init_loop_violates ft r v name) by assumption. reflexivity.
Qed.








(** C3, as stated, fails on a patch built with the validated mapping of
    another namespace: [EOPatch(data=EOPatch().meta_info)] keeps the mapping
    created for the meta-information, which has no rank, and the integer 5
    is then stored in the data namespace, whose rank is 4. *)
Lemma C3_foreign_mapping_accepts :
  EOPatch.init (B:=list Z) EOPatch.no_args = Ok empty_patch /\
  EOPatch.init (B:=list Z)
    (EOPatch.store EOPatch.no_args DATA (EOPatch.getitem empty_patch META_INFO))
  = Ok (EOPatch.store empty_patch DATA (VFeatureDict META_INFO [])) /\
  FeatureType.ndim DATA = Some 4 /\
  is_ndarray_of_ndim (B:=list Z) 4 (VInt 5) = false /\
  EOPatch.add_feature (B:=list Z) DATA "x" (VInt 5)
    (EOPatch.store empty_patch DATA (VFeatureDict META_INFO []))
  = (Ok tt, EOPatch.store empty_patch DATA (VFeatureDict META_INFO [("x", VInt 5)])).
Proof. repeat split; reflexivity. Qed.

(** ** The type check of attributes *)



(** C10, as stated, fails on its last part: the validated mapping of the
    meta-information, assigned to the mask namespace, passes the type check
    and is kept; the patch can be held by a program, its mask attribute is
    a validated mapping, and a string is then written into the mask
    namespace, whose rank is 4, without any rank check. *)
Lemma C10_foreign_mapping_unchecked :
  EOPatch.setitem (B:=list Z) MASK (EOPatch.getitem empty_patch META_INFO) empty_patch
  = (Ok tt, EOPatch.store empty_patch MASK (VFeatureDict META_INFO [])) /\
  reachable (B:=list Z) (EOPatch.store empty_patch MASK (VFeatureDict META_INFO [])) /\
  FeatureType.ndim MASK = Some 4 /\
  is_ndarray_of_ndim (B:=list Z) 4 (VStr "a") = false /\
  EOPatch.add_feature (B:=list Z) MASK "m" (VStr "a")
    (EOPatch.store empty_patch MASK (VFeatureDict META_INFO []))
  = (Ok tt, EOPatch.store empty_patch MASK (VFeatureDict META_INFO [("m", VStr "a")])).
Proof.
  split; [reflexivity|]. split; [|repeat split; reflexivity].
  apply (reach_call (EOPatch.setitem MASK (EOPatch.getitem empty_patch META_INFO))
           empty_patch (Ok tt)).
  - apply empty_patch_reachable.
  - constructor.
  - reflexivity.
Qed.

(** ** Dictionaries *)

Section DictFacts.
Context {V : Type}.
Implicit Types (d : list (string * V)) (k : string) (v : V).

Lemma dict_get_set_eq k v d : dict_get k (dict_set k v d) = Some v.
Proof.
  induction d as [|[k' v'] d IH]; cbn.
  - now rewrite String.eqb_refl.
  - destruct (String.eqb_spec k k') as [->|Hne]; cbn.
    + now rewrite String.eqb_refl.
    + destruct (String.eqb_spec k k'); [contradiction|exact IH].
Qed.

Lemma dict_get_set_ne k k' v d :
  k <> k' -> dict_get k' (dict_set k v d) = dict_get k' d.
Proof.
  intros Hne. induction d as [|[k0 v0] d IH]; cbn.
  - destruct (String.eqb_spec k' k); [congruence|reflexivity].
  - destruct (String.eqb_spec k k0) as [->|Hk]; cbn.
    + destruct (String.eqb_spec k' k0); [congruence|reflexivity].
    + destruct (String.eqb_spec k' k0); [reflexivity|exact IH].
Qed.

Lemma dict_get_In k v d : dict_get k d = Some v -> In (k, v) d.
Proof.
  induction d as [|[k' v'] d IH]; cbn; [discriminate|].
  destruct (String.eqb_spec k k') as [->|Hne].
  - intros [= ->]. now left.
  - intros H. right. now apply IH.
Qed.

Lemma dict_get_None k d : dict_get k d = None <-> ~ In k (dict_keys d).
Proof.
  induction d as [|[k' v'] d IH]; cbn; [tauto|].
  destruct (String.eqb_spec k k') as [->|Hne].
  - split; [discriminate|]. intros H. exfalso. apply H. now left.
  - rewrite IH. intuition congruence.
Qed.

Lemma dict_get_Some_key k v d : dict_get k d = Some v -> In k (dict_keys d).
Proof.
  intros H. apply dict_get_In in H.
  unfold dict_keys. apply in_map_iff. now exists (k, v).
Qed.

Lemma dict_mem_In k d : dict_mem k d = true <-> In k (dict_keys d).
Proof.
  unfold dict_mem. destruct (dict_get k d) eqn:E.
  - split; [intros _; eapply dict_get_Some_key, E|reflexivity].
  - apply dict_get_None in E. split; [discriminate|contradiction].
Qed.

Lemma In_dict_get k v d :
  List.NoDup (dict_keys d) -> In (k, v) d -> dict_get k d = Some v.
Proof.
  induction d as [|[k' v'] d IH]; cbn; [tauto|].
  intros Hnd [Heq|Hin].
  - injection Heq as -> ->. now rewrite String.eqb_refl.
  - apply List.NoDup_cons_iff in Hnd as [Hk Hnd].
    destruct (String.eqb_spec k k') as [->|Hne].
    + exfalso. apply Hk. unfold dict_keys. apply in_map_iff. now exists (k', v).
    + now apply IH.
Qed.

Lemma nodupb_NoDup (l : list string) : nodupb l = true <-> List.NoDup l.
Proof.
  induction l as [|k l IH]; cbn.
  - split; [constructor|reflexivity].
  - rewrite andb_true_iff, negb_true_iff, IH, List.NoDup_cons_iff.
    assert (existsb (String.eqb k) l = false <-> ~ In k l) as ->; [|tauto].
    rewrite <- not_true_iff_false, existsb_exists.
    split; intros H.
    + intros Hin. apply H. exists k. split; [exact Hin|apply String.eqb_refl].
    + intros (x & Hin & Hx). apply String.eqb_eq in Hx. subst. contradiction.
Qed.

Lemma dict_keys_set k v d :
  dict_keys (dict_set k v d) =
  if dict_mem k d then dict_keys d else dict_keys d ++ [k].
Proof.
  unfold dict_mem, dict_keys. induction d as [|[k' v'] d IH]; cbn; [reflexivity|].
  destruct (String.eqb_spec k k') as [->|Hne]; cbn; [reflexivity|].
  rewrite IH. now destruct (dict_get k d).
Qed.

Lemma dict_keys_set_In k k' v d :
  In k' (dict_keys (dict_set k v d)) <-> k' = k \/ In k' (dict_keys d).
Proof.
  rewrite dict_keys_set. destruct (dict_mem k d) eqn:E.
  - apply dict_mem_In in E. split; [tauto|]. now intros [->|H].
  - rewrite in_app_iff. cbn. intuition congruence.
Qed.

Lemma NoDup_dict_set k v d :
  List.NoDup (dict_keys d) -> List.NoDup (dict_keys (dict_set k v d)).
Proof.
  intros H. rewrite dict_keys_set. destruct (dict_mem k d) eqn:E; [exact H|].
  apply List.NoDup_app; [exact H|constructor; [intros []|constructor]|].
  intros x Hx [<-|[]]. apply dict_mem_In in Hx. congruence.
Qed.

Lemma dict_union_cons d1 k v d2 :
  dict_union d1 ((k, v) :: d2) = dict_union (dict_set k v d1) d2.
Proof. reflexivity. Qed.

Lemma dict_get_union k d1 d2 :
  List.NoDup (dict_keys d2) ->
  dict_get k (dict_union d1 d2) =
  match dict_get k d2 with
  | Some v => Some v
  | None => dict_get k d1
  end.
Proof.
  revert d1. induction d2 as [|[k' v'] d2 IH]; intros d1 Hnd; [reflexivity|].
  cbn in Hnd. apply List.NoDup_cons_iff in Hnd as [Hk Hnd].
  rewrite dict_union_cons, IH by exact Hnd. cbn.
  destruct (String.eqb_spec k k') as [->|Hne].
  - apply dict_get_None in Hk. rewrite Hk. apply dict_get_set_eq.
  - rewrite dict_get_set_ne by congruence. reflexivity.
Qed.

Lemma dict_keys_union_In k d1 d2 :
  In k (dict_keys (dict_union d1 d2)) <-> In k (dict_keys d1) \/ In k (dict_keys d2).
Proof.
  revert d1. induction d2 as [|[k' v'] d2 IH]; intros d1; cbn [dict_keys map].
  - cbn. tauto.
  - rewrite dict_union_cons, IH, dict_keys_set_In. cbn. intuition congruence.
Qed.

Lemma NoDup_dict_union d1 d2 :
  List.NoDup (dict_keys d1) -> List.NoDup (dict_keys (dict_union d1 d2)).
Proof.
  revert d1. induction d2 as [|[k' v'] d2 IH]; intros d1 H; [exact H|].
  rewrite dict_union_cons. apply IH, NoDup_dict_set, H.
Qed.



Lemma common_keys_In k d1 d2 :
  In k (common_keys d1 d2) <-> In k (dict_keys d1) /\ In k (dict_keys d2).
Proof.
  unfold common_keys. rewrite List.filter_In, dict_mem_In. reflexivity.
Qed.

End DictFacts.

(** ** Induction on values and deep equality *)

Lemma value_ind' {B} (P : value B -> Prop) :
  P VNone ->
  (forall z, P (VInt z)) ->
  (forall s, P (VStr s)) ->
  (forall t, P (VDatetime t)) ->
  (forall a, P (VArray a)) ->
  (forall l, Forall P l -> P (VList l)) ->
  (forall l, Forall P l -> P (VTuple l)) ->
  (forall d, Forall (fun kv => P (snd kv)) d -> P (VDict d)) ->
  (forall ft d, Forall (fun kv => P (snd kv)) d -> P (VFeatureDict ft d)) ->
  forall v, P v.
Proof.
  intros HNone HInt HStr HDate HArr HList HTuple HDict HFD.
  fix IH 1. intros v. destruct v as [| | | | |l|l|d|ft d].
  - exact HNone.
  - apply HInt.
  - apply HStr.
  - apply HDate.
  - apply HArr.
  - apply HList. induction l as [|x l IHl]; constructor; [apply IH|exact IHl].
  - apply HTuple. induction l as [|x l IHl]; constructor; [apply IH|exact IHl].
  - apply HDict. induction d as [|[k x] d IHd]; constructor; [apply IH|exact IHd].
  - apply HFD. induction d as [|[k x] d IHd]; constructor; [apply IH|exact IHd].
Qed.

Lemma seq_eqb_refl {V} (eqb : V -> V -> bool) l :
  Forall (fun x => eqb x x = true) l -> seq_eqb eqb l l = true.
Proof. induction 1 as [|x l Hx _ IH]; cbn; [reflexivity|]. now rewrite Hx, IH. Qed.

Lemma seq_eqb_length {V} (eqb : V -> V -> bool) l m :
  seq_eqb eqb l m = true -> length l = length m.
Proof.
  revert m. induction l as [|x l IH]; intros [|y m]; cbn; try discriminate; [reflexivity|].
  intros [_ H]%andb_true_iff. f_equal. now apply IH.
Qed.

Lemma entries_in_true {V} (eqb : V -> V -> bool) e d :
  (forall k u, In (k, u) d -> exists w, dict_get k e = Some w /\ eqb u w = true) ->
  entries_in eqb e d = true.
Proof.
  induction d as [|[k u] d IH]; intros H; cbn; [reflexivity|].
  destruct (H k u) as (w & -> & ->); [now left|]. cbn.
  apply IH. intros k' u' Hin. apply H. now right.
Qed.

Lemma mapping_eqb_refl {V} (eqb : V -> V -> bool) d :
  List.NoDup (dict_keys d) -> Forall (fun kv => eqb (snd kv) (snd kv) = true) d ->
  mapping_eqb eqb d d = true.
Proof.
  intros Hnd Hd. unfold mapping_eqb. rewrite Nat.eqb_refl. cbn.
  apply entries_in_true. intros k u Hin. exists u. split.
  - now apply In_dict_get.
  - rewrite Forall_forall in Hd. apply (Hd (k, u)). now apply list_elem_of_In.
Qed.

Lemma array_equal_refl a : array_equal a a = true.
Proof. unfold array_equal. now rewrite !bool_decide_eq_true_2. Qed.

(** Deep equality is reflexive on Python objects. *)
Lemma deep_eq_refl (v : pyvalue) : distinct_keys v = true -> deep_eq v v = true.
Proof.
  induction v as [| | | | |l IH|l IH|d IH|ft d IH] using value_ind'; cbn; intros H.
  - reflexivity.
  - apply Z.eqb_refl.
  - apply String.eqb_refl.
  - apply Z.eqb_refl.
  - apply array_equal_refl.
  - apply seq_eqb_refl. rewrite forallb_forall in H.
    rewrite Forall_forall in *. intros x Hx. apply IH, H, list_elem_of_In; exact Hx.
  - apply seq_eqb_refl. rewrite forallb_forall in H.
    rewrite Forall_forall in *. intros x Hx. apply IH, H, list_elem_of_In; exact Hx.
  - apply andb_true_iff in H as [Hk H]. apply mapping_eqb_refl.
    + now apply nodupb_NoDup.
    + rewrite forallb_forall in H. rewrite Forall_forall in *.
      intros x Hx. apply IH; [exact Hx|]. apply H, list_elem_of_In, Hx.
  - apply andb_true_iff in H as [Hk H]. apply mapping_eqb_refl.
    + now apply nodupb_NoDup.
    + rewrite forallb_forall in H. rewrite Forall_forall in *.
      intros x Hx. apply IH; [exact Hx|]. apply H, list_elem_of_In, Hx.
Qed.

(** Deeply equal objects have the same truth value. *)
Lemma deep_eq_truthy (x y : pyvalue) : deep_eq x y = true -> truthy x = truthy y.
Proof.
  destruct x, y; cbn; try discriminate; try reflexivity.
  - intros ->%Z.eqb_eq. reflexivity.
  - intros ->%String.eqb_eq. reflexivity.
  - unfold array_equal. intros [_ H]%andb_true_iff.
    apply bool_decide_eq_true in H. now rewrite H.
  - intros ->%seq_eqb_length. reflexivity.
  - intros ->%seq_eqb_length. reflexivity.
  - unfold mapping_eqb. intros [->%Nat.eqb_eq _]%andb_true_iff. reflexivity.
  - unfold mapping_eqb. intros [->%Nat.eqb_eq _]%andb_true_iff. reflexivity.
  - unfold mapping_eqb. intros [->%Nat.eqb_eq _]%andb_true_iff. reflexivity.
  - unfold mapping_eqb. intros [->%Nat.eqb_eq _]%andb_true_iff. reflexivity.
Qed.

(** ** Well-formed patches *)

Lemma has_dict_type ft :
  FeatureType.has_dict ft = true <-> FeatureType.type ft = FeatureType.KDict.
Proof. unfold FeatureType.has_dict. destruct (FeatureType.type ft); split; congruence. Qed.

Lemma time_dependent_has_dict timestamp_entry ft :
  FeatureType.is_time_dependent timestamp_entry ft = true -> ft <> TIMESTAMP ->
  FeatureType.has_dict ft = true.
Proof. destruct ft; cbn; congruence. Qed.

(** On the mapping namespaces the table does not depend on the entry of
    the timestamps. *)
Lemma time_dependent_dict timestamp_entry ft :
  FeatureType.has_dict ft = true ->
  FeatureType.is_time_dependent timestamp_entry ft = FeatureType.is_time_dependent false ft.
Proof. now destruct ft. Qed.

Lemma well_formed_at {B} (p : EOPatch.t B) ft :
  well_formed p = true ->
  distinct_keys (EOPatch.getitem p ft) = true /\
  match FeatureType.type ft with
  | FeatureType.KDict => valid_mapping ft (EOPatch.getitem p ft) = true
  | FeatureType.KList => exists l, EOPatch.getitem p ft = VList l
  | FeatureType.KObject => True
  end.
Proof.
  unfold well_formed. rewrite forallb_forall. intros H.
  specialize (H ft (all_complete ft)). apply andb_true_iff in H as [H1 H2].
  split; [exact H1|]. destruct (FeatureType.type ft); [exact H2| |exact I].
  destruct (EOPatch.getitem p ft); try discriminate. eauto.
Qed.

(** In a well-formed patch a mapping namespace holds a validated mapping of
    its own type, with distinct names and entries that pass its check. *)
Lemma well_formed_dict {B} (p : EOPatch.t B) ft :
  well_formed p = true -> FeatureType.has_dict ft = true ->
  exists d,
    EOPatch.getitem p ft = VFeatureDict ft d /\
    List.NoDup (dict_keys d) /\
    (forall k v, In (k, v) d ->
       FeatureDict.violates ft v = false /\ distinct_keys v = true).
Proof.
  intros Hp Hd. destruct (well_formed_at p ft Hp) as [Hk Hv].
  apply has_dict_type in Hd. rewrite Hd in Hv.
  destruct (EOPatch.getitem p ft) as [| | | | | | | |ft' d]; try discriminate.
  cbn in Hv, Hk. apply andb_true_iff in Hv as [Hft Hv], Hk as [Hnd Hk].
  apply bool_decide_eq_true in Hft as ->. exists d. split; [reflexivity|].
  split; [now apply nodupb_NoDup|].
  intros k v Hin. rewrite forallb_forall in Hv, Hk.
  specialize (Hv (k, v) Hin). specialize (Hk (k, v) Hin). cbn in Hv, Hk.
  split; [now apply negb_true_iff|exact Hk].
Qed.

Lemma get_feature_dict {B} (p : EOPatch.t B) ft ft' d name v :
  EOPatch.getitem p ft = VFeatureDict ft' d ->
  EOPatch.get_feature p ft name = Ok v <-> dict_get name d = Some v.
Proof.
  intros H. unfold EOPatch.get_feature. rewrite H. cbn.
  destruct (dict_get name d); split; congruence.
Qed.

Lemma dict_set_fresh {V} k (v : V) d :
  ~ In k (dict_keys d) -> dict_set k v d = d ++ [(k, v)].
Proof.
  induction d as [|[k' v'] d IH]; cbn; [reflexivity|]. intros H.
  destruct (String.eqb_spec k k') as [->|Hne]; [tauto|].
  rewrite IH; [reflexivity|tauto].
Qed.

(** Wrapping a mapping with distinct keys keeps its entries as they are. *)
Lemma init_loop_inv {B} ft (d acc d' : list (string * value B)) :
  foldM (fun acc kv => FeatureDict.setitem ft acc (fst kv) (snd kv)) d acc = Ok d' ->
  List.NoDup (dict_keys acc ++ dict_keys d) ->
  d' = acc ++ d /\ forall k v, In (k, v) d -> FeatureDict.violates ft v = false.
Proof.
  revert acc. induction d as [|[k v] d IH]; intros acc; cbn [foldM fst snd].
  - intros [= <-] _. rewrite app_nil_r. split; [reflexivity|intros ? ? []].
  - unfold FeatureDict.setitem at 1.
    destruct (FeatureDict.violates ft v) eqn:Ev; cbn [rbind]; [discriminate|].
    intros H Hnd. cbn in Hnd.
    assert (~ In k (dict_keys acc)) as Hk.
    { apply NoDup_remove_2 in Hnd. rewrite in_app_iff in Hnd. tauto. }
    rewrite dict_set_fresh in H by exact Hk.
    apply IH in H as [-> H].
    + rewrite <- app_assoc. split; [reflexivity|].
      intros k' v' [[= <- <-]|Hin]; [exact Ev|eauto].
    + unfold dict_keys in *. rewrite map_app, <- app_assoc. exact Hnd.
Qed.

Lemma init_loop_valid {B} ft (d acc : list (string * value B)) :
  (forall k v, In (k, v) d -> FeatureDict.violates ft v = false) ->
  List.NoDup (dict_keys acc ++ dict_keys d) ->
  foldM (fun acc kv => FeatureDict.setitem ft acc (fst kv) (snd kv)) d acc = Ok (acc ++ d).
Proof.
  revert acc. induction d as [|[k v] d IH]; intros acc Hv Hnd; cbn [foldM fst snd].
  - now rewrite app_nil_r.
  - unfold FeatureDict.setitem at 1. rewrite (Hv k v) by now left. cbn [rbind].
    cbn in Hnd.
    assert (~ In k (dict_keys acc)) as Hk.
    { apply NoDup_remove_2 in Hnd. rewrite in_app_iff in Hnd. tauto. }
    rewrite dict_set_fresh by exact Hk. rewrite IH.
    + now rewrite <- app_assoc.
    + intros k' v' Hin. apply (Hv k' v'). now right.
    + unfold dict_keys in *. rewrite map_app, <- app_assoc. exact Hnd.
Qed.

Lemma checked_value_dict_inv {B} ft (d : list (string * value B)) v :
  FeatureType.has_dict ft = true -> List.NoDup (dict_keys d) ->
  EOPatch.checked_value ft (VDict d) = Ok v ->
  v = VFeatureDict ft d /\ forall k u, In (k, u) d -> FeatureDict.violates ft u = false.
Proof.
  intros Hd Hnd. unfold EOPatch.checked_value, FeatureDict.init. rewrite Hd.
  apply has_dict_type in Hd. rewrite Hd. cbn.
  destruct (foldM _ d []) eqn:E; cbn; [|discriminate]. intros [= <-].
  apply init_loop_inv in E as [-> E]; [split; [reflexivity|exact E]|exact Hnd].
Qed.

Lemma checked_value_dict_valid {B} ft (d : list (string * value B)) :
  FeatureType.has_dict ft = true -> List.NoDup (dict_keys d) ->
  (forall k u, In (k, u) d -> FeatureDict.violates ft u = false) ->
  EOPatch.checked_value ft (VDict d) = Ok (VFeatureDict ft d).
Proof.
  intros Hd Hnd Hv. unfold EOPatch.checked_value, FeatureDict.init. rewrite Hd.
  apply has_dict_type in Hd. rewrite Hd. cbn.
  rewrite init_loop_valid by assumption. reflexivity.
Qed.

(** ** Merge *)

Section ContentLoop.
Context {B : Type} (F : FeatureType -> result (value B)).

Let body := fun (content : EOPatch.t B) ft =>
  let* v := F ft in Ok (EOPatch.store content ft v).

(** The loop over the feature types stores, for each of them, what the body
    computed. *)
Lemma content_loop_inv l c c' :
  List.NoDup l -> foldM body l c = Ok c' ->
  forall ft,
    (In ft l -> F ft = Ok (EOPatch.getitem c' ft)) /\
    (~ In ft l -> EOPatch.getitem c' ft = EOPatch.getitem c ft).
Proof.
  revert c. induction l as [|x l IH]; intros c Hnd; cbn [foldM].
  - intros [= <-] ft. split; [intros []|reflexivity].
  - unfold body at 1. destruct (F x) as [v|e] eqn:E; cbn [rbind]; [|discriminate].
    apply List.NoDup_cons_iff in Hnd as [Hx Hnd]. intros H ft.
    destruct (IH _ Hnd H ft) as [H1 H2]. split.
    + intros [<-|Hin]; [|now apply H1].
      destruct (IH _ Hnd H x) as [_ H3]. rewrite (H3 Hx), getitem_store_eq. exact E.
    + intros Hn. rewrite H2 by (cbn in Hn; tauto).
      apply getitem_store_ne. cbn in Hn. intros ->. tauto.
Qed.

Lemma content_loop_ok l c :
  (forall ft, In ft l -> exists v, F ft = Ok v) ->
  exists c', foldM body l c = Ok c'.
Proof.
  revert c. induction l as [|x l IH]; intros c H; cbn [foldM]; [eauto|].
  unfold body at 1. destruct (H x) as [v ->]; [now left|]. cbn [rbind].
  apply IH. intros ft Hin. apply H. now right.
Qed.

(** The loop raises what the first failing feature type raises. *)
Lemma content_loop_raise (P : exn -> Prop) l1 l2 c :
  (forall ft e, In ft l1 -> F ft = Raise e -> P e) ->
  (exists ft e, In ft l1 /\ F ft = Raise e) ->
  exists e, foldM body (l1 ++ l2) c = Raise e /\ P e.
Proof.
  revert c. induction l1 as [|x l1 IH]; intros c HP (ft & e & Hin & He).
  - destruct Hin.
  - cbn [app foldM]. unfold body at 1. destruct (F x) as [v|e'] eqn:E; cbn [rbind].
    + apply IH.
      * intros ft' e' Hin'. apply HP. now right.
      * destruct Hin as [->|Hin]; [congruence|]. eauto.
    + exists e'. split; [reflexivity|]. apply (HP x); [now left|exact E].
Qed.

End ContentLoop.

Lemma record_eta {B} (c : EOPatch.t B) :
  c = EOPatch.mk (EOPatch.getitem c DATA) (EOPatch.getitem c MASK)
        (EOPatch.getitem c SCALAR) (EOPatch.getitem c LABEL) (EOPatch.getitem c VECTOR)
        (EOPatch.getitem c DATA_TIMELESS) (EOPatch.getitem c MASK_TIMELESS)
        (EOPatch.getitem c SCALAR_TIMELESS) (EOPatch.getitem c LABEL_TIMELESS)
        (EOPatch.getitem c VECTOR_TIMELESS) (EOPatch.getitem c META_INFO)
        (EOPatch.getitem c BBOX) (EOPatch.getitem c TIMESTAMP).
Proof. destruct c; reflexivity. Qed.

Lemma all_NoDup : List.NoDup FeatureType.all.
Proof.
  unfold FeatureType.all.
  repeat (constructor; [cbn; intuition discriminate|]). constructor.
Qed.

(** The constructor checks every argument; what it stores for an argument
    is the checked value. *)
Lemma init_inv {B} (kw p : EOPatch.t B) :
  EOPatch.init kw = Ok p ->
  forall ft,
    EOPatch.checked_value ft
      (if FeatureType.has_dict ft then EOPatch.or_default (EOPatch.getitem kw ft) (VDict [])
       else if decide (ft = TIMESTAMP)
            then EOPatch.or_default (EOPatch.getitem kw ft) (VList [])
            else EOPatch.getitem kw ft)
    = Ok (EOPatch.getitem p ft).
Proof.
  unfold EOPatch.init. intros H.
  repeat match type of H with
         | rbind ?r _ = Ok _ =>
             let E := fresh "E" in destruct r eqn:E; cbn [rbind] in H; [|discriminate]
         end.
  injection H as <-. intros ft. destruct ft; cbn; assumption.
Qed.

Section MergeFacts.
Variable timestamp_entry : bool.
Variable set_order : list string -> list string.
Hypothesis set_order_perm : forall l, Permutation (set_order l) l.

Lemma set_order_common n (d1 d2 : pydict) :
  In n (set_order (common_keys d1 d2)) <-> In n (dict_keys d1) /\ In n (dict_keys d2).
Proof.
  rewrite <- common_keys_In. split; apply Permutation_in.
  - apply set_order_perm.
  - symmetry. apply set_order_perm.
Qed.

Lemma in_keys_get {V} n (d : list (string * V)) :
  In n (dict_keys d) -> exists v, dict_get n d = Some v.
Proof.
  intros H. destruct (dict_get n d) eqn:E; [eauto|].
  apply dict_get_None in E. contradiction.
Qed.

(** *** The loop over the common names, when values must be equal *)

Lemma merge_loop_eq_inv ft tm (d1 d2 : pydict) l c r :
  FeatureType.is_time_dependent timestamp_entry ft && negb tm = false ->
  (forall n, In n l -> In n (dict_keys d1) /\ In n (dict_keys d2)) ->
  foldM (EOPatch.merge_name timestamp_entry ft tm d1 d2) l c = r ->
  (r = Ok c /\
   forall n a b, In n l -> dict_get n d1 = Some a -> dict_get n d2 = Some b ->
                 deep_eq a b = true) \/
  (exists n a b, In n l /\ dict_get n d1 = Some a /\ dict_get n d2 = Some b /\
                 deep_eq a b = false /\ r = Raise (ValueError_merge_feature ft n)).
Proof.
  intros Hc. revert r. induction l as [|n l IH]; intros r Hl; cbn [foldM].
  - intros <-. left. split; [reflexivity|]. intros ? ? ? [].
  - unfold EOPatch.merge_name at 1. rewrite Hc.
    destruct (Hl n) as [H1 H2]; [now left|].
    apply in_keys_get in H1 as [a Ha], H2 as [b Hb]. rewrite Ha, Hb.
    destruct (deep_eq a b) eqn:E; cbn [negb rbind].
    + intros H. apply IH in H; [|intros; apply Hl; now right].
      destruct H as [[-> H]|(n' & a' & b' & Hin & H)].
      * left. split; [reflexivity|].
        intros n' a' b' [<-|Hin] Ha' Hb'; [congruence|eauto].
      * right. exists n', a', b'. split; [now right|exact H].
    + intros <-. right. exists n, a, b. repeat split; try assumption. now left.
Qed.

(** *** The loop over the common names, when values are concatenated *)

Lemma merge_loop_cat_inv ft tm (d1 d2 : pydict) l c c' :
  FeatureType.is_time_dependent timestamp_entry ft && negb tm = true ->
  foldM (EOPatch.merge_name timestamp_entry ft tm d1 d2) l c = Ok c' ->
  (forall n, In n l ->
     exists a b v, dict_get n d1 = Some a /\ dict_get n d2 = Some b /\
                   EOPatch.concatenate_data a b = Ok v /\ dict_get n c' = Some v) /\
  (forall n, ~ In n l -> dict_get n c' = dict_get n c) /\
  (List.NoDup (dict_keys c) -> List.NoDup (dict_keys c')).
Proof.
  intros Hc. revert c. induction l as [|n l IH]; intros c; cbn [foldM].
  - intros [= <-]. split; [intros ? []|]. split; [reflexivity|tauto].
  - unfold EOPatch.merge_name at 1. rewrite Hc.
    destruct (dict_get n d1) as [a|] eqn:Ha; [|discriminate].
    destruct (dict_get n d2) as [b|] eqn:Hb; [|discriminate].
    destruct (EOPatch.concatenate_data a b) as [v|] eqn:Hv; cbn [rbind]; [|discriminate].
    intros H. apply IH in H as (H1 & H2 & H3). split; [|split].
    + intros n' [<-|Hin]; [|now apply H1].
      destruct (in_dec string_dec n l) as [Hin|Hnin]; [now apply H1|].
      exists a, b, v. rewrite (H2 n Hnin), dict_get_set_eq. auto.
    + intros n' Hn. rewrite H2 by (cbn in Hn; tauto).
      apply dict_get_set_ne. cbn in Hn. intros ->. tauto.
    + intros Hnd. apply H3, NoDup_dict_set, Hnd.
Qed.



(** *** The whole merge *)

Lemma truthy_list (l : list pyvalue) :
  truthy (VList l) = Ok (negb (Nat.eqb (length l) 0)).
Proof. reflexivity. Qed.

Lemma concatenate_unfold p1 p2 ts1 ts2 :
  EOPatch.timestamp p1 = VList ts1 -> EOPatch.timestamp p2 = VList ts2 ->
  EOPatch.concatenate timestamp_entry set_order p1 p2 =
  let ex := negb (Nat.eqb (length ts1) 0) && negb (Nat.eqb (length ts2) 0) in
  let m := ex && deep_eq (VList ts1) (VList ts2) in
  let* content :=
    foldM (fun content ft =>
             let* v := EOPatch.merge_feature_type timestamp_entry set_order p1 p2 ex m ft in
             Ok (EOPatch.store content ft v))
          FeatureType.all EOPatch.no_args in
  EOPatch.init content.
Proof.
  intros H1 H2. unfold EOPatch.concatenate. rewrite H1, H2, !truthy_list.
  cbn [rbind]. destruct (negb (Nat.eqb (length ts1) 0)); reflexivity.
Qed.

Lemma well_formed_timestamp {B} (p : EOPatch.t B) :
  well_formed p = true ->
  exists l, EOPatch.timestamp p = VList l /\ forallb distinct_keys l = true.
Proof.
  intros Hp. destruct (well_formed_at p TIMESTAMP Hp) as [H1 [l H2]].
  cbn in H1, H2. rewrite H2 in H1. eauto.
Qed.

(** In the mapping branch the merged dictionary comes from the loop over the
    common names, started on the union. *)
Lemma merge_feature_type_dict p1 p2 ex m ft :
  well_formed p1 = true -> well_formed p2 = true ->
  FeatureType.has_dict ft = true ->
  exists d1 d2,
    EOPatch.getitem p1 ft = VFeatureDict ft d1 /\
    EOPatch.getitem p2 ft = VFeatureDict ft d2 /\
    EOPatch.merge_feature_type timestamp_entry set_order p1 p2 ex m ft =
    let* content := foldM (EOPatch.merge_name timestamp_entry ft m d1 d2)
                      (set_order (common_keys d1 d2)) (dict_union d1 d2) in
    Ok (VDict content).
Proof.
  intros Hp1 Hp2 Hd.
  destruct (well_formed_dict p1 ft Hp1 Hd) as (d1 & H1 & _).
  destruct (well_formed_dict p2 ft Hp2 Hd) as (d2 & H2 & _).
  exists d1, d2. split; [exact H1|]. split; [exact H2|].
  unfold EOPatch.merge_feature_type, EOPatch.merge_dicts. rewrite Hd, H1, H2. reflexivity.
Qed.

Lemma dict_types_split :
  FeatureType.all =
  [DATA; MASK; SCALAR; LABEL; VECTOR; DATA_TIMELESS; MASK_TIMELESS; SCALAR_TIMELESS;
   LABEL_TIMELESS; VECTOR_TIMELESS; META_INFO] ++ [BBOX; TIMESTAMP].
Proof. reflexivity. Qed.

Lemma in_dict_types ft :
  In ft [DATA; MASK; SCALAR; LABEL; VECTOR; DATA_TIMELESS; MASK_TIMELESS; SCALAR_TIMELESS;
         LABEL_TIMELESS; VECTOR_TIMELESS; META_INFO] <-> FeatureType.has_dict ft = true.
Proof. destruct ft; cbn; intuition discriminate. Qed.

(** What the merged patch holds in a mapping namespace is the dictionary the
    loop over the common names produced. *)
Lemma concatenate_dict_inv p1 p2 ts1 ts2 p ft :
  well_formed p1 = true -> well_formed p2 = true ->
  EOPatch.timestamp p1 = VList ts1 -> EOPatch.timestamp p2 = VList ts2 ->
  FeatureType.has_dict ft = true ->
  EOPatch.concatenate timestamp_entry set_order p1 p2 = Ok p ->
  exists d1 d2 content,
    EOPatch.getitem p1 ft = VFeatureDict ft d1 /\
    EOPatch.getitem p2 ft = VFeatureDict ft d2 /\
    List.NoDup (dict_keys d1) /\ List.NoDup (dict_keys d2) /\
    foldM (EOPatch.merge_name timestamp_entry ft
             (negb (Nat.eqb (length ts1) 0) && negb (Nat.eqb (length ts2) 0)
              && deep_eq (VList ts1) (VList ts2)) d1 d2)
          (set_order (common_keys d1 d2)) (dict_union d1 d2) = Ok content /\
    (List.NoDup (dict_keys content) ->
     EOPatch.getitem p ft = VFeatureDict ft content).
Proof.
  intros Hp1 Hp2 Ht1 Ht2 Hd. rewrite (concatenate_unfold p1 p2 ts1 ts2 Ht1 Ht2). cbn zeta.
  destruct (foldM _ FeatureType.all _) as [c|] eqn:E; cbn [rbind]; [|discriminate].
  intros Hinit.
  destruct (content_loop_inv _ _ _ _ all_NoDup E ft) as [H _].
  specialize (H (all_complete ft)).
  destruct (merge_feature_type_dict p1 p2
              (negb (Nat.eqb (length ts1) 0) && negb (Nat.eqb (length ts2) 0))
              (negb (Nat.eqb (length ts1) 0) && negb (Nat.eqb (length ts2) 0)
               && deep_eq (VList ts1) (VList ts2)) ft Hp1 Hp2 Hd)
    as (d1 & d2 & H1 & H2 & HF).
  rewrite HF in H. cbn zeta in H.
  destruct (foldM _ (set_order _) _) as [content|] eqn:El; cbn [rbind] in H; [|discriminate].
  injection H as H.
  destruct (well_formed_dict p1 ft Hp1 Hd) as (d1' & H1' & Hn1 & _).
  destruct (well_formed_dict p2 ft Hp2 Hd) as (d2' & H2' & Hn2 & _).
  assert (d1' = d1) as -> by congruence. assert (d2' = d2) as -> by congruence.
  exists d1, d2, content. repeat split; try assumption.
  intros Hnd. pose proof (init_inv c p Hinit ft) as Hi.
  rewrite Hd, <- H in Hi. cbn [EOPatch.or_default] in Hi.
  apply checked_value_dict_inv in Hi as [Hi _]; [congruence|exact Hd|exact Hnd].
Qed.

(** The merge raises what the first failing feature type raises. *)
Lemma concatenate_raise (P : exn -> Prop) p1 p2 ts1 ts2 l1 l2 :
  EOPatch.timestamp p1 = VList ts1 -> EOPatch.timestamp p2 = VList ts2 ->
  FeatureType.all = l1 ++ l2 ->
  (forall ft e, In ft l1 ->
     EOPatch.merge_feature_type timestamp_entry set_order p1 p2
       (negb (Nat.eqb (length ts1) 0) && negb (Nat.eqb (length ts2) 0))
       (negb (Nat.eqb (length ts1) 0) && negb (Nat.eqb (length ts2) 0)
        && deep_eq (VList ts1) (VList ts2)) ft = Raise e -> P e) ->
  (exists ft e, In ft l1 /\
     EOPatch.merge_feature_type timestamp_entry set_order p1 p2
       (negb (Nat.eqb (length ts1) 0) && negb (Nat.eqb (length ts2) 0))
       (negb (Nat.eqb (length ts1) 0) && negb (Nat.eqb (length ts2) 0)
        && deep_eq (VList ts1) (VList ts2)) ft = Raise e) ->
  exists e, EOPatch.concatenate timestamp_entry set_order p1 p2 = Raise e /\ P e.
Proof.
  intros Ht1 Ht2 Hall HP Hex.
  rewrite (concatenate_unfold p1 p2 ts1 ts2 Ht1 Ht2). cbn zeta. rewrite Hall.
  destruct (content_loop_raise _ P l1 l2 EOPatch.no_args HP Hex) as (e & -> & He).
  exists e. split; [reflexivity|exact He].
Qed.

End MergeFacts.

Lemma nonempty_length {X} (l : list X) : l <> [] -> negb (Nat.eqb (length l) 0) = true.
Proof. destruct l; [congruence|reflexivity]. Qed.

(** C2 (amended): when the two timestamp sequences are identical and not
    empty, a time-dependent mapping namespace is merged as a timeless one: a
    name both patches have must hold deeply equal values, otherwise the merge
    raises the error that names a namespace and a feature whose values
    differ; when the merge succeeds the value kept is the second patch's,
    not a concatenation. *)
Theorem C2_same_timestamps (timestamp_entry : bool)
    (set_order : list string -> list string)
    (p1 p2 : EOPatch.t (list Z)) (ts1 ts2 : list pyvalue)
    (ft : FeatureType) (name : string) (v1 v2 : pyvalue) :
  (forall l, Permutation (set_order l) l) ->
  well_formed p1 = true -> well_formed p2 = true ->
  EOPatch.timestamp p1 = VList ts1 -> EOPatch.timestamp p2 = VList ts2 ->
  ts1 <> [] -> deep_eq (VList ts1) (VList ts2) = true ->
  FeatureType.is_time_dependent timestamp_entry ft = true ->
  EOPatch.get_feature p1 ft name = Ok v1 ->
  EOPatch.get_feature p2 ft name = Ok v2 ->
  (deep_eq v1 v2 = false ->
   exists ft' name',
     EOPatch.concatenate timestamp_entry set_order p1 p2 = Raise (ValueError_merge_feature ft' name') /\
     conflicting p1 p2 ft' name') /\
  (deep_eq v1 v2 = true ->
   forall p, EOPatch.concatenate timestamp_entry set_order p1 p2 = Ok p ->
             EOPatch.get_feature p ft name = Ok v2).
Proof.
  intros Hperm Hp1 Hp2 Ht1 Ht2 Hne Hts Htd Hv1 Hv2.
  assert (ft <> TIMESTAMP) as Hnt.
  { intros ->. unfold EOPatch.get_feature in Hv1. cbn [EOPatch.getitem] in Hv1.
    rewrite Ht1 in Hv1. discriminate. }
  pose proof (time_dependent_has_dict timestamp_entry ft Htd Hnt) as Hd.
  assert (negb (Nat.eqb (length ts1) 0) && negb (Nat.eqb (length ts2) 0)
          && deep_eq (VList ts1) (VList ts2) = true) as Hm.
  { rewrite Hts. cbn in Hts. apply seq_eqb_length in Hts. rewrite <- Hts.
    now rewrite (nonempty_length ts1 Hne). }
  assert (forall ft', FeatureType.is_time_dependent timestamp_entry ft' && negb true = false) as Hc
    by (intros; apply andb_false_r).
  split.
  - intros Hneq.
    destruct (concatenate_raise timestamp_entry set_order
                (fun e => exists ft' name', e = ValueError_merge_feature ft' name' /\
                                            conflicting p1 p2 ft' name')
                p1 p2 ts1 ts2 _ _ Ht1 Ht2 dict_types_split) as (e & He & ft' & name' & -> & Hcf).
    + intros ft' e Hin%in_dict_types HF.
      destruct (merge_feature_type_dict timestamp_entry set_order p1 p2
                  (negb (Nat.eqb (length ts1) 0) && negb (Nat.eqb (length ts2) 0))
                  (negb (Nat.eqb (length ts1) 0) && negb (Nat.eqb (length ts2) 0)
                   && deep_eq (VList ts1) (VList ts2)) ft' Hp1 Hp2 Hin)
        as (d1 & d2 & H1 & H2 & HF').
      rewrite HF' in HF. cbn zeta in HF. rewrite Hm in HF.
      destruct (foldM _ (set_order _) _) as [c|e'] eqn:E; cbn [rbind] in HF; [discriminate|].
      injection HF as ->.
      apply merge_loop_eq_inv in E as [[E _]|(n & a & b & _ & Ha & Hb & Hab & E)];
        [discriminate| |apply Hc|].
      * injection E as E. subst e. exists ft', n. split; [reflexivity|].
        exists a, b. rewrite (get_feature_dict p1 ft' ft' d1), (get_feature_dict p2 ft' ft' d2)
          by assumption. auto.
      * intros n Hn. now apply (set_order_common set_order Hperm).
    + exists ft.
      destruct (merge_feature_type_dict timestamp_entry set_order p1 p2
                  (negb (Nat.eqb (length ts1) 0) && negb (Nat.eqb (length ts2) 0))
                  (negb (Nat.eqb (length ts1) 0) && negb (Nat.eqb (length ts2) 0)
                   && deep_eq (VList ts1) (VList ts2)) ft Hp1 Hp2 Hd)
        as (d1 & d2 & H1 & H2 & HF').
      rewrite HF'. cbn zeta. rewrite Hm. clear HF'.
      apply (get_feature_dict p1 ft ft d1) in Hv1; [|exact H1].
      apply (get_feature_dict p2 ft ft d2) in Hv2; [|exact H2].
      destruct (foldM _ (set_order _) _) as [c|e'] eqn:E; cbn [rbind].
      * exfalso.
        apply merge_loop_eq_inv in E as [[_ E]|(n & a & b & _ & _ & _ & _ & E)];
          [|discriminate|apply Hc|].
        -- rewrite (E name v1 v2) in Hneq; [discriminate| |exact Hv1|exact Hv2].
           apply (set_order_common set_order Hperm).
           split; eapply dict_get_Some_key; eassumption.
        -- intros n Hn. now apply (set_order_common set_order Hperm).
      * exists e'. split; [apply in_dict_types, Hd|reflexivity].
    + eauto.
  - intros Heq p Hp.
    destruct (concatenate_dict_inv timestamp_entry set_order p1 p2 ts1 ts2 p ft Hp1 Hp2 Ht1 Ht2 Hd Hp)
      as (d1 & d2 & content & H1 & H2 & Hn1 & Hn2 & E & Hget).
    rewrite Hm in E.
    apply merge_loop_eq_inv in E as [[E _]|(n & a & b & _ & _ & _ & _ & E)];
      [|discriminate|apply Hc|].
    + injection E as ->.
      rewrite (get_feature_dict p ft ft (dict_union d1 d2)).
      * rewrite dict_get_union by exact Hn2.
        apply (get_feature_dict p2 ft ft d2) in Hv2; [|exact H2]. now rewrite Hv2.
      * apply Hget, NoDup_dict_union, Hn1.
    + intros n Hn. now apply (set_order_common set_order Hperm).
Qed.

Lemma C2_same_timestamps_witness :
  well_formed (example_patch (example_array 1 [5%Z]) [VDatetime 0]) = true /\
  well_formed (example_patch (example_array 1 [6%Z]) [VDatetime 0]) = true /\
  deep_eq (VList [VDatetime 0]) (VList [VDatetime 0]) = true /\
  deep_eq (example_array 1 [5%Z]) (example_array 1 [6%Z]) = false /\
  exists ft' name',
    EOPatch.concatenate false (fun l => l)
      (example_patch (example_array 1 [5%Z]) [VDatetime 0])
      (example_patch (example_array 1 [6%Z]) [VDatetime 0])
    = Raise (ValueError_merge_feature ft' name') /\
    conflicting (example_patch (example_array 1 [5%Z]) [VDatetime 0])
                (example_patch (example_array 1 [6%Z]) [VDatetime 0]) ft' name'.
Proof.
  split; [reflexivity|]. split; [reflexivity|]. split; [reflexivity|].
  split; [reflexivity|].
  apply (proj1 (C2_same_timestamps false (fun l => l)
                  (example_patch (example_array 1 [5%Z]) [VDatetime 0])
                  (example_patch (example_array 1 [6%Z]) [VDatetime 0])
                  [VDatetime 0] [VDatetime 0] DATA "x"
                  (example_array 1 [5%Z]) (example_array 1 [6%Z])
                  (fun l => Permutation_refl l) eq_refl eq_refl eq_refl eq_refl
                  ltac:(discriminate) eq_refl eq_refl eq_refl eq_refl)
               eq_refl).
Defined.

(** C2, as stated, fails: two patches without timestamps have identical
    (empty) timestamp sequences, and a feature both have in a time-dependent
    namespace is concatenated along time, whether the values differ or not,
    and whatever the table of [is_time_dependent] says of the timestamps. *)
Lemma C2_empty_timestamps_concatenate :
  deep_eq (EOPatch.timestamp (example_patch (example_array 1 [5%Z]) []))
          (EOPatch.timestamp (example_patch (example_array 1 [6%Z]) [])) = true /\
  deep_eq (example_array 1 [5%Z]) (example_array 1 [6%Z]) = false /\
  forall timestamp_entry : bool,
    EOPatch.concatenate timestamp_entry (fun l => l)
      (example_patch (example_array 1 [5%Z]) [])
      (example_patch (example_array 1 [6%Z]) [])
    = Ok (example_patch (example_array 2 [5%Z; 6%Z]) []).
Proof. repeat split; reflexivity. Qed.

Lemma concatenate_data_valid ft r (a b : pyvalue) e :
  FeatureType.ndim ft = Some r ->
  FeatureDict.violates ft a = false -> FeatureDict.violates ft b = false ->
  EOPatch.concatenate_data a b = Raise e -> e = ValueError_concatenate.
Proof.
  intros Hr Ha Hb. pose proof (ndim_positive ft r Hr) as Hpos.
  rewrite (violates_iff ft r) in Ha, Hb by exact Hr.
  apply negb_false_iff in Ha, Hb.
  destruct a as [| | | |x| | | |]; try discriminate.
  destruct b as [| | | |y| | | |]; try discriminate.
  cbn in Ha, Hb. apply Nat.eqb_eq in Ha, Hb. unfold array_ndim in Ha, Hb.
  unfold EOPatch.concatenate_data, np_concatenate.
  destruct (bool_decide (tl (shape x) = tl (shape y))) eqn:E; cbn [negb].
  - apply bool_decide_eq_true in E.
    destruct (shape x) as [|t1 r1]; [cbn in Ha; congruence|].
    destruct (shape y) as [|t2 r2]; [cbn in Hb; congruence|].
    cbn in E. subst r2. rewrite bool_decide_eq_true_2 by reflexivity. discriminate.
  - congruence.
Qed.


Section MergeMappings.
Variable timestamp_entry : bool.
Variable set_order : list string -> list string.



End MergeMappings.




(** C4, as stated, fails on its last part.  Both patches hold the arrays
    ["v"] in the vector namespace, of shapes (1, 2) and (1, 3), and a list
    ["w"]; the timestamps differ.  When the common names are visited with
    ["w"] first, [concatenate_data] reads [.shape] of a list and the merge
    raises [AttributeError], not the error of the dimensions.  When the
    lists are in the data namespace, held there by the validated mapping of
    the meta-information of another patch, this is so in whatever order the
    common names are visited. *)
Lemma C4_shared_list_raises_first :
  (reachable (shared_list_patch 2 [VDatetime 0]) /\
   reachable (shared_list_patch 3 [VDatetime 1]) /\
   reachable (foreign_list_patch 2 [VDatetime 0]) /\
   reachable (foreign_list_patch 3 [VDatetime 1])) /\
  deep_eq (VList [VDatetime 0]) (VList [VDatetime 1]) = false /\
  (EOPatch.get_feature (shared_list_patch 2 [VDatetime 0]) VECTOR "v"
   = Ok (VArray (mk_ndarray [1; 2] [0; 0]%Z)) /\
   EOPatch.get_feature (shared_list_patch 3 [VDatetime 1]) VECTOR "v"
   = Ok (VArray (mk_ndarray [1; 3] [0; 0; 0]%Z)) /\
   EOPatch.get_feature (foreign_list_patch 2 [VDatetime 0]) VECTOR "v"
   = Ok (VArray (mk_ndarray [1; 2] [0; 0]%Z)) /\
   EOPatch.get_feature (foreign_list_patch 3 [VDatetime 1]) VECTOR "v"
   = Ok (VArray (mk_ndarray [1; 3] [0; 0; 0]%Z))) /\
  (forall timestamp_entry : bool,
     FeatureType.is_time_dependent timestamp_entry VECTOR = true /\
     EOPatch.concatenate timestamp_entry (fun l => l)
       (shared_list_patch 2 [VDatetime 0]) (shared_list_patch 3 [VDatetime 1])
     = Raise (AttributeError "shape")) /\
  (forall (timestamp_entry : bool) (set_order : list string -> list string),
     (forall l, Permutation (set_order l) l) ->
     EOPatch.concatenate timestamp_entry set_order
       (foreign_list_patch 2 [VDatetime 0]) (foreign_list_patch 3 [VDatetime 1])
     = Raise (AttributeError "shape")).
Proof.
  split; [|split; [reflexivity|split; [repeat split; reflexivity|split]]].
  - assert (forall cols ts, reachable (shared_list_patch cols ts)) as Hs.
    { intros cols ts.
      apply (reach_init
               (EOPatch.store
                  (EOPatch.store EOPatch.no_args VECTOR
                     (VDict [("w", VList [VInt 1]);
                             ("v", VArray (mk_ndarray [1; cols] (repeat 0%Z cols)))]))
                  TIMESTAMP (VList ts))).
      reflexivity. }
    assert (forall cols ts, reachable (foreign_list_patch cols ts)) as Hf.
    { intros cols ts.
      apply (reach_init
               (EOPatch.store
                  (EOPatch.store
                     (EOPatch.store EOPatch.no_args DATA
                        (VFeatureDict META_INFO [("w", VList [VInt 1])]))
                     VECTOR
                     (VDict [("v", VArray (mk_ndarray [1; cols] (repeat 0%Z cols)))]))
                  TIMESTAMP (VList ts))).
      reflexivity. }
    repeat split; auto.
  - intros timestamp_entry. split; reflexivity.
  - intros timestamp_entry set_order Hperm.
    destruct (concatenate_raise timestamp_entry set_order
                (fun e => e = AttributeError "shape")
                (foreign_list_patch 2 [VDatetime 0]) (foreign_list_patch 3 [VDatetime 1])
                [VDatetime 0] [VDatetime 1] [DATA]
                [MASK; SCALAR; LABEL; VECTOR; DATA_TIMELESS; MASK_TIMELESS; SCALAR_TIMELESS;
                 LABEL_TIMELESS; VECTOR_TIMELESS; META_INFO; BBOX; TIMESTAMP]
                eq_refl eq_refl eq_refl) as (e & He & ->); [| |exact He].
    + intros ft e [<-|[]].
      unfold EOPatch.merge_feature_type, EOPatch.merge_dicts.
      cbn [FeatureType.has_dict FeatureType.type foreign_list_patch EOPatch.getitem
           EOPatch.store EOPatch.data empty_patch mapping_items].
      change (common_keys [("w", VList [VInt 1])] [("w", VList [VInt 1])])
        with ["w"].
      rewrite (Permutation_length_1_inv (Permutation_sym (Hperm ["w"]))).
      cbn. congruence.
    + exists DATA, (AttributeError "shape"). split; [now left|].
      unfold EOPatch.merge_feature_type, EOPatch.merge_dicts.
      cbn [FeatureType.has_dict FeatureType.type foreign_list_patch EOPatch.getitem
           EOPatch.store EOPatch.data empty_patch mapping_items].
      change (common_keys [("w", VList [VInt 1])] [("w", VList [VInt 1])])
        with ["w"].
      rewrite (Permutation_length_1_inv (Permutation_sym (Hperm ["w"]))).
      reflexivity.
Qed.

(** *** Commutativity *)

Lemma or_default_not_None {B} (v d : value B) : v <> VNone -> EOPatch.or_default v d = v.
Proof. intros H. destruct v; cbn; congruence. Qed.

Lemma init_intro {B} (kw p : EOPatch.t B) :
  (forall ft, EOPatch.checked_value ft (EOPatch.getitem kw ft) = Ok (EOPatch.getitem p ft)) ->
  (forall ft, ft <> BBOX -> EOPatch.getitem kw ft <> VNone) ->
  EOPatch.init kw = Ok p.
Proof.
  intros H Hn. unfold EOPatch.init.
  pose proof (fun ft H' => or_default_not_None (EOPatch.getitem kw ft) (VDict []) (Hn ft H'))
    as Hd.
  pose proof (or_default_not_None (EOPatch.getitem kw TIMESTAMP) (VList [])
                (Hn TIMESTAMP ltac:(discriminate))) as Hl.
  pose proof (H DATA) as H1. pose proof (H MASK) as H2. pose proof (H SCALAR) as H3.
  pose proof (H LABEL) as H4. pose proof (H VECTOR) as H5.
  pose proof (H DATA_TIMELESS) as H6. pose proof (H MASK_TIMELESS) as H7.
  pose proof (H SCALAR_TIMELESS) as H8. pose proof (H LABEL_TIMELESS) as H9.
  pose proof (H VECTOR_TIMELESS) as H10. pose proof (H META_INFO) as H11.
  pose proof (H BBOX) as H12. pose proof (H TIMESTAMP) as H13.
  pose proof (Hd DATA ltac:(discriminate)) as D1.
  pose proof (Hd MASK ltac:(discriminate)) as D2.
  pose proof (Hd SCALAR ltac:(discriminate)) as D3.
  pose proof (Hd LABEL ltac:(discriminate)) as D4.
  pose proof (Hd VECTOR ltac:(discriminate)) as D5.
  pose proof (Hd DATA_TIMELESS ltac:(discriminate)) as D6.
  pose proof (Hd MASK_TIMELESS ltac:(discriminate)) as D7.
  pose proof (Hd SCALAR_TIMELESS ltac:(discriminate)) as D8.
  pose proof (Hd LABEL_TIMELESS ltac:(discriminate)) as D9.
  pose proof (Hd VECTOR_TIMELESS ltac:(discriminate)) as D10.
  pose proof (Hd META_INFO ltac:(discriminate)) as D11.
  cbn [EOPatch.getitem] in *.
  rewrite D1, H1, D2, H2, D3, H3, D4, H4, D5, H5, D6, H6, D7, H7, D8, H8, D9, H9,
    D10, H10, D11, H11, H12, Hl, H13.
  cbn [rbind]. now destruct p.
Qed.

Section Commutativity.
Variable timestamp_entry : bool.
Variable set_order : list string -> list string.
Hypothesis set_order_perm : forall l, Permutation (set_order l) l.

Lemma set_order_nil : set_order [] = [].
Proof. apply Permutation_nil. symmetry. apply set_order_perm. Qed.

Lemma common_keys_disjoint (d1 d2 : pydict) :
  (forall k, In k (dict_keys d1) -> ~ In k (dict_keys d2)) -> common_keys d1 d2 = [].
Proof.
  intros H. destruct (common_keys d1 d2) as [|k l] eqn:E; [reflexivity|].
  assert (In k (common_keys d1 d2)) as Hin by (rewrite E; now left).
  apply common_keys_In in Hin as [H1 H2]. now apply H in H1.
Qed.

(** With no common name the mapping branch returns the union. *)
Lemma merge_feature_type_disjoint p1 p2 ex m ft d1 d2 :
  FeatureType.has_dict ft = true ->
  EOPatch.getitem p1 ft = VFeatureDict ft d1 ->
  EOPatch.getitem p2 ft = VFeatureDict ft d2 ->
  (forall k, In k (dict_keys d1) -> ~ In k (dict_keys d2)) ->
  EOPatch.merge_feature_type timestamp_entry set_order p1 p2 ex m ft = Ok (VDict (dict_union d1 d2)).
Proof.
  intros Hd H1 H2 Hdis.
  unfold EOPatch.merge_feature_type, EOPatch.merge_dicts. rewrite Hd, H1, H2. cbn.
  rewrite (common_keys_disjoint d1 d2 Hdis), set_order_nil. reflexivity.
Qed.

Lemma merge_other_bbox ex m (b1 b2 : pyvalue) t1 t2 :
  truthy b1 = Ok t1 -> truthy b2 = Ok t2 -> (t1 = t2 -> b1 = b2) ->
  distinct_keys b1 = true ->
  EOPatch.merge_other BBOX ex m b1 b2 = Ok (if t1 then b1 else b2).
Proof.
  intros H1 H2 Heq Hk. unfold EOPatch.merge_other.
  rewrite bool_decide_eq_false_2 by discriminate. cbn [andb]. rewrite H1. cbn [rbind].
  destruct t1; cbn [negb orb]; [|reflexivity].
  destruct (deep_eq b1 b2) eqn:E.
  - apply deep_eq_truthy in E. rewrite H1, H2 in E. injection E as <-.
    now rewrite (Heq eq_refl).
  - rewrite H2. cbn [rbind]. destruct t2; cbn [negb]; [|reflexivity].
    rewrite <- (Heq eq_refl), deep_eq_refl in E by exact Hk. discriminate.
Qed.

Lemma merge_other_timestamp (ts1 ts2 : list pyvalue) :
  ts1 = ts2 \/ ts1 = [] \/ ts2 = [] ->
  forallb distinct_keys ts1 = true ->
  EOPatch.merge_other TIMESTAMP
    (negb (Nat.eqb (length ts1) 0) && negb (Nat.eqb (length ts2) 0))
    (negb (Nat.eqb (length ts1) 0) && negb (Nat.eqb (length ts2) 0)
     && deep_eq (VList ts1) (VList ts2))
    (VList ts1) (VList ts2)
  = Ok (VList (if Nat.eqb (length ts1) 0 then ts2 else ts1)).
Proof.
  intros Hc Hk. unfold EOPatch.merge_other.
  rewrite bool_decide_eq_true_2 by reflexivity. cbn [andb].
  destruct ts1 as [|x ts1]; [reflexivity|].
  destruct Hc as [ <- | [ Hc | -> ] ]; [|discriminate|reflexivity].
  rewrite (deep_eq_refl (VList (x :: ts1))) by exact Hk. reflexivity.
Qed.

Lemma timestamp_choice_comm (ts1 ts2 : list pyvalue) :
  ts1 = ts2 \/ ts1 = [] \/ ts2 = [] ->
  (if Nat.eqb (length ts1) 0 then ts2 else ts1)
  = (if Nat.eqb (length ts2) 0 then ts1 else ts2).
Proof.
  intros [ -> | [ -> | -> ] ].
  - now destruct (Nat.eqb (length ts2) 0).
  - now destruct ts2.
  - now destruct ts1.
Qed.


End Commutativity.

Lemma getitem_of_function {B} (f : FeatureType -> value B) ft :
  EOPatch.getitem (of_function f) ft = f ft.
Proof. destruct ft; reflexivity. Qed.

Lemma concatenate_intro timestamp_entry set_order p1 p2 ts1 ts2 (kw p : EOPatch.t (list Z)) :
  EOPatch.timestamp p1 = VList ts1 -> EOPatch.timestamp p2 = VList ts2 ->
  (forall ft,
     EOPatch.merge_feature_type timestamp_entry set_order p1 p2
       (negb (Nat.eqb (length ts1) 0) && negb (Nat.eqb (length ts2) 0))
       (negb (Nat.eqb (length ts1) 0) && negb (Nat.eqb (length ts2) 0)
        && deep_eq (VList ts1) (VList ts2)) ft = Ok (EOPatch.getitem kw ft)) ->
  EOPatch.init kw = Ok p ->
  EOPatch.concatenate timestamp_entry set_order p1 p2 = Ok p.
Proof.
  intros Ht1 Ht2 HF Hinit. rewrite (concatenate_unfold timestamp_entry set_order p1 p2 ts1 ts2 Ht1 Ht2).
  cbn zeta.
  destruct (content_loop_ok _ FeatureType.all EOPatch.no_args
              (fun ft _ => ex_intro _ _ (HF ft))) as [c Hc].
  rewrite Hc. cbn [rbind].
  assert (c = kw) as ->; [|exact Hinit].
  rewrite (record_eta c), (record_eta kw).
  pose proof (fun ft => proj1 (content_loop_inv _ _ _ _ all_NoDup Hc ft) (all_complete ft))
    as H.
  assert (forall ft, EOPatch.getitem c ft = EOPatch.getitem kw ft) as Heq.
  { intros ft. specialize (H ft). rewrite HF in H. congruence. }
  now rewrite !Heq.
Qed.

(** The merge of two well-formed patches without a common feature name,
    with compatible timestamps and bounding boxes, succeeds. *)
Lemma concatenate_disjoint timestamp_entry set_order (p1 p2 : EOPatch.t (list Z)) ts1 ts2 t1 t2 :
  (forall l, Permutation (set_order l) l) ->
  well_formed p1 = true -> well_formed p2 = true ->
  (forall ft name, In name (feature_names p1 ft) -> ~ In name (feature_names p2 ft)) ->
  EOPatch.timestamp p1 = VList ts1 -> EOPatch.timestamp p2 = VList ts2 ->
  ts1 = ts2 \/ ts1 = [] \/ ts2 = [] ->
  truthy (EOPatch.bbox p1) = Ok t1 -> truthy (EOPatch.bbox p2) = Ok t2 ->
  (t1 = t2 -> EOPatch.bbox p1 = EOPatch.bbox p2) ->
  EOPatch.concatenate timestamp_entry set_order p1 p2 = Ok (of_function (disjoint_merge p1 p2)).
Proof.
  intros Hperm Hp1 Hp2 Hdis Ht1 Ht2 Hts Hb1 Hb2 Hb.
  pose (kw := of_function (fun ft =>
                 if FeatureType.has_dict ft
                 then VDict (dict_union (items_of p1 ft) (items_of p2 ft))
                 else disjoint_merge p1 p2 ft)).
  destruct (well_formed_timestamp p1 Hp1) as (ts1' & Ht1' & Hk1).
  assert (ts1' = ts1) as -> by congruence.
  pose proof (proj1 (well_formed_at p1 BBOX Hp1)) as Hkb. cbn in Hkb.
  apply (concatenate_intro timestamp_entry set_order p1 p2 ts1 ts2 kw _ Ht1 Ht2).
  - intros ft. unfold kw. rewrite getitem_of_function.
    destruct (FeatureType.has_dict ft) eqn:Hd.
    + destruct (well_formed_dict p1 ft Hp1 Hd) as (d1 & H1 & _).
      destruct (well_formed_dict p2 ft Hp2 Hd) as (d2 & H2 & _).
      unfold items_of. rewrite H1, H2. cbn [default from_option id mapping_items].
      apply (merge_feature_type_disjoint timestamp_entry set_order Hperm); try assumption.
      intros k Hk. specialize (Hdis ft k). unfold feature_names in Hdis.
      rewrite H1, H2 in Hdis. cbn in Hdis. now apply Hdis.
    + unfold EOPatch.merge_feature_type. rewrite Hd.
      destruct ft; try discriminate; unfold disjoint_merge; cbn [FeatureType.type EOPatch.getitem].
      * rewrite (merge_other_bbox _ _ _ _ t1 t2) by assumption. rewrite Hb1.
        now destruct t1.
      * rewrite Ht1, Ht2, (merge_other_timestamp ts1 ts2 Hts Hk1), truthy_list.
        now destruct ts1.
  - apply init_intro.
    + intros ft. unfold kw. rewrite !getitem_of_function.
      destruct (FeatureType.has_dict ft) eqn:Hd.
      * destruct (well_formed_dict p1 ft Hp1 Hd) as (d1 & H1 & Hn1 & Hv1).
        destruct (well_formed_dict p2 ft Hp2 Hd) as (d2 & H2 & Hn2 & Hv2).
        unfold disjoint_merge, items_of.
        rewrite (proj1 (has_dict_type ft) Hd), H1, H2. cbn [default from_option id mapping_items].
        apply checked_value_dict_valid; [exact Hd|apply NoDup_dict_union, Hn1|].
        intros k u Hin. apply In_dict_get in Hin; [|apply NoDup_dict_union, Hn1].
        rewrite dict_get_union in Hin by exact Hn2. revert Hin.
        destruct (dict_get k d2) as [w|] eqn:E2; intros Hin.
        -- injection Hin as ->. apply (Hv2 k), dict_get_In, E2.
        -- apply (Hv1 k), dict_get_In, Hin.
      * destruct ft; try discriminate; unfold disjoint_merge;
          cbn [FeatureType.type EOPatch.getitem].
        -- reflexivity.
        -- rewrite Ht1, Ht2, truthy_list. now destruct ts1.
    + intros ft Hft. unfold kw. rewrite getitem_of_function.
      destruct (FeatureType.has_dict ft) eqn:Hd; [discriminate|].
      destruct ft; try discriminate; [congruence|].
      unfold disjoint_merge. cbn [FeatureType.type EOPatch.getitem].
      rewrite Ht1, Ht2, truthy_list. now destruct ts1.
Qed.




(** ** Timestamp consolidation *)

(** C8: the code misses duplicates.  With timestamps [t0, t1, t1], frames
    5, 6, 7 and the keep-list [t0], only the first frame of t1 goes: the
    data keeps the frames 5 and 7, whatever the table of [is_time_dependent]
    says of the timestamps.  If the table does not count them, the call
    returns t1 as removed and the timestamp list is [t0, t1], t1 still in
    it; if it does, the loop reaches the timestamp list after the arrays
    are cut, [.items()] raises [AttributeError], and the timestamp list
    stays [t0, t1, t1] beside two frames. *)
Lemma C8_duplicate_timestamp_kept (timestamp_entry : bool) :
  EOPatch.consolidate_timestamps timestamp_entry [VDatetime 0]
    (example_patch (example_array 3 [5%Z; 6%Z; 7%Z])
       [VDatetime 0; VDatetime 1; VDatetime 1])
  = if timestamp_entry
    then (Raise (AttributeError "items"),
          example_patch (example_array 2 [5%Z; 7%Z])
            [VDatetime 0; VDatetime 1; VDatetime 1])
    else (Ok [VDatetime 1],
          example_patch (example_array 2 [5%Z; 7%Z]) [VDatetime 0; VDatetime 1]).
Proof. destruct timestamp_entry; reflexivity. Qed.

(** Without duplicates the same call keeps the frames 5 and 7 of the dates
    it is given. *)
Lemma consolidate_example (timestamp_entry : bool) :
  EOPatch.consolidate_timestamps timestamp_entry [VDatetime 0; VDatetime 2]
    (example_patch (example_array 3 [5%Z; 6%Z; 7%Z])
       [VDatetime 0; VDatetime 1; VDatetime 2])
  = if timestamp_entry
    then (Raise (AttributeError "items"),
          example_patch (example_array 2 [5%Z; 7%Z])
            [VDatetime 0; VDatetime 1; VDatetime 2])
    else (Ok [VDatetime 1],
          example_patch (example_array 2 [5%Z; 7%Z]) [VDatetime 0; VDatetime 2]).
Proof. destruct timestamp_entry; reflexivity. Qed.

(** ** The fetch task *)

Lemma truthy_raise (v : pyvalue) e : truthy v = Raise e -> e = ValueError_numpy.
Proof.
  destruct v; cbn; try discriminate.
  destruct (buffer a) as [|z [|z' l]]; congruence.
Qed.

Section FetchTask.
Variable sz : pyvalue * pyvalue.
Variable resolution : option pyvalue.
Variable bbox_to_dimensions : pyvalue -> pyvalue -> result (pyvalue * pyvalue).
Variable parse_time_interval : pyvalue -> result pyvalue.
Variable _get_timestamp : pyvalue -> pyvalue -> result pyvalue.
Variable download_and_extract :
  pyvalue -> pyvalue * pyvalue -> pyvalue -> pyvalue -> EOPatch.method (list Z) unit.
Variable _add_meta_info : EOPatch.method (list Z) unit.

Let execute :=
  SentinelHubInputBase.execute (Some sz) resolution bbox_to_dimensions parse_time_interval
    _get_timestamp download_and_extract _add_meta_info.

(** With a patch passed in, the time interval must be empty, so no timestamps
    are resolved and the check is called with [None]: [len(None)] raises. *)
Lemma execute_existing_timestamps p bbox time_interval :
  truthy (EOPatch.timestamp p) = Ok true ->
  fst (execute (Some p) bbox time_interval) <> Raise ValueError_timestamp /\
  (truthy bbox = Ok false -> truthy time_interval = Ok false ->
   execute (Some p) bbox time_interval = (Raise TypeError_len, Some p)).
Proof.
  intros Hts. unfold execute, SentinelHubInputBase.execute.
  assert (truthy bbox = Ok false -> truthy time_interval = Ok false ->
          SentinelHubInputBase.execute_on (Some sz) resolution bbox_to_dimensions
            parse_time_interval _get_timestamp download_and_extract _add_meta_info
            bbox time_interval p = (Raise TypeError_len, p)) as Hon.
  { intros _ Hti. unfold SentinelHubInputBase.execute_on, sbind, lift, self_.
    rewrite Hti, Hts. reflexivity. }
  split.
  - destruct (truthy bbox) as [[|]|e] eqn:Hb; cbn [rbind fst]; try discriminate.
    + destruct (truthy time_interval) as [[|]|e] eqn:Hti; cbn [fst]; try discriminate.
      * rewrite Hon by reflexivity. discriminate.
      * apply truthy_raise in Hti as ->. discriminate.
    + apply truthy_raise in Hb as ->. discriminate.
  - intros Hb Hti. rewrite Hb, Hti. cbn [rbind]. now rewrite Hon.
Qed.

(** C9: the code raises the wrong error.  Executed on a patch with one
    timestamp, the task raises the TypeError of [len(None)], not the
    timestamp-mismatch error, and the patch is left as it was. *)
Lemma C9_existing_patch_TypeError :
  execute (Some (example_patch (example_array 1 [5%Z]) [VDatetime 0])) VNone VNone
  = (Raise TypeError_len, Some (example_patch (example_array 1 [5%Z]) [VDatetime 0])).
Proof. reflexivity. Qed.

End FetchTask.

(** The check itself tells equal timestamp lists from different ones. *)
Lemma check_timestamp_difference_examples :
  SentinelHubInputBase.check_timestamp_difference
    (VList [VDatetime 0; VDatetime 1]) (VList [VDatetime 0; VDatetime 1]) = Ok tt /\
  SentinelHubInputBase.check_timestamp_difference
    (VList [VDatetime 0; VDatetime 1]) (VList [VDatetime 0]) = Raise ValueError_timestamp /\
  SentinelHubInputBase.check_timestamp_difference
    (VList [VDatetime 0; VDatetime 1]) (VList [VDatetime 0; VDatetime 2])
    = Raise ValueError_timestamp /\
  SentinelHubInputBase.check_timestamp_difference
    VNone (VList [VDatetime 0]) = Raise TypeError_len.
Proof. repeat split; reflexivity. Qed.

(** ** Saving and the casing of feature names *)


Section Casing.
Variable lower : string -> string.












End Casing.



(** ** Copies and the sharing of buffers *)

Lemma grows_refl h : grows h h.
Proof. exists []. now rewrite app_nil_r. Qed.

Lemma grows_trans h1 h2 h3 : grows h1 h2 -> grows h2 h3 -> grows h1 h3.
Proof. intros [e1 ->] [e2 ->]. exists (e1 ++ e2). now rewrite app_assoc. Qed.














Lemma checked_value_typed {B} ft (v : value B) :
  attribute_ok ft v -> EOPatch.checked_value ft v = Ok v.
Proof.
  unfold attribute_ok, EOPatch.checked_value, FeatureType.has_dict.
  destruct (FeatureType.type ft).
  - intros (ft' & d & ->). reflexivity.
  - intros (l & ->). reflexivity.
  - intros _. reflexivity.
Qed.

Lemma setitem_typed {B} ft (v : value B) q :
  attribute_ok ft v -> EOPatch.setitem ft v q = (Ok tt, EOPatch.store q ft v).
Proof.
  intros H. unfold EOPatch.setitem, EOPatch.setattr.
  now rewrite of_value_value, checked_value_typed.
Qed.

Lemma py_copy_typed ft (v : rvalue) (h : heap) :
  attribute_ok ft v ->
  exists v' h', py_copy v h = (v', h') /\ grows h h' /\ attribute_ok ft v' /\
                ((forall a, v <> VArray a) -> v' = v).
Proof.
  intros Hv. destruct v as [| | | |a| | | |].
  all: try (eexists _, h; split; [reflexivity|]; split; [apply grows_refl|];
            split; [exact Hv|reflexivity]).
  cbn. eexists _, _. split; [reflexivity|]. split; [now eexists|].
  split; [|intros H; now destruct (H a)].
  unfold attribute_ok in *. destruct (FeatureType.type ft); [| |exact I].
  - destruct Hv as (? & ? & ?); discriminate.
  - destruct Hv as (? & ?); discriminate.
Qed.













(** On the example: the shallow copy allocates nothing and a write through
    it changes what the source reads; the deep copy puts the elements into a
    new buffer at address 1, and a write there leaves the source alone. *)
Lemma copy_examples :
  EOPatch.copy example_stored_patch None [[5%Z]]
    = Ok (example_stored_patch, [[5%Z]]) /\
  EOPatch.read_feature (write_buffer [[5%Z]] 0 [9%Z]) example_stored_patch DATA "x"
    = Some (mk_ndarray [1; 1; 1; 1] [9%Z]) /\
  EOPatch.deepcopy example_stored_patch None [[5%Z]]
    = Ok (EOPatch.store empty_patch DATA
            (VFeatureDict DATA [("x", VArray (mk_ndarray [1; 1; 1; 1] 1))]),
          [[5%Z]; [5%Z]]) /\
  EOPatch.read_feature (write_buffer [[5%Z]; [5%Z]] 1 [9%Z]) example_stored_patch DATA "x"
    = Some (mk_ndarray [1; 1; 1; 1] [5%Z]).
Proof. repeat split; reflexivity. Qed.

(** * Further properties *)

(** ** Adding, reading and removing a feature *)

Lemma dict_get_del_eq {V} k (d : list (string * V)) :
  List.NoDup (dict_keys d) -> dict_get k (dict_del k d) = None.
Proof.
  induction d as [|[k' v'] d IH]; cbn; [reflexivity|].
  intros H. apply List.NoDup_cons_iff in H as [Hk Hd].
  destruct (String.eqb_spec k k') as [->|Hne].
  - now apply dict_get_None.
  - cbn. destruct (String.eqb_spec k k'); [contradiction|]. now apply IH.
Qed.

Lemma dict_get_del_ne {V} k k' (d : list (string * V)) :
  k' <> k -> dict_get k' (dict_del k d) = dict_get k' d.
Proof.
  intros Hne. induction d as [|[k0 v0] d IH]; cbn; [reflexivity|].
  destruct (String.eqb_spec k k0) as [->|Hk].
  - destruct (String.eqb_spec k' k0); [contradiction|reflexivity].
  - cbn. now rewrite IH.
Qed.

Lemma In_dict_del {V} k (d : list (string * V)) kv : In kv (dict_del k d) -> In kv d.
Proof.
  induction d as [|[k0 v0] d IH]; cbn; [tauto|].
  destruct (String.eqb_spec k k0); cbn; tauto.
Qed.

Lemma NoDup_dict_del {V} k (d : list (string * V)) :
  List.NoDup (dict_keys d) -> List.NoDup (dict_keys (dict_del k d)).
Proof.
  induction d as [|[k0 v0] d IH]; cbn; [tauto|].
  intros H. apply List.NoDup_cons_iff in H as [Hk Hd].
  destruct (String.eqb_spec k k0); [exact Hd|]. cbn.
  apply List.NoDup_cons_iff. split; [|now apply IH].
  intros Hin. apply Hk. apply in_map_iff in Hin as (kv & E & Hin).
  apply in_map_iff. exists kv. split; [exact E|]. eapply In_dict_del, Hin.
Qed.

Lemma dict_del_set_fresh {V} k (v : V) d :
  ~ In k (dict_keys d) -> dict_del k (dict_set k v d) = d.
Proof.
  induction d as [|[k0 v0] d IH]; cbn.
  - intros _. now rewrite String.eqb_refl.
  - intros H. destruct (String.eqb_spec k k0) as [->|Hk]; [tauto|].
    cbn. destruct (String.eqb_spec k k0); [contradiction|].
    rewrite IH; [reflexivity|tauto].
Qed.

Lemma In_dict_set {V} k (v : V) d kv :
  In kv (dict_set k v d) -> kv = (k, v) \/ In kv d.
Proof.
  induction d as [|[k0 v0] d IH]; cbn; [intuition|].
  destruct (String.eqb_spec k k0); cbn; intuition.
Qed.

Lemma store_same {B} (p : EOPatch.t B) ft :
  EOPatch.store p ft (EOPatch.getitem p ft) = p.
Proof. destruct p, ft; reflexivity. Qed.

Lemma store_store {B} (p : EOPatch.t B) ft v w :
  EOPatch.store (EOPatch.store p ft v) ft w = EOPatch.store p ft w.
Proof. destruct ft; reflexivity. Qed.

(** Replacing the mapping of a namespace by a validated mapping of the same
    namespace keeps a patch well-formed. *)
Lemma well_formed_store_dict {B} (p : EOPatch.t B) ft (d : list (string * value B)) :
  well_formed p = true -> FeatureType.has_dict ft = true ->
  List.NoDup (dict_keys d) ->
  (forall k v, In (k, v) d ->
     FeatureDict.violates ft v = false /\ distinct_keys v = true) ->
  well_formed (EOPatch.store p ft (VFeatureDict ft d)) = true.
Proof.
  intros Hp Hd Hnd Hv. unfold well_formed in *. rewrite forallb_forall in *.
  intros ft' Hin. rewrite store_getitem.
  destruct (decide (ft = ft')) as [<-|Hne]; [|now apply Hp].
  apply has_dict_type in Hd. rewrite Hd. cbn [distinct_keys valid_mapping].
  rewrite bool_decide_eq_true_2 by reflexivity.
  rewrite (proj2 (nodupb_NoDup _) Hnd). cbn [andb].
  apply andb_true_iff. split; apply forallb_forall; intros [k v] Hkv; cbn [snd];
    destruct (Hv k v Hkv) as [H1 H2]; [exact H2|now rewrite H1].
Qed.

(** X1.  [add_feature] followed by [get_feature]: on a well-formed patch, a
    value that passes the rank check of the namespace is stored under the
    name, is what [get_feature] then returns, and nothing else changes; the
    patch stays well-formed. *)
Theorem add_feature_get_feature {B} (p : EOPatch.t B) (ft : FeatureType)
    (name : string) (v : value B) :
  well_formed p = true ->
  FeatureType.has_dict ft = true ->
  FeatureDict.violates ft v = false ->
  exists p',
    EOPatch.add_feature ft name v p = (Ok tt, p') /\
    EOPatch.get_feature p' ft name = Ok v /\
    (forall name', name' <> name ->
       EOPatch.get_feature p' ft name' = EOPatch.get_feature p ft name') /\
    (forall ft', ft' <> ft -> EOPatch.getitem p' ft' = EOPatch.getitem p ft') /\
    (distinct_keys v = true -> well_formed p' = true).
Proof.
  intros Hp Hd Hv.
  destruct (well_formed_dict p ft Hp Hd) as (d & Hg & Hnd & Hval).
  unfold EOPatch.add_feature, EOPatch._check_if_dict.
  rewrite (proj1 (has_dict_type ft) Hd).
  unfold EOPatch.setitem_feature, FeatureDict.setitem. rewrite Hg, Hv.
  eexists. split; [reflexivity|]. split; [|split; [|split]].
  - unfold EOPatch.get_feature. rewrite getitem_store_eq. cbn.
    now rewrite dict_get_set_eq.
  - intros name' Hne. unfold EOPatch.get_feature.
    rewrite getitem_store_eq, Hg. cbn. now rewrite dict_get_set_ne.
  - intros ft' Hne. now apply getitem_store_ne.
  - intros Hk. apply well_formed_store_dict; try assumption.
    + now apply NoDup_dict_set.
    + intros k u [[= <- <-]|Hin]%In_dict_set; [auto|now apply (Hval k u)].
Qed.

Lemma add_feature_get_feature_witness :
  well_formed (empty_patch (B:=list Z)) = true /\
  FeatureType.has_dict DATA = true /\
  FeatureDict.violates DATA (example_array 1 [5%Z]) = false /\
  exists p',
    EOPatch.add_feature DATA "x" (example_array 1 [5%Z]) empty_patch = (Ok tt, p') /\
    EOPatch.get_feature p' DATA "x" = Ok (example_array 1 [5%Z]) /\
    (forall name', name' <> "x" ->
       EOPatch.get_feature p' DATA name' = EOPatch.get_feature empty_patch DATA name') /\
    (forall ft', ft' <> DATA -> EOPatch.getitem p' ft' = EOPatch.getitem empty_patch ft') /\
    (distinct_keys (example_array 1 [5%Z]) = true -> well_formed p' = true).
Proof.
  split; [reflexivity|]. split; [reflexivity|]. split; [reflexivity|].
  apply (add_feature_get_feature empty_patch DATA "x" (example_array 1 [5%Z])
           eq_refl eq_refl eq_refl).
Defined.

(** X2.  [remove_feature] on a well-formed patch never raises for a mapping
    namespace: a name that is absent leaves the patch as it is; after the
    call [get_feature] raises [KeyError] for the name, every other feature
    and namespace is unchanged, and the patch is still well-formed. *)
Theorem remove_feature_get_feature {B} (p : EOPatch.t B) (ft : FeatureType)
    (name : string) :
  well_formed p = true ->
  FeatureType.has_dict ft = true ->
  exists p',
    EOPatch.remove_feature ft name p = (Ok tt, p') /\
    EOPatch.get_feature p' ft name = Raise (KeyError name) /\
    (forall name', name' <> name ->
       EOPatch.get_feature p' ft name' = EOPatch.get_feature p ft name') /\
    (forall ft', ft' <> ft -> EOPatch.getitem p' ft' = EOPatch.getitem p ft') /\
    (~ In name (feature_names p ft) -> p' = p) /\
    well_formed p' = true.
Proof.
  intros Hp Hd.
  destruct (well_formed_dict p ft Hp Hd) as (d & Hg & Hnd & Hval).
  unfold EOPatch.remove_feature, EOPatch._check_if_dict.
  rewrite (proj1 (has_dict_type ft) Hd), Hg.
  unfold feature_names. rewrite Hg. cbn [mapping_items default from_option id].
  destruct (dict_mem name d) eqn:Hm.
  - eexists. split; [reflexivity|]. split; [|split; [|split; [|split]]].
    + unfold EOPatch.get_feature. rewrite getitem_store_eq. cbn.
      now rewrite dict_get_del_eq.
    + intros name' Hne. unfold EOPatch.get_feature.
      rewrite getitem_store_eq, Hg. cbn. now rewrite dict_get_del_ne.
    + intros ft' Hne. now apply getitem_store_ne.
    + intros Hn. apply dict_mem_In in Hm. contradiction.
    + apply well_formed_store_dict; try assumption.
      * now apply NoDup_dict_del.
      * intros k u Hin%In_dict_del. now apply (Hval k u).
  - exists p. split; [reflexivity|].
    split; [|split; [|split; [|split]]]; try reflexivity; [|exact Hp].
    unfold EOPatch.get_feature. rewrite Hg. cbn.
    unfold dict_mem in Hm. destruct (dict_get name d); [discriminate|reflexivity].
Qed.

Lemma remove_feature_get_feature_witness :
  well_formed (example_patch (example_array 1 [5%Z]) []) = true /\
  FeatureType.has_dict DATA = true /\
  exists p',
    EOPatch.remove_feature DATA "x" (example_patch (example_array 1 [5%Z]) [])
      = (Ok tt, p') /\
    EOPatch.get_feature p' DATA "x" = Raise (KeyError "x") /\
    (forall name', name' <> "x" ->
       EOPatch.get_feature p' DATA name'
       = EOPatch.get_feature (example_patch (example_array 1 [5%Z]) []) DATA name') /\
    (forall ft', ft' <> DATA ->
       EOPatch.getitem p' ft'
       = EOPatch.getitem (example_patch (example_array 1 [5%Z]) []) ft') /\
    (~ In "x" (feature_names (example_patch (example_array 1 [5%Z]) []) DATA) ->
     p' = example_patch (example_array 1 [5%Z]) []) /\
    well_formed p' = true.
Proof.
  split; [reflexivity|]. split; [reflexivity|].
  apply (remove_feature_get_feature (example_patch (example_array 1 [5%Z]) []) DATA "x"
           eq_refl eq_refl).
Defined.

(** X3.  Removing a feature right after adding it under a name the
    namespace did not have gives back the patch as it was. *)
Theorem add_feature_remove_feature {B} (p : EOPatch.t B) (ft : FeatureType)
    (name : string) (v : value B) (p1 : EOPatch.t B) :
  well_formed p = true ->
  ~ In name (feature_names p ft) ->
  EOPatch.add_feature ft name v p = (Ok tt, p1) ->
  EOPatch.remove_feature ft name p1 = (Ok tt, p).
Proof.
  intros Hp Hn. unfold EOPatch.add_feature, EOPatch.remove_feature.
  destruct (EOPatch._check_if_dict ft) eqn:Hc; [|discriminate].
  assert (Hd : FeatureType.has_dict ft = true).
  { unfold EOPatch._check_if_dict in Hc. apply has_dict_type.
    destruct (FeatureType.type ft); congruence. }
  destruct (well_formed_dict p ft Hp Hd) as (d & Hg & _ & _).
  unfold feature_names in Hn. rewrite Hg in Hn. cbn in Hn.
  unfold EOPatch.setitem_feature, FeatureDict.setitem. rewrite Hg.
  destruct (FeatureDict.violates ft v); [discriminate|].
  intros [= <-]. rewrite getitem_store_eq.
  unfold dict_mem. rewrite dict_get_set_eq.
  rewrite store_store, dict_del_set_fresh by exact Hn.
  rewrite <- Hg. now rewrite store_same.
Qed.

Lemma add_feature_remove_feature_witness :
  well_formed (empty_patch (B:=list Z)) = true /\
  ~ In "x" (feature_names (empty_patch (B:=list Z)) DATA) /\
  EOPatch.add_feature DATA "x" (example_array 1 [5%Z]) empty_patch
    = (Ok tt, example_patch (example_array 1 [5%Z]) []) /\
  EOPatch.remove_feature DATA "x" (example_patch (example_array 1 [5%Z]) [])
    = (Ok tt, empty_patch).
Proof.
  split; [reflexivity|]. split; [intros []|]. split; [reflexivity|].
  apply (add_feature_remove_feature empty_patch DATA "x" (example_array 1 [5%Z])
           (example_patch (example_array 1 [5%Z]) []) eq_refl (fun H => H) eq_refl).
Defined.

(** ** More on the merge *)

Lemma of_function_getitem {B} (p : EOPatch.t B) (f : FeatureType -> value B) :
  (forall ft, f ft = EOPatch.getitem p ft) -> of_function f = p.
Proof.
  intros H. rewrite (record_eta p). unfold of_function. now rewrite !H.
Qed.

Lemma fold_dict_set_fresh {V} (d acc : list (string * V)) :
  List.NoDup (dict_keys acc ++ dict_keys d) ->
  fold_left (fun acc kv => dict_set (fst kv) (snd kv) acc) d acc = acc ++ d.
Proof.
  revert acc. induction d as [|[k v] d IH]; intros acc Hnd; cbn [fold_left fst snd].
  - now rewrite app_nil_r.
  - cbn in Hnd.
    assert (~ In k (dict_keys acc)) as Hk.
    { apply NoDup_remove_2 in Hnd. rewrite in_app_iff in Hnd. tauto. }
    rewrite dict_set_fresh by exact Hk. rewrite IH.
    + now rewrite <- app_assoc.
    + unfold dict_keys in *. rewrite map_app, <- app_assoc. exact Hnd.
Qed.

Lemma dict_union_nil_l {V} (d : list (string * V)) :
  List.NoDup (dict_keys d) -> dict_union [] d = d.
Proof. intros H. unfold dict_union. now rewrite fold_dict_set_fresh. Qed.

Lemma dict_set_same {V} k (v : V) d : dict_get k d = Some v -> dict_set k v d = d.
Proof.
  induction d as [|[k' v'] d IH]; cbn; [discriminate|].
  destruct (String.eqb_spec k k') as [->|Hne].
  - now intros [= ->].
  - intros H. now rewrite IH.
Qed.

Lemma dict_union_self {V} (d : list (string * V)) :
  List.NoDup (dict_keys d) -> dict_union d d = d.
Proof.
  intros Hnd. unfold dict_union.
  assert (forall l, (forall kv, In kv l -> dict_get (fst kv) d = Some (snd kv)) ->
                    fold_left (fun acc kv => dict_set (fst kv) (snd kv) acc) l d = d) as H.
  { induction l as [|kv l IH]; cbn [fold_left]; [reflexivity|].
    intros Hl. rewrite dict_set_same by (apply Hl; now left).
    apply IH. intros kv' Hin. apply Hl. now right. }
  apply H. intros [k v] Hin. now apply In_dict_get.
Qed.

Lemma well_formed_empty_patch {B} : well_formed (B:=B) empty_patch = true.
Proof. reflexivity. Qed.

(** X4.  The patch [EOPatch()] is a neutral element of the merge: merging a
    well-formed patch with it, on either side, gives the patch back, as long
    as the bounding box of the patch is [None] or a true value (an empty
    bounding box other than [None] is replaced by the [None] of the empty
    patch). *)
Theorem merge_with_empty (timestamp_entry : bool)
    (set_order : list string -> list string)
    (p : EOPatch.t (list Z)) :
  (forall l, Permutation (set_order l) l) ->
  well_formed p = true ->
  EOPatch.bbox p = VNone \/ truthy (EOPatch.bbox p) = Ok true ->
  EOPatch.concatenate timestamp_entry set_order p empty_patch = Ok p /\
  EOPatch.concatenate timestamp_entry set_order empty_patch p = Ok p.
Proof.
  intros Hperm Hp Hb.
  destruct (well_formed_timestamp p Hp) as (ts & Hts & _).
  assert (exists t, truthy (EOPatch.bbox p) = Ok t /\
                    (t = false -> EOPatch.bbox p = VNone)) as (t & Ht & Hf).
  { destruct Hb as [Hb|Hb]; [exists false; rewrite Hb; auto|exists true].
    split; [exact Hb|discriminate]. }
  assert (forall ft (d : pydict), EOPatch.getitem p ft = VFeatureDict ft d ->
            List.NoDup (dict_keys d)) as Hnd.
  { intros ft d Hg. destruct (well_formed_at p ft Hp) as [Hk _].
    rewrite Hg in Hk. cbn in Hk. apply andb_true_iff in Hk as [Hk _].
    now apply nodupb_NoDup. }
  assert (forall f, (forall ft, f ft = EOPatch.getitem p ft) ->
                    @Ok (EOPatch.t (list Z)) (of_function f) = Ok p) as Hfun.
  { intros f Hf'. f_equal. now apply of_function_getitem. }
  split.
  - rewrite (concatenate_disjoint timestamp_entry set_order p empty_patch ts [] t false Hperm Hp
               well_formed_empty_patch).
    + apply Hfun. intros ft. unfold disjoint_merge.
      destruct (FeatureType.type ft) eqn:Hty.
      * destruct (well_formed_dict p ft Hp (proj2 (has_dict_type ft) Hty)) as (d & Hg & _).
        unfold items_of. rewrite Hg. destruct ft; try discriminate; reflexivity.
      * assert (ft = TIMESTAMP) as -> by (destruct ft; cbn in Hty; congruence).
        cbn [EOPatch.getitem]. rewrite Hts. now destruct ts.
      * assert (ft = BBOX) as -> by (destruct ft; cbn in Hty; congruence).
        cbn [EOPatch.getitem]. rewrite Ht. destruct t; [reflexivity|].
        now rewrite Hf.
    + intros ft name _. destruct ft; cbn; tauto.
    + exact Hts.
    + reflexivity.
    + auto.
    + exact Ht.
    + reflexivity.
    + intros E. now apply Hf.
  - rewrite (concatenate_disjoint timestamp_entry set_order empty_patch p [] ts false t Hperm
               well_formed_empty_patch Hp).
    + apply Hfun. intros ft. unfold disjoint_merge.
      destruct (FeatureType.type ft) eqn:Hty.
      * destruct (well_formed_dict p ft Hp (proj2 (has_dict_type ft) Hty)) as (d & Hg & _).
        unfold items_of. rewrite Hg.
        replace (default [] (mapping_items (EOPatch.getitem empty_patch ft)))
          with (@nil (string * pyvalue)) by (destruct ft; try discriminate; reflexivity).
        cbn [default from_option id mapping_items].
        rewrite dict_union_nil_l; [reflexivity|]. now apply (Hnd ft).
      * assert (ft = TIMESTAMP) as -> by (destruct ft; cbn in Hty; congruence).
        reflexivity.
      * assert (ft = BBOX) as -> by (destruct ft; cbn in Hty; congruence).
        reflexivity.
    + intros ft name H. destruct ft; cbn in H; tauto.
    + reflexivity.
    + exact Hts.
    + auto.
    + reflexivity.
    + exact Ht.
    + intros E. symmetry. now apply Hf.
Qed.

(** X6.  The timestamps of a merged patch: those of the other patch when one
    list is empty, the second patch's when both are there and equal, and
    otherwise the first list followed by the second, neither sorted nor
    freed of duplicates. *)
Theorem merge_timestamps (timestamp_entry : bool)
    (set_order : list string -> list string)
    (p1 p2 p : EOPatch.t (list Z)) (ts1 ts2 : list pyvalue) :
  EOPatch.timestamp p1 = VList ts1 -> EOPatch.timestamp p2 = VList ts2 ->
  EOPatch.concatenate timestamp_entry set_order p1 p2 = Ok p ->
  EOPatch.timestamp p =
  VList (match ts1, ts2 with
         | [], _ => ts2
         | _, [] => ts1
         | _, _ => if deep_eq (VList ts1) (VList ts2) then ts2 else ts1 ++ ts2
         end).
Proof.
  intros Ht1 Ht2. rewrite (concatenate_unfold timestamp_entry set_order p1 p2 ts1 ts2 Ht1 Ht2). cbn zeta.
  destruct (foldM _ FeatureType.all _) as [c|] eqn:E; cbn [rbind]; [|discriminate].
  intros Hinit.
  destruct (content_loop_inv _ _ _ _ all_NoDup E TIMESTAMP) as [H _].
  specialize (H (all_complete TIMESTAMP)).
  pose proof (init_inv c p Hinit TIMESTAMP) as Hi.
  cbn [FeatureType.has_dict FeatureType.type EOPatch.getitem] in Hi, H.
  rewrite decide_True in Hi by reflexivity.
  unfold EOPatch.merge_feature_type in H.
  cbn [FeatureType.has_dict FeatureType.type EOPatch.getitem] in H.
  rewrite Ht1, Ht2 in H. unfold EOPatch.merge_other in H.
  rewrite bool_decide_eq_true_2 in H by reflexivity.
  destruct ts1 as [|x1 ts1], ts2 as [|x2 ts2]; cbn in H;
    try (injection H as H; rewrite <- H in Hi; cbn in Hi; congruence).
  cbn [deep_eq seq_eqb app].
  destruct (deep_eq x1 x2 && seq_eqb deep_eq ts1 ts2); cbn in H;
    injection H as H; rewrite <- H in Hi; cbn in Hi; congruence.
Qed.

Section MergeMore.
Variable timestamp_entry : bool.
Variable set_order : list string -> list string.
Hypothesis set_order_perm : forall l, Permutation (set_order l) l.

Lemma in_keys_iff_get {V} n (d : list (string * V)) :
  In n (dict_keys d) <-> dict_get n d <> None.
Proof.
  pose proof (dict_get_None n d) as H.
  destruct (dict_get n d) eqn:E.
  - split; [congruence|]. intros _. eapply dict_get_Some_key, E.
  - split; [|congruence]. intros Hin. now apply H in Hin.
Qed.

(** The loop over the common names changes the values under these names
    only, and no name comes or goes. *)
Lemma merge_loop_frame ft tm (d1 d2 : pydict) l c c' :
  (forall n, In n l -> In n (dict_keys d1) /\ In n (dict_keys d2)) ->
  (forall n, In n l -> In n (dict_keys c)) ->
  List.NoDup (dict_keys c) ->
  foldM (EOPatch.merge_name timestamp_entry ft tm d1 d2) l c = Ok c' ->
  List.NoDup (dict_keys c') /\
  (forall n, ~ In n l -> dict_get n c' = dict_get n c) /\
  (forall n, In n (dict_keys c') <-> In n (dict_keys c)).
Proof.
  intros Hl Hc Hnd E.
  destruct (FeatureType.is_time_dependent timestamp_entry ft && negb tm) eqn:Hb.
  - apply merge_loop_cat_inv in E as (H1 & H2 & H3); [|exact Hb].
    split; [now apply H3|]. split; [exact H2|].
    intros n. destruct (in_dec string_dec n l) as [Hin|Hnin].
    + destruct (H1 n Hin) as (a & b & v & _ & _ & _ & Hv).
      split; [intros _; now apply Hc|intros _].
      eapply dict_get_Some_key, Hv.
    + rewrite !in_keys_iff_get, (H2 n Hnin). reflexivity.
  - apply merge_loop_eq_inv in E as [[E _]|(n & a & b & _ & _ & _ & _ & E)];
      [|discriminate|exact Hb|exact Hl].
    injection E as <-. repeat split; auto.
Qed.

(** X7.  A successful merge neither drops nor invents features: in every
    mapping namespace the names of the result are those of the two patches
    together, and a feature that only one of the patches has is carried
    over with its value unchanged, whatever the timestamps. *)
Theorem merge_carries_features (p1 p2 p : EOPatch.t (list Z)) (ft : FeatureType) :
  well_formed p1 = true -> well_formed p2 = true ->
  FeatureType.has_dict ft = true ->
  EOPatch.concatenate timestamp_entry set_order p1 p2 = Ok p ->
  (forall name, In name (feature_names p ft) <->
                In name (feature_names p1 ft) \/ In name (feature_names p2 ft)) /\
  (forall name, ~ In name (feature_names p2 ft) ->
                EOPatch.get_feature p ft name = EOPatch.get_feature p1 ft name) /\
  (forall name, ~ In name (feature_names p1 ft) ->
                EOPatch.get_feature p ft name = EOPatch.get_feature p2 ft name).
Proof.
  intros Hp1 Hp2 Hd Hp.
  destruct (well_formed_timestamp p1 Hp1) as (ts1 & Ht1 & _).
  destruct (well_formed_timestamp p2 Hp2) as (ts2 & Ht2 & _).
  destruct (concatenate_dict_inv timestamp_entry set_order p1 p2 ts1 ts2 p ft Hp1 Hp2 Ht1 Ht2 Hd Hp)
    as (d1 & d2 & content & H1 & H2 & Hn1 & Hn2 & E & Hget).
  apply merge_loop_frame in E as (Hnd & Hframe & Hkeys).
  - specialize (Hget Hnd). unfold feature_names, EOPatch.get_feature.
    rewrite Hget, H1, H2. cbn [mapping_items default from_option id].
    split; [|split].
    + intros name. rewrite Hkeys. apply dict_keys_union_In.
    + intros name Hn. rewrite Hframe.
      * rewrite dict_get_union by exact Hn2.
        apply dict_get_None in Hn. now rewrite Hn.
      * intros Hin. apply (set_order_common set_order set_order_perm) in Hin. tauto.
    + intros name Hn. rewrite Hframe.
      * rewrite dict_get_union by exact Hn2.
        apply dict_get_None in Hn. rewrite Hn. now destruct (dict_get name d2).
      * intros Hin. apply (set_order_common set_order set_order_perm) in Hin. tauto.
  - intros n Hn. now apply (set_order_common set_order set_order_perm).
  - intros n Hn. apply (set_order_common set_order set_order_perm) in Hn.
    apply dict_keys_union_In. tauto.
  - now apply NoDup_dict_union.
Qed.

(** X8.  In a namespace that is not time-dependent (the timeless ones and
    the meta information) a name that both patches hold with values that are
    not deeply equal makes the merge raise, whatever the timestamps. *)
Theorem merge_timeless_conflict (p1 p2 : EOPatch.t (list Z)) (ft : FeatureType)
    (name : string) (v1 v2 : pyvalue) :
  well_formed p1 = true -> well_formed p2 = true ->
  FeatureType.has_dict ft = true ->
  FeatureType.is_time_dependent timestamp_entry ft = false ->
  EOPatch.get_feature p1 ft name = Ok v1 ->
  EOPatch.get_feature p2 ft name = Ok v2 ->
  deep_eq v1 v2 = false ->
  exists e, EOPatch.concatenate timestamp_entry set_order p1 p2 = Raise e.
Proof.
  intros Hp1 Hp2 Hd Htd Hv1 Hv2 Hne.
  destruct (EOPatch.concatenate timestamp_entry set_order p1 p2) as [p|e] eqn:Hp; [exfalso|eauto].
  destruct (well_formed_timestamp p1 Hp1) as (ts1 & Ht1 & _).
  destruct (well_formed_timestamp p2 Hp2) as (ts2 & Ht2 & _).
  destruct (concatenate_dict_inv timestamp_entry set_order p1 p2 ts1 ts2 p ft Hp1 Hp2 Ht1 Ht2 Hd Hp)
    as (d1 & d2 & content & H1 & H2 & Hn1 & Hn2 & E & Hget).
  apply (get_feature_dict p1 ft ft d1) in Hv1; [|exact H1].
  apply (get_feature_dict p2 ft ft d2) in Hv2; [|exact H2].
  apply merge_loop_eq_inv in E as [[_ E]|(n & a & b & _ & _ & _ & _ & E)];
    [|discriminate|now rewrite Htd|].
  - rewrite (E name v1 v2) in Hne; [discriminate| |exact Hv1|exact Hv2].
    apply (set_order_common set_order set_order_perm).
    split; eapply dict_get_Some_key; eassumption.
  - intros n Hn. now apply (set_order_common set_order set_order_perm).
Qed.

End MergeMore.

(** X5.  Merging a well-formed patch that has timestamps with itself gives
    the patch back. *)
Theorem merge_idempotent (timestamp_entry : bool)
    (set_order : list string -> list string)
    (p : EOPatch.t (list Z)) (t : bool) :
  (forall l, Permutation (set_order l) l) ->
  well_formed p = true ->
  EOPatch.timestamp p <> VList [] ->
  truthy (EOPatch.bbox p) = Ok t ->
  EOPatch.concatenate timestamp_entry set_order p p = Ok p.
Proof.
  intros Hperm Hp Hne Hb.
  destruct (well_formed_timestamp p Hp) as (ts & Hts & Hkts).
  assert (ts <> []) as Hts' by congruence.
  assert (negb (Nat.eqb (length ts) 0) && negb (Nat.eqb (length ts) 0)
          && deep_eq (VList ts) (VList ts) = true) as Hm.
  { rewrite (nonempty_length ts Hts'), (deep_eq_refl (VList ts)) by exact Hkts.
    reflexivity. }
  pose (kw := of_function (fun ft =>
                 if FeatureType.has_dict ft then VDict (items_of p ft)
                 else EOPatch.getitem p ft)).
  apply (concatenate_intro timestamp_entry set_order p p ts ts kw p Hts Hts).
  - intros ft. rewrite Hm. unfold kw. rewrite getitem_of_function.
    destruct (FeatureType.has_dict ft) eqn:Hd.
    + destruct (merge_feature_type_dict timestamp_entry set_order p p
                  (negb (Nat.eqb (length ts) 0) && negb (Nat.eqb (length ts) 0)) true
                  ft Hp Hp Hd) as (d1 & d2 & H1 & H2 & ->).
      assert (d2 = d1) as -> by congruence.
      destruct (well_formed_dict p ft Hp Hd) as (d & Hg & Hnd & Hv).
      assert (d1 = d) as -> by congruence. cbn zeta.
      unfold items_of. rewrite Hg. cbn [mapping_items default from_option id].
      rewrite dict_union_self by exact Hnd.
      destruct (foldM _ (set_order _) d) as [c|e] eqn:E.
      * apply merge_loop_eq_inv in E as [[E _]|(n & a & b & _ & _ & _ & _ & E)];
          [now injection E as <-|discriminate|apply andb_false_r|].
        intros n Hn. now apply (set_order_common set_order Hperm).
      * exfalso.
        apply merge_loop_eq_inv in E as [[E _]|(n & a & b & _ & Ha & Hb' & Hab & _)];
          [discriminate| |apply andb_false_r|].
        -- assert (b = a) as -> by congruence.
           rewrite deep_eq_refl in Hab; [discriminate|].
           eapply Hv, dict_get_In, Ha.
        -- intros n Hn. now apply (set_order_common set_order Hperm).
    + unfold EOPatch.merge_feature_type. rewrite Hd. unfold EOPatch.merge_other.
      destruct ft; try discriminate; cbn [EOPatch.getitem].
      * rewrite bool_decide_eq_false_2 by discriminate. cbn [andb]. rewrite Hb.
        cbn [rbind]. rewrite deep_eq_refl, orb_true_r; [reflexivity|].
        apply (well_formed_at p BBOX Hp).
      * rewrite andb_false_r, Hts, truthy_list. cbn [rbind].
        rewrite (deep_eq_refl (VList ts)), orb_true_r by exact Hkts. reflexivity.
  - apply init_intro.
    + intros ft. unfold kw. rewrite getitem_of_function.
      destruct (FeatureType.has_dict ft) eqn:Hd.
      * destruct (well_formed_dict p ft Hp Hd) as (d & Hg & Hnd & Hv).
        unfold items_of. rewrite Hg. cbn [mapping_items default from_option id].
        apply checked_value_dict_valid; [exact Hd|exact Hnd|].
        intros k u Hin. now apply (Hv k u).
      * destruct ft; try discriminate; cbn [EOPatch.getitem]; [reflexivity|].
        now rewrite Hts.
    + intros ft Hft. unfold kw. rewrite getitem_of_function.
      destruct (FeatureType.has_dict ft) eqn:Hd; [discriminate|].
      destruct ft; try discriminate; [congruence|].
      cbn [EOPatch.getitem]. now rewrite Hts.
Qed.

Lemma merge_with_empty_witness :
  well_formed (example_patch (example_array 1 [5%Z]) [VDatetime 0]) = true /\
  EOPatch.concatenate false (fun l => l)
    (example_patch (example_array 1 [5%Z]) [VDatetime 0]) empty_patch
  = Ok (example_patch (example_array 1 [5%Z]) [VDatetime 0]) /\
  EOPatch.concatenate false (fun l => l)
    empty_patch (example_patch (example_array 1 [5%Z]) [VDatetime 0])
  = Ok (example_patch (example_array 1 [5%Z]) [VDatetime 0]).
Proof.
  split; [reflexivity|].
  apply (merge_with_empty false (fun l => l)
           (example_patch (example_array 1 [5%Z]) [VDatetime 0])
           (fun l => Permutation_refl l) eq_refl).
  left. reflexivity.
Defined.

Lemma merge_idempotent_witness :
  well_formed (example_patch (example_array 1 [5%Z]) [VDatetime 0]) = true /\
  EOPatch.concatenate false (fun l => l)
    (example_patch (example_array 1 [5%Z]) [VDatetime 0])
    (example_patch (example_array 1 [5%Z]) [VDatetime 0])
  = Ok (example_patch (example_array 1 [5%Z]) [VDatetime 0]).
Proof.
  split; [reflexivity|].
  apply (merge_idempotent false (fun l => l)
           (example_patch (example_array 1 [5%Z]) [VDatetime 0]) false
           (fun l => Permutation_refl l) eq_refl).
  - discriminate.
  - reflexivity.
Defined.

Lemma merge_timestamps_witness :
  EOPatch.concatenate false (fun l => l)
    (example_patch (example_array 1 [5%Z]) [VDatetime 1])
    (example_patch (example_array 1 [6%Z]) [VDatetime 0])
  = Ok (example_patch (example_array 2 [5%Z; 6%Z]) [VDatetime 1; VDatetime 0]) /\
  EOPatch.timestamp (example_patch (example_array 2 [5%Z; 6%Z]) [VDatetime 1; VDatetime 0])
  = VList [VDatetime 1; VDatetime 0].
Proof.
  split; [reflexivity|].
  apply (merge_timestamps false (fun l => l)
           (example_patch (example_array 1 [5%Z]) [VDatetime 1])
           (example_patch (example_array 1 [6%Z]) [VDatetime 0])
           (example_patch (example_array 2 [5%Z; 6%Z]) [VDatetime 1; VDatetime 0])
           [VDatetime 1] [VDatetime 0] eq_refl eq_refl eq_refl).
Defined.

Lemma merge_carries_features_witness :
  well_formed (example_patch (example_array 1 [5%Z]) [VDatetime 0]) = true /\
  well_formed (EOPatch.store empty_patch DATA
                 (VFeatureDict DATA [("y", example_array 1 [6%Z])])) = true /\
  (forall name,
     In name (feature_names
                (EOPatch.store (example_patch (example_array 1 [5%Z]) [VDatetime 0]) DATA
                   (VFeatureDict DATA [("x", example_array 1 [5%Z]);
                                       ("y", example_array 1 [6%Z])])) DATA) <->
     In name (feature_names (example_patch (example_array 1 [5%Z]) [VDatetime 0]) DATA) \/
     In name (feature_names
                (EOPatch.store empty_patch DATA
                   (VFeatureDict DATA [("y", example_array 1 [6%Z])])) DATA)).
Proof.
  split; [reflexivity|]. split; [reflexivity|].
  apply (merge_carries_features false (fun l => l) (fun l => Permutation_refl l)
           (example_patch (example_array 1 [5%Z]) [VDatetime 0])
           (EOPatch.store empty_patch DATA (VFeatureDict DATA [("y", example_array 1 [6%Z])]))
           (EOPatch.store (example_patch (example_array 1 [5%Z]) [VDatetime 0]) DATA
              (VFeatureDict DATA [("x", example_array 1 [5%Z]);
                                  ("y", example_array 1 [6%Z])]))
           DATA eq_refl eq_refl eq_refl eq_refl).
Defined.

Lemma merge_timeless_conflict_witness :
  exists e,
    EOPatch.concatenate false (fun l => l)
      (EOPatch.store empty_patch META_INFO (VFeatureDict META_INFO [("id", VInt 1)]))
      (EOPatch.store empty_patch META_INFO (VFeatureDict META_INFO [("id", VInt 2)]))
    = Raise e.
Proof.
  apply (merge_timeless_conflict false (fun l => l) (fun l => Permutation_refl l)
           (EOPatch.store empty_patch META_INFO (VFeatureDict META_INFO [("id", VInt 1)]))
           (EOPatch.store empty_patch META_INFO (VFeatureDict META_INFO [("id", VInt 2)]))
           META_INFO "id" (VInt 1) (VInt 2) eq_refl eq_refl eq_refl eq_refl eq_refl eq_refl
           eq_refl).
Defined.

(** ** Timestamp consolidation with distinct dates *)

























(** ** The timestamp check of the fetch task *)




(** ** Parsing a feature list *)

Lemma selection_get_set ft ft' s d :
  EOPatch.selection_get ft (EOPatch.selection_set ft' s d)
  = if decide (ft = ft') then Some s else EOPatch.selection_get ft d.
Proof.
  induction d as [|[ft0 s0] d IH]; cbn.
  - destruct (decide (ft = ft')); reflexivity.
  - destruct (decide (ft' = ft0)) as [->|Hne]; cbn.
    + destruct (decide (ft = ft0)); reflexivity.
    + destruct (decide (ft = ft0)) as [->|Hne'].
      * destruct (decide (ft0 = ft')); [congruence|reflexivity].
      * exact IH.
Qed.

Lemma set_add_fold_In n names old :
  In n (fold_left (fun acc n => EOPatch.set_add n acc) names old)
  <-> In n old \/ In n names.
Proof.
  revert old. induction names as [|m names IH]; intros old; cbn [fold_left].
  - cbn. tauto.
  - rewrite IH. unfold EOPatch.set_add.
    destruct (existsb (String.eqb m) old) eqn:E.
    + apply existsb_exists in E as (m' & Hin & ->%String.eqb_eq).
      cbn. intuition (subst; auto).
    + rewrite in_app_iff. cbn. tauto.
Qed.





Lemma parse_item_get acc item d ft :
  EOPatch.parse_item acc item = Ok d ->
  EOPatch.selection_get ft d =
  match item with
  | EOPatch.ItemType ft' =>
      if decide (ft = ft') then Some EOPatch.Whole else EOPatch.selection_get ft acc
  | EOPatch.ItemTuple (Some ft') names =>
      if decide (ft = ft')
      then match default (EOPatch.Names []) (EOPatch.selection_get ft acc) with
           | EOPatch.Whole => Some EOPatch.Whole
           | EOPatch.Names old =>
               Some (EOPatch.Names (fold_left (fun acc n => EOPatch.set_add n acc) names old))
           end
      else EOPatch.selection_get ft acc
  | _ => EOPatch.selection_get ft acc
  end.
Proof.
  destruct item as [ft'|[ft'|] names| |]; cbn; try discriminate.
  - intros [= <-]. apply selection_get_set.
  - destruct (bool_decide (ft' = TIMESTAMP) || bool_decide (ft' = BBOX)); [discriminate|].
    destruct (decide (ft = ft')) as [->|Hne].
    + destruct (default (EOPatch.Names []) (EOPatch.selection_get ft' acc));
        intros [= <-]; rewrite selection_get_set, decide_True; reflexivity.
    + destruct (default (EOPatch.Names []) (EOPatch.selection_get ft' acc));
        intros [= <-]; rewrite selection_get_set, decide_False; auto.
Qed.

(** What the loop of [_parse_to_dict] leaves for a feature type. *)
Lemma parse_loop_get ft l :
  forall acc d, foldM EOPatch.parse_item l acc = Ok d ->
  (EOPatch.selection_get ft acc = Some EOPatch.Whole \/ In (EOPatch.ItemType ft) l ->
   EOPatch.selection_get ft d = Some EOPatch.Whole) /\
  (~ In (EOPatch.ItemType ft) l ->
   forall old, default (EOPatch.Names []) (EOPatch.selection_get ft acc) = EOPatch.Names old ->
   (EOPatch.selection_get ft acc = None /\
    (forall names, ~ In (EOPatch.ItemTuple (Some ft) names) l) /\
    EOPatch.selection_get ft d = None) \/
   (exists ns, EOPatch.selection_get ft d = Some (EOPatch.Names ns) /\
      forall n, In n ns <->
                In n old \/ exists names, In (EOPatch.ItemTuple (Some ft) names) l /\
                                          In n names)).
Proof.
  induction l as [|item l IH]; intros acc d; cbn [foldM].
  - intros [= ->]. split; [intros [H|[]]; exact H|].
    intros _ old Hold. destruct (EOPatch.selection_get ft d) as [[|ns]|] eqn:E;
      cbn in Hold; try discriminate.
    + injection Hold as ->. right. exists old. split; [reflexivity|].
      intros n. split; [auto|]. intros [H|(names & [] & _)]. exact H.
    + left. repeat split. intros names [].
  - destruct (EOPatch.parse_item acc item) as [acc'|] eqn:Ei; cbn [rbind]; [|discriminate].
    intros Hd. destruct (IH acc' d Hd) as [IH1 IH2].
    pose proof (parse_item_get acc item acc' ft Ei) as Hget. split.
    + intros [Hacc|[->|Hin]]; apply IH1; auto; left; rewrite Hget.
      * destruct item as [ft'|[ft'|] names| |]; try exact Hacc.
        -- destruct (decide (ft = ft')); [reflexivity|exact Hacc].
        -- destruct (decide (ft = ft')); [|exact Hacc]. now rewrite Hacc.
      * now rewrite decide_True.
    + intros Hn old Hold.
      assert (~ In (EOPatch.ItemType ft) l) as Hn' by (cbn in Hn; tauto).
      destruct item as [ft'|[ft'|] names| |].
      * assert (ft <> ft') as Hne by (intros ->; apply Hn; now left).
        rewrite decide_False in Hget by exact Hne.
        destruct (IH2 Hn' old) as [(H1 & H2 & H3)|(ns & H1 & H2)]; [now rewrite Hget| |].
        -- left. rewrite <- Hget. repeat split; auto.
           intros names [Hc|Hc]; [discriminate|]. now apply (H2 names).
        -- right. exists ns. split; [exact H1|]. intros n. rewrite H2.
           split; (intros [H|(names & Hin & Hnn)]; [now left|right; exists names]).
           ++ split; [now right|exact Hnn].
           ++ destruct Hin as [Hc|Hin]; [discriminate|]. auto.
      * destruct (decide (ft = ft')) as [<-|Hne].
        -- rewrite Hold in Hget.
           destruct (IH2 Hn' (fold_left (fun acc n => EOPatch.set_add n acc) names old))
             as [(H1 & _)|(ns & H1 & H2)]; [now rewrite Hget|congruence|].
           right. exists ns. split; [exact H1|]. intros n.
           rewrite H2, set_add_fold_In. split.
           ++ intros [[H|H]|(names' & Hin & Hnn)]; [now left| |].
              ** right. exists names. split; [now left|exact H].
              ** right. exists names'. split; [now right|exact Hnn].
           ++ intros [H|(names' & [[= <-]|Hin] & Hnn)]; [tauto|tauto|].
              right. eauto.
        -- destruct (IH2 Hn' old) as [(H1 & H2 & H3)|(ns & H1 & H2)]; [now rewrite Hget| |].
           ++ left. rewrite <- Hget. repeat split; auto.
              intros names' [[= Hc _]|Hc]; [congruence|]. now apply (H2 names').
           ++ right. exists ns. split; [exact H1|]. intros n. rewrite H2.
              split; (intros [H|(names' & Hin & Hnn)]; [now left|right; exists names']).
              ** split; [now right|exact Hnn].
              ** destruct Hin as [[= Hc _]|Hin]; [congruence|]. auto.
      * discriminate.
      * discriminate.
      * discriminate.
Qed.

(** A feature type the list does not name keeps what it had. *)
Lemma parse_loop_unnamed ft l :
  ~ In (EOPatch.ItemType ft) l ->
  (forall names, ~ In (EOPatch.ItemTuple (Some ft) names) l) ->
  forall acc d, foldM EOPatch.parse_item l acc = Ok d ->
                EOPatch.selection_get ft d = EOPatch.selection_get ft acc.
Proof.
  induction l as [|item l IH]; intros Hn Hnone acc d; cbn [foldM]; [now intros [= ->]|].
  destruct (EOPatch.parse_item acc item) as [acc'|] eqn:Ei; cbn [rbind]; [|discriminate].
  intros Hd. rewrite (IH ltac:(cbn in Hn; tauto)
                        ltac:(intros names H; apply (Hnone names); now right) _ _ Hd).
  rewrite (parse_item_get acc item acc' ft Ei).
  destruct item as [ft'|[ft'|] names| |]; try reflexivity.
  - rewrite decide_False; [reflexivity|]. intros ->. apply Hn. now left.
  - rewrite decide_False; [reflexivity|]. intros ->. apply (Hnone names). now left.
Qed.

(** X12.  What [_parse_to_dict] returns for a list that is not empty: a
    feature type that the list names bare is taken whole, whatever tuples
    name it too and in whatever order; a feature type named by tuples only
    gets the set of all the names of its tuples; a feature type the list
    does not name is not a key of the result. *)
Theorem parse_to_dict_selection (l : list EOPatch.feature_item)
    (d : list (FeatureType * EOPatch.selection)) (ft : FeatureType) :
  l <> [] ->
  EOPatch._parse_to_dict (Some l) = Ok d ->
  (In (EOPatch.ItemType ft) l -> EOPatch.selection_get ft d = Some EOPatch.Whole) /\
  (~ In (EOPatch.ItemType ft) l ->
   (exists names, In (EOPatch.ItemTuple (Some ft) names) l) ->
   exists ns,
     EOPatch.selection_get ft d = Some (EOPatch.Names ns) /\
     forall n, In n ns <->
               exists names, In (EOPatch.ItemTuple (Some ft) names) l /\ In n names) /\
  (~ In (EOPatch.ItemType ft) l ->
   (forall names, ~ In (EOPatch.ItemTuple (Some ft) names) l) ->
   EOPatch.selection_get ft d = None).
Proof.
  intros Hl Hd.
  assert (foldM EOPatch.parse_item l [] = Ok d) as Hloop.
  { destruct l; [contradiction|exact Hd]. }
  destruct (parse_loop_get ft l [] d Hloop) as [H1 H2].
  split; [auto|]. split.
  - intros Hn (names & Hin).
    destruct (H2 Hn [] eq_refl) as [(_ & Hc & _)|(ns & Hns & Hiff)].
    + now apply Hc in Hin.
    + exists ns. split; [exact Hns|]. intros n. rewrite Hiff. cbn. tauto.
  - intros Hn Hnone. now rewrite (parse_loop_unnamed ft l Hn Hnone [] d Hloop).
Qed.

Lemma parse_to_dict_selection_witness :
  EOPatch._parse_to_dict
    (Some [EOPatch.ItemTuple (Some DATA) ["a"]; EOPatch.ItemType MASK;
           EOPatch.ItemTuple (Some DATA) ["b"; "a"]; EOPatch.ItemTuple (Some MASK) ["c"]])
  = Ok [(DATA, EOPatch.Names ["a"; "b"]); (MASK, EOPatch.Whole)] /\
  (In (EOPatch.ItemType MASK)
      [EOPatch.ItemTuple (Some DATA) ["a"]; EOPatch.ItemType MASK;
       EOPatch.ItemTuple (Some DATA) ["b"; "a"]; EOPatch.ItemTuple (Some MASK) ["c"]] ->
   EOPatch.selection_get MASK [(DATA, EOPatch.Names ["a"; "b"]); (MASK, EOPatch.Whole)]
   = Some EOPatch.Whole).
Proof.
  split; [reflexivity|].
  apply (parse_to_dict_selection
           [EOPatch.ItemTuple (Some DATA) ["a"]; EOPatch.ItemType MASK;
            EOPatch.ItemTuple (Some DATA) ["b"; "a"]; EOPatch.ItemTuple (Some MASK) ["c"]]
           [(DATA, EOPatch.Names ["a"; "b"]); (MASK, EOPatch.Whole)] MASK).
  - discriminate.
  - reflexivity.
Defined.

(** ** The dates of the input task *)


(** The dates kept after the first: each one that is more than
    [time_difference] after the date before it. *)
Lemma kept_dates_cons td x y (s : list Z) :
  map snd (List.filter (fun d => Z.ltb td (snd d - fst d)%Z)
             (combine (removelast (x :: y :: s)) (tl (x :: y :: s))))
  = (if Z.ltb td (y - x)%Z then [y] else []) ++
    map snd (List.filter (fun d => Z.ltb td (snd d - fst d)%Z)
               (combine (removelast (y :: s)) (tl (y :: s)))).
Proof.
  change (removelast (x :: y :: s)) with (x :: removelast (y :: s)).
  cbn [tl combine List.filter fst snd].
  destruct (Z.ltb td (y - x)%Z); reflexivity.
Qed.

Lemma kept_dates_gaps td (s : list Z) :
  forall x, StronglySorted Z.le (x :: s) ->
  let r := map snd (List.filter (fun d => Z.ltb td (snd d - fst d)%Z)
                      (combine (removelast (x :: s)) (tl (x :: s)))) in
  Sorted (fun a b => (td < b - a)%Z) (x :: r) /\ Forall (fun z => In z s) r.
Proof.
  induction s as [|y s IH]; intros x Hs; cbn zeta.
  - cbn. split; [repeat constructor|constructor].
  - rewrite kept_dates_cons.
    apply StronglySorted_inv in Hs as [Hs Hx].
    destruct (IH y Hs) as [IH1 IH2]. cbn zeta in IH1, IH2.
    set (r := map snd (List.filter _ (combine (removelast (y :: s)) (tl (y :: s))))) in *.
    assert (x <= y)%Z as Hxy by (inversion Hx; assumption).
    assert (Forall (fun z => In z (y :: s)) r) as Hr.
    { eapply Forall_impl; [exact IH2|]. intros z Hz. now right. }
    destruct (Z.ltb_spec td (y - x)%Z) as [Hgap|Hgap]; cbn [app].
    + split; [|constructor; [now left|exact Hr]].
      constructor; [exact IH1|]. constructor. exact Hgap.
    + split; [|exact Hr].
      inversion IH1 as [|? ? Hsr Hhd]; subst. constructor; [exact Hsr|].
      destruct r as [|z r]; constructor. inversion Hhd; subst. lia.
Qed.

(** X13.  [_get_timestamp] without [single_scene]: with no date available
    it raises the [ValueError]; otherwise it returns the earliest date
    followed by other dates of the service, and of two dates that follow
    each other in the result the second is always more than
    [time_difference] after the first. *)
Theorem get_timestamp_dates (time_difference : Z) (time_interval : pyvalue * pyvalue)
    (dates : list Z) :
  match SentinelHubInputTask._get_timestamp false time_difference time_interval dates with
  | inl e => dates = [] /\ e = SentinelHubInputTask.ValueError_no_images
  | inr ts =>
      exists first rest,
        ts = map VDatetime (first :: rest) /\
        In first dates /\ (forall d, In d dates -> (first <= d)%Z) /\
        (forall d, In d rest -> In d dates) /\
        Sorted (fun a b => (time_difference < b - a)%Z) (first :: rest)
  end.
Proof.
  unfold SentinelHubInputTask._get_timestamp. cbv zeta.
  destruct dates as [|d0 dates]; [now cbn|].
  cbn [length Nat.eqb].
  pose proof (merge_sort_Permutation Z.le (d0 :: dates)) as Hperm.
  pose proof (StronglySorted_merge_sort Z.le (d0 :: dates)) as Hsorted.
  destruct (merge_sort Z.le (d0 :: dates)) as [|first s] eqn:E.
  - apply Permutation_nil_l in Hperm. discriminate.
  - destruct (kept_dates_gaps time_difference s first Hsorted) as [Hgaps Hin].
    cbv zeta in Hgaps, Hin.
    eexists first, _. split; [reflexivity|].
    assert (forall d, In d (first :: s) <-> In d (d0 :: dates)) as Hmem.
    { intros d. rewrite <- !list_elem_of_In. now rewrite Hperm. }
    split; [apply Hmem; now left|]. split; [|split; [|exact Hgaps]].
    + intros d [<-|Hd]%Hmem; [lia|].
      apply StronglySorted_inv in Hsorted as [_ Hle].
      rewrite Forall_forall in Hle. apply Hle, list_elem_of_In, Hd.
    + intros d Hd. apply Hmem. right.
      rewrite Forall_forall in Hin. apply Hin, list_elem_of_In, Hd.
Qed.

(** ** The bands requested by the input task *)

Lemma requests_get_set {V} k k' (v : V) d :
  SentinelHubInputTask.requests_get k (SentinelHubInputTask.requests_set k' v d)
  = if decide (k = k') then Some v else SentinelHubInputTask.requests_get k d.
Proof.
  induction d as [|[k0 v0] d IH]; cbn.
  - destruct (decide (k = k')); reflexivity.
  - destruct (decide (k' = k0)) as [->|Hne]; cbn.
    + destruct (decide (k = k0)); reflexivity.
    + destruct (decide (k = k0)) as [->|Hne'].
      * destruct (decide (k0 = k')); [congruence|reflexivity].
      * exact IH.
Qed.

Lemma add_request_band_get request_dict band t :
  SentinelHubInputTask.requests_get t (SentinelHubInputTask.add_request_band request_dict band)
  = if decide (t = SentinelHubInputTask.api_type_of band)
    then Some (default [] (SentinelHubInputTask.requests_get t request_dict) ++ [band])
    else SentinelHubInputTask.requests_get t request_dict.
Proof.
  unfold SentinelHubInputTask.add_request_band. cbv zeta. rewrite requests_get_set.
  destruct (decide (t = SentinelHubInputTask.api_type_of band)) as [->|Hne].
  - destruct (SentinelHubInputTask.requests_get (SentinelHubInputTask.api_type_of band) request_dict) eqn:E.
    + now rewrite E.
    + rewrite requests_get_set, decide_True by reflexivity. rewrite ?E. reflexivity.
  - destruct (SentinelHubInputTask.requests_get (SentinelHubInputTask.api_type_of band) request_dict); [reflexivity|].
    rewrite requests_get_set. now rewrite decide_False.
Qed.

(** X14.  [SentinelHubInputTask._add_request_bands] groups the bands by their type, the first
    predefined type that lists the band and the custom type otherwise: under
    each type the dictionary holds afterwards what it held before followed
    by the added bands of that type, in the order they were given and with
    their repetitions; a type without an added band is left as it was. *)
Theorem add_request_bands_groups (request_dict : list (SentinelHubInputTask.ProcApiType * list string))
    (added_bands : list string) (t : SentinelHubInputTask.ProcApiType) :
  SentinelHubInputTask.requests_get t (SentinelHubInputTask._add_request_bands request_dict added_bands)
  = match List.filter (fun band => bool_decide (SentinelHubInputTask.api_type_of band = t)) added_bands with
    | [] => SentinelHubInputTask.requests_get t request_dict
    | new => Some (default [] (SentinelHubInputTask.requests_get t request_dict) ++ new)
    end.
Proof.
  unfold SentinelHubInputTask._add_request_bands. revert request_dict.
  induction added_bands as [|band bands IH]; intros request_dict; cbn [fold_left List.filter].
  - reflexivity.
  - rewrite IH, add_request_band_get.
    destruct (decide (t = SentinelHubInputTask.api_type_of band)) as [->|Hne].
    + rewrite bool_decide_eq_true_2 by reflexivity. cbn [default from_option id].
      destruct (List.filter _ bands); [reflexivity|].
      cbn [default from_option]. unfold Datatypes.id. now rewrite <- app_assoc.
    + rewrite bool_decide_eq_false_2 by congruence. reflexivity.
Qed.

(** ** The features a patch lists *)

Lemma foldM_app {A X} (f : A -> X -> result A) l1 l2 a :
  foldM f (l1 ++ l2) a = let* a' := foldM f l1 a in foldM f l2 a'.
Proof.
  revert a. induction l1 as [|x l1 IH]; intros a; cbn [app foldM rbind]; [reflexivity|].
  destruct (f a x); cbn [rbind]; [apply IH|reflexivity].
Qed.

Lemma selection_set_same ft s d :
  EOPatch.selection_get ft d = Some s -> EOPatch.selection_set ft s d = d.
Proof.
  induction d as [|[ft0 s0] d IH]; cbn; [discriminate|].
  destruct (decide (ft = ft0)) as [->|Hne].
  - now intros [= ->].
  - intros H. now rewrite IH.
Qed.

Lemma selection_set_set ft s s' d :
  EOPatch.selection_set ft s (EOPatch.selection_set ft s' d) = EOPatch.selection_set ft s d.
Proof.
  induction d as [|[ft0 s0] d IH]; cbn.
  - now rewrite decide_True.
  - destruct (decide (ft = ft0)) as [->|Hne]; cbn.
    + now rewrite decide_True.
    + rewrite decide_False by exact Hne. now rewrite IH.
Qed.

Lemma set_add_fresh n (names : list string) :
  ~ In n names -> EOPatch.set_add n names = names ++ [n].
Proof.
  intros H. unfold EOPatch.set_add.
  destruct (existsb (String.eqb n) names) eqn:E; [|reflexivity].
  apply existsb_exists in E as (m & Hin & ->%String.eqb_eq). contradiction.
Qed.

Lemma set_add_fold_fresh (names old : list string) :
  List.NoDup (old ++ names) ->
  fold_left (fun acc n => EOPatch.set_add n acc) names old = old ++ names.
Proof.
  revert old. induction names as [|n names IH]; intros old Hnd; cbn [fold_left].
  - now rewrite app_nil_r.
  - rewrite set_add_fresh.
    + rewrite IH; rewrite <- app_assoc; [reflexivity|exact Hnd].
    + apply NoDup_remove_2 in Hnd. rewrite in_app_iff in Hnd. tauto.
Qed.

(** Parsing the pairs of one feature type with its names, one after the
    other, collects the names. *)
Lemma parse_pairs_from ft acc (names old : list string) :
  FeatureType.has_dict ft = true ->
  EOPatch.selection_get ft acc = Some (EOPatch.Names old) ->
  List.NoDup (old ++ names) ->
  foldM EOPatch.parse_item
        (map (fun n => EOPatch.ItemTuple (Some ft) [n]) names) acc
  = Ok (EOPatch.selection_set ft (EOPatch.Names (old ++ names)) acc).
Proof.
  intros Hd. revert acc old. induction names as [|n names IH]; intros acc old Hget Hnd;
    cbn [map foldM].
  - rewrite app_nil_r. now rewrite selection_set_same.
  - assert (EOPatch.parse_item acc (EOPatch.ItemTuple (Some ft) [n])
            = Ok (EOPatch.selection_set ft (EOPatch.Names (old ++ [n])) acc)) as ->.
    { cbn [EOPatch.parse_item].
      replace (bool_decide (ft = TIMESTAMP) || bool_decide (ft = BBOX)) with false
        by (destruct ft; try discriminate; reflexivity).
      rewrite Hget. cbn [default from_option fold_left]. unfold Datatypes.id.
      rewrite set_add_fresh; [reflexivity|].
      apply NoDup_remove_2 in Hnd. rewrite in_app_iff in Hnd. tauto. }
    cbn [rbind]. rewrite (IH _ (old ++ [n])).
    + now rewrite selection_set_set, <- app_assoc.
    + now rewrite selection_get_set, decide_True.
    + now rewrite <- app_assoc.
Qed.

Lemma parse_pairs ft acc (names : list string) :
  FeatureType.has_dict ft = true ->
  EOPatch.selection_get ft acc = None ->
  List.NoDup names ->
  foldM EOPatch.parse_item
        (map (fun n => EOPatch.ItemTuple (Some ft) [n]) names) acc
  = Ok (match names with
        | [] => acc
        | _ => EOPatch.selection_set ft (EOPatch.Names names) acc
        end).
Proof.
  intros Hd Hget Hnd. destruct names as [|n names]; [reflexivity|].
  cbn [map foldM].
  assert (EOPatch.parse_item acc (EOPatch.ItemTuple (Some ft) [n])
          = Ok (EOPatch.selection_set ft (EOPatch.Names [n]) acc)) as ->.
  { cbn [EOPatch.parse_item].
    replace (bool_decide (ft = TIMESTAMP) || bool_decide (ft = BBOX)) with false
      by (destruct ft; try discriminate; reflexivity).
    rewrite Hget. reflexivity. }
  cbn [rbind]. rewrite (parse_pairs_from ft _ names [n] Hd).
  - now rewrite selection_set_set.
  - now rewrite selection_get_set, decide_True.
  - exact Hnd.
Qed.

(** The two loops over the feature types, side by side: parsing the list
    built so far gives the dictionary built so far. *)
Lemma features_loops (p : EOPatch.t (list Z)) (l : list FeatureType) :
  well_formed p = true ->
  (forall ft, In ft l -> exists b, truthy (EOPatch.getitem p ft) = Ok b) ->
  List.NoDup l ->
  forall accl accd,
  (forall ft, In ft l -> EOPatch.selection_get ft accd = None) ->
  foldM EOPatch.parse_item accl [] = Ok accd ->
  exists fl fd,
    foldM (fun feature_list ft =>
             if FeatureType.has_dict ft
             then match mapping_items (EOPatch.getitem p ft) with
                  | Some d =>
                      Ok (feature_list ++
                          map (fun feature_name =>
                                 EOPatch.ItemTuple (Some ft) [feature_name])
                              (dict_keys d))
                  | None => Raise TypeError_not_iterable
                  end
             else
               let* nonempty := truthy (EOPatch.getitem p ft) in
               if nonempty then Ok (feature_list ++ [EOPatch.ItemType ft])
               else Ok feature_list) l accl = Ok fl /\
    foldM (fun feature_dict ft =>
             let* nonempty := truthy (EOPatch.getitem p ft) in
             if nonempty
             then
               if FeatureType.has_dict ft
               then match mapping_items (EOPatch.getitem p ft) with
                    | Some d =>
                        Ok (EOPatch.selection_set ft
                              (EOPatch.Names (EOPatchFeatures.set_of_names (dict_keys d)))
                              feature_dict)
                    | None => Raise TypeError_not_iterable
                    end
               else Ok (EOPatch.selection_set ft EOPatch.Whole feature_dict)
             else Ok feature_dict) l accd = Ok fd /\
    foldM EOPatch.parse_item fl [] = Ok fd.
Proof.
  intros Hp Htr. induction l as [|ft l IH]; intros Hnd accl accd Hnone Hparse;
    cbn [foldM].
  - eauto.
  - apply List.NoDup_cons_iff in Hnd as [Hft Hnd].
    assert (forall s ft', In ft' l ->
              EOPatch.selection_get ft' (EOPatch.selection_set ft s accd) = None) as Hnone'.
    { intros s ft' Hin. rewrite selection_get_set, decide_False by congruence.
      apply Hnone. now right. }
    specialize (IH (fun ft' H => Htr ft' (or_intror H)) Hnd).
    destruct (FeatureType.has_dict ft) eqn:Hd.
    + destruct (well_formed_dict p ft Hp Hd) as (d & Hg & Hndd & _).
      rewrite Hg. cbn [truthy mapping_items rbind].
      pose proof (parse_pairs ft accd (dict_keys d) Hd (Hnone ft (or_introl eq_refl)) Hndd)
        as Hpairs.
      unfold EOPatchFeatures.set_of_names.
      rewrite (set_add_fold_fresh (dict_keys d) []) by exact Hndd. cbn [app].
      destruct d as [|kv d]; cbn [length Nat.eqb negb dict_keys map app].
      * rewrite app_nil_r. apply IH; [|exact Hparse].
        intros ft' Hin. apply Hnone. now right.
      * apply IH; [apply Hnone'|].
        rewrite foldM_app, Hparse. cbn [rbind]. exact Hpairs.
    + destruct (Htr ft (or_introl eq_refl)) as [b ->]. cbn [rbind]. destruct b.
      * apply IH; [apply Hnone'|].
        rewrite foldM_app, Hparse. reflexivity.
      * apply IH; [|exact Hparse]. intros ft' Hin. apply Hnone. now right.
Qed.

(** X15.  [get_feature_list] and [get_features] describe the same selection
    of a well-formed patch: parsing the list with [_parse_to_dict] gives the
    dictionary.  The empty patch is the exception, its empty list stands
    for every feature type while its dictionary is empty. *)
Theorem get_feature_list_get_features (p : EOPatch.t (list Z)) (b : bool) :
  well_formed p = true ->
  truthy (EOPatch.bbox p) = Ok b ->
  exists fl fd,
    EOPatchFeatures.get_feature_list p = Ok fl /\
    EOPatchFeatures.get_features p = Ok fd /\
    (fl <> [] -> EOPatch._parse_to_dict (Some fl) = Ok fd) /\
    (fl = [] -> fd = [] /\
                EOPatch._parse_to_dict (Some fl)
                = Ok (map (fun ft => (ft, EOPatch.Whole)) FeatureType.all)).
Proof.
  intros Hp Hb.
  destruct (features_loops p FeatureType.all Hp) with (accl := @nil EOPatch.feature_item)
    (accd := @nil (FeatureType * EOPatch.selection)) as (fl & fd & Hl & Hd & Hparse).
  - intros ft _. destruct (FeatureType.has_dict ft) eqn:Hd.
    + destruct (well_formed_dict p ft Hp Hd) as (d & -> & _). cbn. eauto.
    + destruct ft; try discriminate; cbn [EOPatch.getitem]; [eauto|].
      destruct (well_formed_timestamp p Hp) as (ts & -> & _). cbn. eauto.
  - apply all_NoDup.
  - reflexivity.
  - reflexivity.
  - exists fl, fd. split; [exact Hl|]. split; [exact Hd|]. split.
    + intros Hne. destruct fl; [contradiction|exact Hparse].
    + intros ->. cbn in Hparse. injection Hparse as <-. split; reflexivity.
Qed.

Lemma get_feature_list_get_features_witness :
  well_formed (example_patch (example_array 1 [5%Z]) [VDatetime 0]) = true /\
  exists fl fd,
    EOPatchFeatures.get_feature_list
      (example_patch (example_array 1 [5%Z]) [VDatetime 0]) = Ok fl /\
    EOPatchFeatures.get_features
      (example_patch (example_array 1 [5%Z]) [VDatetime 0]) = Ok fd /\
    (fl <> [] -> EOPatch._parse_to_dict (Some fl) = Ok fd) /\
    (fl = [] -> fd = [] /\
                EOPatch._parse_to_dict (Some fl)
                = Ok (map (fun ft => (ft, EOPatch.Whole)) FeatureType.all)).
Proof.
  split; [reflexivity|].
  apply (get_feature_list_get_features
           (example_patch (example_array 1 [5%Z]) [VDatetime 0]) false eq_refl eq_refl).
Defined.

(** * Saving and loading *)

Import EOPatchIO.

Section SaveLoad.
Variable lower : string -> string.

Lemma length_append (s t : string) :
  String.length (s ++ t) = String.length s + String.length t.
Proof. induction s as [|c s IH]; simpl; [reflexivity|now rewrite IH]. Qed.

Lemma substring_append_l (s t : string) :
  String.substring 0 (String.length s) (s ++ t) = s.
Proof.
  induction s as [|c s IH]; simpl.
  - now destruct t.
  - now rewrite IH.
Qed.

Lemma substring_append_r (s t : string) n m :
  String.substring (String.length s + n) m (s ++ t) = String.substring n m t.
Proof. induction s as [|c s IH]; simpl; [reflexivity|exact IH]. Qed.

Lemma substring_all (t : string) : String.substring 0 (String.length t) t = t.
Proof. induction t as [|c t IH]; simpl; [reflexivity|now rewrite IH]. Qed.

Lemma ends_with_append (s suffix : string) : ends_with (s ++ suffix) suffix = true.
Proof.
  unfold ends_with. rewrite length_append.
  replace (String.length s + String.length suffix - String.length suffix)
    with (String.length s + 0) by lia.
  rewrite substring_append_r, substring_all, String.eqb_refl, andb_true_r.
  apply Nat.leb_le. lia.
Qed.

Lemma drop_last_append (s suffix : string) :
  drop_last (String.length suffix) (s ++ suffix) = s.
Proof.
  unfold drop_last. rewrite length_append.
  replace (String.length s + String.length suffix - String.length suffix)
    with (String.length s) by lia.
  apply substring_append_l.
Qed.

Lemma ends_with_gz (s : string) : ends_with (s ++ ".npy.gz") ".npy" = false.
Proof.
  unfold ends_with. rewrite length_append. cbn [String.length].
  replace (String.length s + 7 - 4) with (String.length s + 3) by lia.
  rewrite substring_append_r. cbn. apply andb_false_r.
Qed.

Lemma strip_prefix_append (s t : string) : strip_prefix s (s ++ t) = Some t.
Proof.
  induction s as [|c s IH]; simpl; [now destruct t|]. now rewrite Ascii.eqb_refl.
Qed.

(** No name of a namespace starts with the name of another one followed by
    the separator. *)
Lemma strip_prefix_value ft ft' :
  strip_prefix (FeatureType.value ft ++ "/") (FeatureType.value ft') = None.
Proof. destruct ft, ft'; reflexivity. Qed.

Lemma strip_prefix_folder ft ft' rest :
  strip_prefix (FeatureType.value ft ++ "/") (FeatureType.value ft' ++ "/" ++ rest)
  = if bool_decide (ft = ft') then Some rest else None.
Proof. destruct ft, ft'; reflexivity. Qed.

Lemma value_ne_folder ft ft' rest :
  FeatureType.value ft <> (FeatureType.value ft' ++ "/" ++ rest)%string.
Proof. destruct ft, ft'; discriminate. Qed.

Lemma value_inj ft ft' : FeatureType.value ft = FeatureType.value ft' -> ft = ft'.
Proof. destruct ft, ft'; (reflexivity || discriminate). Qed.

Lemma append_inj_r (a b e : string) : (a ++ e)%string = (b ++ e)%string -> a = b.
Proof. intros H. rewrite <- (drop_last_append a e), H. apply drop_last_append. Qed.

Lemma append_inj_l (s a b : string) : (s ++ a)%string = (s ++ b)%string -> a = b.
Proof. induction s as [|c s IH]; simpl; [auto|]. intros [= H]. auto. Qed.

Lemma fold_dict_set_keyed {X V} (key : X -> string) (val : X -> V) l files :
  List.NoDup (map key l) ->
  (forall x, In x l -> ~ In (key x) (dict_keys files)) ->
  fold_left (fun fs x => dict_set (key x) (val x) fs) l files
  = files ++ map (fun x => (key x, val x)) l.
Proof.
  revert files. induction l as [|x l IH]; intros files Hnd Hf; cbn [fold_left map].
  - now rewrite app_nil_r.
  - apply List.NoDup_cons_iff in Hnd as [Hx Hnd].
    rewrite dict_set_fresh by (apply Hf; now left).
    rewrite IH, <- app_assoc; [reflexivity|exact Hnd|].
    intros y Hy. unfold dict_keys. rewrite map_app, in_app_iff. cbn.
    intros [H|[H|[]]].
    + apply (Hf y); [now right|exact H].
    + apply Hx. rewrite H. now apply in_map.
Qed.

Lemma contains_ndarrays_has_dict ft :
  FeatureType.contains_ndarrays ft = true -> FeatureType.has_dict ft = true.
Proof. now destruct ft. Qed.

Lemma items_of_dict {B} (p : EOPatch.t B) ft ft' d :
  EOPatch.getitem p ft = VFeatureDict ft' d -> items_of p ft = d.
Proof. intros H. unfold items_of. now rewrite H. Qed.

Lemma saved_files_foreign p fmt compress ft ft' k :
  ft <> ft' -> In k (dict_keys (saved_files p fmt compress ft')) -> foreign ft k.
Proof.
  intros Hne. unfold saved_files, dict_keys. rewrite map_app, in_app_iff, map_map.
  cbn [fst]. intros [H|H].
  - destruct (saved_file p fmt ft'); [|contradiction]. destruct H as [<-|[]].
    split; [|apply strip_prefix_value].
    intros H. apply value_inj in H. congruence.
  - apply in_map_iff in H as (f & <- & _). split.
    + intros H. symmetry in H. revert H. apply value_ne_folder.
    + rewrite strip_prefix_folder. now rewrite bool_decide_eq_false_2.
Qed.

Lemma save_feature_type_files p fmt compress ft files files' :
  well_formed p = true ->
  (forall k, In k (dict_keys files) -> foreign ft k) ->
  EOPatch.save_feature_type lower p fmt compress ft files = (Ok tt, files') ->
  files' = files ++ saved_files p fmt compress ft.
Proof.
  intros Hp Hf. unfold EOPatch.save_feature_type, saved_files, saved_file, saved_folder.
  assert (~ In (FeatureType.value ft) (dict_keys files)) as Hfile.
  { intros H. now apply Hf in H as [H _]. }
  destruct (truthy (EOPatch.getitem p ft)) as [[|]|e]; [| |discriminate].
  - destruct (_ || _) eqn:Eb.
    + cbn [map]. rewrite app_nil_r.
      destruct (FeatureType.has_dict ft) eqn:Ed.
      * destruct (well_formed_dict p ft Hp Ed) as (d & Hg & _).
        rewrite (items_of_dict p ft ft d Hg), Hg. intros [= <-].
        now apply dict_set_fresh.
      * intros [= <-]. now apply dict_set_fresh.
    + apply orb_false_iff in Eb as [_ Ec]. apply negb_false_iff in Ec.
      pose proof (contains_ndarrays_has_dict ft Ec) as Ed.
      destruct (well_formed_dict p ft Hp Ed) as (d & Hg & Hnd & _).
      rewrite (items_of_dict p ft ft d Hg).
      unfold EOPatch._save_npy_feature_type. rewrite Hg. cbn [mapping_items].
      destruct (EOPatch.check_casing lower _ _); [|discriminate]. intros [= <-].
      cbn [app]. rewrite map_map. cbn [fst snd].
      apply (fold_dict_set_keyed
               (fun item : string * pyvalue =>
                  (FeatureType.value ft ++ "/" ++ fst item ++
                     (if compress then ".npy.gz" else ".npy"))%string)
               (fun item => EOPatch.NpyFile compress (snd item))).
      * rewrite <- (map_map fst (fun name : string =>
                      (FeatureType.value ft ++ "/" ++ name ++
                         (if compress then ".npy.gz" else ".npy"))%string)).
        apply List.NoDup_map_NoDup_ForallPairs; [|exact Hnd].
        intros n1 n2 _ _ H. apply append_inj_l, append_inj_l in H.
        now apply append_inj_r in H.
      * intros x _ H. apply Hf in H as [_ H].
        rewrite (strip_prefix_folder ft ft), bool_decide_eq_true_2 in H by reflexivity.
        discriminate.
  - intros [= <-]. cbn. now rewrite app_nil_r.
Qed.

Lemma save_loop_files p fmt compress l files files' :
  well_formed p = true -> List.NoDup l ->
  (forall k ft, In k (dict_keys files) -> In ft l -> foreign ft k) ->
  EOPatch.save_loop lower p fmt compress l files = (Ok tt, files') ->
  files' = files ++ flat_map (saved_files p fmt compress) l.
Proof.
  intros Hp. revert files. induction l as [|ft l IH]; intros files Hnd Hf;
    cbn [EOPatch.save_loop flat_map].
  - intros [= <-]. now rewrite app_nil_r.
  - apply List.NoDup_cons_iff in Hnd as [Hft Hnd].
    destruct (EOPatch.save_feature_type lower p fmt compress ft files) as [[[]|e] files1] eqn:E;
      [|discriminate].
    apply save_feature_type_files in E; [|exact Hp|]; cycle 1.
    { intros k Hk. apply (Hf k ft Hk). now left. }
    subst files1. intros H. apply IH in H; [|exact Hnd|].
    + now rewrite H, <- app_assoc.
    + intros k ft' Hk Hin. unfold dict_keys in Hk. rewrite map_app, in_app_iff in Hk.
      destruct Hk as [Hk|Hk].
      * apply (Hf k ft' Hk). now right.
      * apply (saved_files_foreign p fmt compress ft' ft); [|exact Hk].
        intros ->. contradiction.
Qed.

Lemma dict_get_app {V} k (l1 l2 : list (string * V)) :
  dict_get k (l1 ++ l2) =
  match dict_get k l1 with Some v => Some v | None => dict_get k l2 end.
Proof.
  induction l1 as [|[k1 v1] l1 IH]; cbn; [reflexivity|].
  destruct (String.eqb k k1); [reflexivity|exact IH].
Qed.

Lemma saved_file_folder p fmt compress ft c :
  saved_file p fmt ft = Some c -> saved_folder p fmt compress ft = [].
Proof.
  unfold saved_file, saved_folder.
  destruct (truthy _) as [[|]|]; try discriminate. now destruct (_ || _).
Qed.

Lemma dict_get_saved_files p fmt compress ft ft' :
  dict_get (FeatureType.value ft) (saved_files p fmt compress ft')
  = if bool_decide (ft = ft') then saved_file p fmt ft else None.
Proof.
  unfold saved_files. rewrite dict_get_app.
  assert (dict_get (FeatureType.value ft)
            (map (fun file : string * EOPatch.file_content =>
                    ((FeatureType.value ft' ++ "/" ++ fst file)%string, snd file))
               (saved_folder p fmt compress ft')) = None) as ->.
  { apply dict_get_None. unfold dict_keys. rewrite map_map. cbn [fst].
    intros (f & H & _)%in_map_iff. symmetry in H. revert H. apply value_ne_folder. }
  case_bool_decide as E.
  - subst ft'. destruct (saved_file p fmt ft); cbn; [|reflexivity].
    now rewrite String.eqb_refl.
  - destruct (saved_file p fmt ft'); cbn; [|reflexivity].
    destruct (String.eqb_spec (FeatureType.value ft) (FeatureType.value ft')) as [H|H];
      [|reflexivity].
    apply value_inj in H. contradiction.
Qed.

Lemma folder_files_saved_files p fmt compress ft ft' :
  folder_files (saved_files p fmt compress ft') (FeatureType.value ft)
  = if bool_decide (ft = ft') then saved_folder p fmt compress ft else [].
Proof.
  unfold folder_files, saved_files. rewrite omap_app.
  assert (omap (fun kv : string * EOPatch.file_content =>
                  option_map (fun file_name => (file_name, snd kv))
                    (strip_prefix (FeatureType.value ft ++ "/") (fst kv)))
            match saved_file p fmt ft' with
            | Some content => [(FeatureType.value ft', content)]
            | None => []
            end = []) as ->.
  { destruct (saved_file p fmt ft'); [|reflexivity]. cbn.
    now rewrite strip_prefix_value. }
  cbn [app]. case_bool_decide as E.
  - subst ft'. induction (saved_folder p fmt compress ft) as [|[n c] l IH];
      [reflexivity|].
    cbn [map omap list_omap fst snd]. rewrite strip_prefix_folder.
    rewrite bool_decide_eq_true_2 by reflexivity. cbn [option_map]. f_equal. exact IH.
  - induction (saved_folder p fmt compress ft') as [|[n c] l IH]; [reflexivity|].
    cbn [map omap list_omap fst snd]. rewrite strip_prefix_folder.
    rewrite bool_decide_eq_false_2 by exact E. exact IH.
Qed.

Lemma saved_content p fmt compress l ft :
  List.NoDup l ->
  (In ft l ->
   dict_get (FeatureType.value ft) (flat_map (saved_files p fmt compress) l)
   = saved_file p fmt ft /\
   folder_files (flat_map (saved_files p fmt compress) l) (FeatureType.value ft)
   = saved_folder p fmt compress ft) /\
  (~ In ft l ->
   dict_get (FeatureType.value ft) (flat_map (saved_files p fmt compress) l) = None /\
   folder_files (flat_map (saved_files p fmt compress) l) (FeatureType.value ft) = []).
Proof.
  induction l as [|ft' l IH]; intros Hnd.
  - split; [intros []|]. intros _. split; reflexivity.
  - apply List.NoDup_cons_iff in Hnd as [Hft Hnd]. destruct (IH Hnd) as [IH1 IH2].
    cbn [flat_map]. unfold folder_files in *. rewrite dict_get_app, omap_app.
    fold (folder_files (saved_files p fmt compress ft') (FeatureType.value ft)).
    rewrite dict_get_saved_files, folder_files_saved_files.
    destruct (decide (ft = ft')) as [->|Hne].
    + rewrite !bool_decide_eq_true_2 by reflexivity.
      destruct (IH2 Hft) as [-> ->].
      split; [|intros H; exfalso; apply H; now left].
      intros _. split; [now destruct (saved_file p fmt ft')|apply app_nil_r].
    + rewrite (bool_decide_eq_false_2 (ft = ft')) by exact Hne. cbn [app].
      split.
      * intros [H|H]; [congruence|]. now apply IH1.
      * intros H. apply IH2. intros Hin. apply H. now right.
Qed.

Lemma entries_in_self (d d2 : pydict) :
  (forall k u, In (k, u) d -> dict_get k d2 = Some u /\ deep_eq u u = true) ->
  entries_in deep_eq d2 d = true.
Proof.
  induction d as [|[k u] d IH]; intros H; cbn; [reflexivity|].
  destruct (H k u) as [-> ->]; [now left|]. cbn. apply IH.
  intros k' u' Hin. apply H. now right.
Qed.

Lemma getitem_no_args {B} ft : EOPatch.getitem (B:=B) EOPatch.no_args ft = VNone.
Proof. now destruct ft. Qed.

Lemma save_loop_fresh p fmt compress files :
  well_formed p = true ->
  EOPatch.save_loop lower p fmt compress FeatureType.all [] = (Ok tt, files) ->
  files = flat_map (saved_files p fmt compress) FeatureType.all.
Proof.
  intros Hp H. apply save_loop_files in H; [exact H|exact Hp|apply all_NoDup|].
  intros k ft [].
Qed.

(** X16.  When [save] of a well-formed patch with all feature types returns,
    the folder holds exactly, in the order of the namespaces: for each
    namespace that is not empty one pickle file under the name of the
    namespace (in the pickle format, or when the namespace holds no arrays),
    or else one file [<namespace>/<name>.npy], with [.gz] appended when
    compressed, for each feature in the order of the mapping; nothing for an
    empty namespace, and nothing of what the folder held before. *)
Theorem save_folder_content (p : EOPatch.t (list Z)) (path path' : EOPatch.path_state)
    (file_format : EOPatch.FileFormat) (overwrite compress : bool) :
  well_formed p = true ->
  EOPatch.save lower p path None file_format overwrite compress = (Ok tt, path') ->
  path' = EOPatch.IsDir (flat_map (saved_files p file_format compress) FeatureType.all).
Proof.
  intros Hp. unfold EOPatch.save. cbn [default from_option]. unfold Datatypes.id.
  destruct (EOPatch.save_loop lower p file_format compress FeatureType.all []) as [r files] eqn:E.
  destruct path as [| |[|f fs]]; try discriminate.
  - intros [= -> <-]. f_equal. now apply save_loop_fresh.
  - intros [= -> <-]. f_equal. now apply save_loop_fresh.
  - destruct overwrite; cbn [negb]; [|discriminate].
    intros [= -> <-]. f_equal. now apply save_loop_fresh.
Qed.

Section RoundTrip.
Variable listdir_order :
  list (string * EOPatch.file_content) -> list (string * EOPatch.file_content).
Variable pickle_load : EOPatch.file_content -> result pyvalue.
Variable np_load : bool -> EOPatch.file_content -> result pyvalue.
Variable np_load_gzip : EOPatch.file_content -> result pyvalue.
Variable loader_object : EOPatch.file_content -> pyvalue.

Hypothesis listdir_Permutation : forall l, Permutation (listdir_order l) l.
Hypothesis pickle_load_dump : forall v, pickle_load (EOPatch.Pickled v) = Ok v.
Hypothesis np_load_save :
  forall mmap a, np_load mmap (EOPatch.NpyFile false (VArray a)) = Ok (VArray a).
Hypothesis np_load_gzip_save :
  forall a, np_load_gzip (EOPatch.NpyFile true (VArray a)) = Ok (VArray a).

Lemma load_npy_saved compress mmap lazy (d : pydict) :
  compress = false \/ lazy = false ->
  List.NoDup (dict_keys d) ->
  (forall k v, In (k, v) d -> exists a, v = VArray a) ->
  exists d2,
    _load_npy_feature_type listdir_order np_load np_load_gzip loader_object
      (map (fun item => ((fst item ++ (if compress then ".npy.gz" else ".npy"))%string,
                         EOPatch.NpyFile compress (snd item))) d) mmap lazy = Ok d2 /\
    Permutation d2 d.
Proof.
  intros Hc Hnd Ha. unfold _load_npy_feature_type.
  destruct (Permutation_map_inv _ _ (listdir_Permutation
              (map (fun item : string * pyvalue =>
                      ((fst item ++ (if compress then ".npy.gz" else ".npy"))%string,
                       EOPatch.NpyFile compress (snd item))) d)))
    as (d2 & -> & Hperm).
  exists d2. split; [|now symmetry].
  assert (List.NoDup (dict_keys d2)) as Hnd2.
  { unfold dict_keys. eapply Permutation_NoDup; [|exact Hnd]. now apply Permutation_map. }
  assert (forall k v, In (k, v) d2 -> exists a, v = VArray a) as Ha2.
  { intros k v Hin. apply (Ha k v). eapply Permutation_in; [symmetry; exact Hperm|exact Hin]. }
  clear Hnd Ha Hperm d.
  enough (forall acc, List.NoDup (dict_keys acc ++ dict_keys d2) ->
            foldM (fun data (file : string * EOPatch.file_content) =>
                     let file_name := fst file in
                     if ends_with file_name ".npy"
                     then
                       let feature_name := drop_last 4 file_name in
                       let* feature := np_load mmap (snd file) in
                       Ok (dict_set feature_name feature data)
                     else if ends_with file_name ".npy.gz"
                     then
                       let feature_name := drop_last 7 file_name in
                       let* feature := (if lazy then Ok (loader_object (snd file))
                                        else np_load_gzip (snd file)) in
                       Ok (dict_set feature_name feature data)
                     else Ok data)
              (map (fun item : string * pyvalue =>
                      ((fst item ++ (if compress then ".npy.gz" else ".npy"))%string,
                       EOPatch.NpyFile compress (snd item))) d2) acc
            = Ok (acc ++ d2)) as H.
  { apply (H []). exact Hnd2. }
  clear Hnd2. induction d2 as [|[name v] d2 IH]; intros acc Hnd; cbn [map foldM].
  - now rewrite app_nil_r.
  - destruct (Ha2 name v) as [a ->]; [now left|]. cbv zeta. cbn [fst snd].
    assert (~ In name (dict_keys acc)) as Hfresh.
    { cbn in Hnd. apply NoDup_remove_2 in Hnd. rewrite in_app_iff in Hnd. tauto. }
    assert (foldM_step :
              forall acc', acc' = acc ++ [(name, VArray a)] ->
                List.NoDup (dict_keys acc' ++ dict_keys d2)).
    { intros acc' ->. unfold dict_keys in *. rewrite map_app, <- app_assoc. exact Hnd. }
    destruct compress.
    + destruct Hc as [Hc| ->]; [discriminate|].
      rewrite ends_with_gz, ends_with_append, np_load_gzip_save. cbn [rbind].
      change 7 with (String.length ".npy.gz"). rewrite drop_last_append.
      rewrite dict_set_fresh by exact Hfresh.
      rewrite IH by (try apply foldM_step; try reflexivity;
                     intros k u Hin; apply (Ha2 k u); now right).
      now rewrite <- app_assoc.
    + rewrite ends_with_append, np_load_save. cbn [rbind].
      change 4 with (String.length ".npy"). rewrite drop_last_append.
      rewrite dict_set_fresh by exact Hfresh.
      rewrite IH by (try apply foldM_step; try reflexivity;
                     intros k u Hin; apply (Ha2 k u); now right).
      now rewrite <- app_assoc.
Qed.

Variable p : EOPatch.t (list Z).
Variable fmt : EOPatch.FileFormat.
Variable compress : bool.
Hypothesis Hp : well_formed p = true.
Hypothesis Hbbox : EOPatch.bbox p = VNone \/ truthy (EOPatch.bbox p) = Ok true.

Let files := flat_map (saved_files p fmt compress) FeatureType.all.

Lemma saved_get ft : dict_get (FeatureType.value ft) files = saved_file p fmt ft.
Proof. apply (saved_content p fmt compress _ ft all_NoDup), all_complete. Qed.

Lemma saved_listing ft :
  folder_files files (FeatureType.value ft) = saved_folder p fmt compress ft.
Proof. apply (saved_content p fmt compress _ ft all_NoDup), all_complete. Qed.

Lemma exists_format ft :
  FeatureType.contains_ndarrays ft = true ->
  isfile files (FeatureType.value ft) || isdir files (FeatureType.value ft) = true ->
  (if isfile files (FeatureType.value ft) then EOPatch.PICKLE else EOPatch.NPY) = fmt.
Proof.
  intros Hc. unfold isdir, isfile, dict_mem. rewrite saved_get, saved_listing.
  unfold saved_file, saved_folder. rewrite Hc.
  destruct (truthy (EOPatch.getitem p ft)) as [[|]|]; cbn; try discriminate.
  now destruct fmt.
Qed.

Lemma get_file_format_saved :
  exists ff,
    _get_file_format files = Loaded ff /\
    forall ft, path_exists files (FeatureType.value ft) = true ->
      match ff with Some EOPatch.PICKLE => true | _ => false end
      || negb (FeatureType.contains_ndarrays ft)
      = match fmt with EOPatch.PICKLE => true | EOPatch.NPY => false end
        || negb (FeatureType.contains_ndarrays ft).
Proof.
  unfold _get_file_format, _get_file_paths.
  enough (forall l acc,
            (forall ft, In ft l -> FeatureType.contains_ndarrays ft = true) ->
            acc = None \/ acc = Some fmt ->
            exists ff,
              fold_left
                (fun acc feature_path =>
                   match acc with
                   | Failed e => Failed e
                   | Loaded file_format =>
                       if isfile files feature_path || isdir files feature_path
                       then
                         let ftype_file_format :=
                           if isfile files feature_path then EOPatch.PICKLE else EOPatch.NPY in
                         match file_format with
                         | None => Loaded (Some ftype_file_format)
                         | Some f =>
                             if match f, ftype_file_format with
                                | EOPatch.PICKLE, EOPatch.PICKLE
                                | EOPatch.NPY, EOPatch.NPY => true
                                | _, _ => false
                                end
                             then Loaded file_format
                             else Failed ValueError_file_formats
                         end
                       else Loaded file_format
                   end)
                (map FeatureType.value l) (Loaded acc) = Loaded ff /\
              (ff = None \/ ff = Some fmt) /\
              (ff = None ->
               acc = None /\
               forall ft, In ft l -> path_exists files (FeatureType.value ft) = false))
    as H.
  { destruct (H (List.filter FeatureType.contains_ndarrays FeatureType.all) None)
      as (ff & E & Hff & Hnone).
    - intros ft Hin. now apply List.filter_In in Hin.
    - now left.
    - exists ff. split; [exact E|]. intros ft Hex.
      destruct Hff as [->| ->]; [|reflexivity].
      destruct (FeatureType.contains_ndarrays ft) eqn:Hc.
      + destruct (Hnone eq_refl) as [_ Hn]. rewrite (Hn ft) in Hex; [discriminate|].
        apply List.filter_In. split; [apply all_complete|exact Hc].
      + cbn. now rewrite orb_true_r. }
  induction l as [|ft l IH]; intros acc Hl Hacc; cbn [map fold_left].
  - exists acc. split; [reflexivity|]. split; [exact Hacc|]. intros ->.
    split; [reflexivity|intros ft []].
  - destruct (isfile files (FeatureType.value ft) || isdir files (FeatureType.value ft))
      eqn:Hex.
    + cbv zeta. rewrite (exists_format ft) by (try exact Hex; apply Hl; now left).
      assert (match acc with
                           | Some f =>
                               if match f, fmt with
                                  | EOPatch.PICKLE, EOPatch.PICKLE
                                  | EOPatch.NPY, EOPatch.NPY => true
                                  | _, _ => false
                                  end
                               then Loaded acc
                               else Failed ValueError_file_formats
                           | None => Loaded (Some fmt)
                           end = @Loaded (option EOPatch.FileFormat) (Some fmt)) as ->.
      { destruct Hacc as [->| ->]; [reflexivity|]. now destruct fmt. }
      destruct (IH (Some fmt)) as (ff & E & Hff & Hnone).
      * intros ft' Hin. apply Hl. now right.
      * now right.
      * exists ff. split; [exact E|]. split; [exact Hff|].
        intros Hn. now destruct (Hnone Hn).
    + destruct (IH acc) as (ff & E & Hff & Hnone).
      * intros ft' Hin. apply Hl. now right.
      * exact Hacc.
      * exists ff. split; [exact E|]. split; [exact Hff|].
        intros Hn. destruct (Hnone Hn) as [Ha Hl']. split; [exact Ha|].
        intros ft' [<-|Hin]; [exact Hex|now apply Hl'].
Qed.

(** The keyword argument of the constructor for a namespace, from what was
    loaded for it. *)
Let init_arg (ft : FeatureType) (v : pyvalue) : pyvalue :=
  match ft with
  | BBOX => v
  | TIMESTAMP => EOPatch.or_default v (VList [])
  | _ => EOPatch.or_default v (VDict [])
  end.

(** The constructor accepts what was loaded, and stores an attribute equal
    to the one of the patch. *)
Let good (ft : FeatureType) (v : pyvalue) : Prop :=
  exists q, EOPatch.checked_value ft (init_arg ft v) = Ok q /\
            deep_eq (EOPatch.getitem p ft) q = true.

Lemma init_arg_dict ft v :
  FeatureType.has_dict ft = true -> init_arg ft v = EOPatch.or_default v (VDict []).
Proof. now destruct ft. Qed.

Lemma no_dict ft : FeatureType.has_dict ft = false -> ft = BBOX \/ ft = TIMESTAMP.
Proof. destruct ft; try discriminate; auto. Qed.

Lemma good_dict ft (d d2 : pydict) :
  FeatureType.has_dict ft = true ->
  EOPatch.getitem p ft = VFeatureDict ft d ->
  Permutation d2 d ->
  good ft (VDict d2).
Proof.
  intros Hd Hg Hperm. destruct (well_formed_dict p ft Hp Hd) as (d' & Hg' & Hnd & Hv).
  rewrite Hg in Hg'. injection Hg' as <-.
  assert (List.NoDup (dict_keys d2)) as Hnd2.
  { unfold dict_keys. eapply Permutation_NoDup; [|exact Hnd].
    apply Permutation_map. now symmetry. }
  exists (VFeatureDict ft d2). split.
  - rewrite init_arg_dict by exact Hd. cbn [EOPatch.or_default].
    apply checked_value_dict_valid; [exact Hd|exact Hnd2|].
    intros k u Hin. apply (Hv k u). eapply Permutation_in; [exact Hperm|exact Hin].
  - rewrite Hg. cbn [deep_eq]. unfold mapping_eqb.
    rewrite (Permutation_length Hperm), Nat.eqb_refl. cbn [andb].
    apply entries_in_self. intros k u Hin. split.
    + apply In_dict_get; [exact Hnd2|].
      eapply Permutation_in; [symmetry; exact Hperm|exact Hin].
    + apply deep_eq_refl. now apply (Hv k u).
Qed.

Lemma good_absent ft :
  saved_file p fmt ft = None -> saved_folder p fmt compress ft = [] -> good ft VNone.
Proof.
  unfold saved_file, saved_folder. intros Hf Hl.
  destruct (FeatureType.has_dict ft) eqn:Hd.
  - destruct (well_formed_dict p ft Hp Hd) as (d & Hg & _).
    rewrite Hg in Hf, Hl. cbn [truthy] in Hf, Hl. rewrite (items_of_dict p ft ft d Hg) in Hl.
    destruct d as [|x d].
    + destruct (good_dict ft [] []) as (q & E & D); [exact Hd|exact Hg|reflexivity|].
      exists q. rewrite init_arg_dict in * by exact Hd. now split.
    + cbn in Hf, Hl. destruct (_ || _); discriminate.
  - destruct (no_dict ft Hd) as [-> | ->].
    + cbn in Hf. destruct Hbbox as [H|H].
      * exists VNone. cbn. rewrite H. split; reflexivity.
      * rewrite H in Hf. destruct fmt; discriminate.
    + destruct (well_formed_timestamp p Hp) as (l & Hg & _). cbn in Hf.
      rewrite Hg in Hf. cbn in Hf. destruct l as [|x l].
      * exists (VList []). cbn. rewrite Hg. split; reflexivity.
      * cbn in Hf. destruct fmt; discriminate.
Qed.

Lemma good_pickled ft v :
  saved_file p fmt ft = Some (EOPatch.Pickled v) -> good ft v.
Proof.
  unfold saved_file. destruct (truthy (EOPatch.getitem p ft)) as [[|]|] eqn:Et;
    try discriminate.
  destruct (_ || _); [|discriminate]. intros [= <-].
  destruct (FeatureType.has_dict ft) eqn:Hd.
  - destruct (well_formed_dict p ft Hp Hd) as (d & Hg & _).
    rewrite (items_of_dict p ft ft d Hg).
    apply (good_dict ft d d); [exact Hd|exact Hg|reflexivity].
  - destruct (well_formed_at p ft Hp) as [Hk _].
    destruct (no_dict ft Hd) as [-> | ->].
    + exists (EOPatch.bbox p). split; [reflexivity|now apply deep_eq_refl].
    + destruct (well_formed_timestamp p Hp) as (l & Hg & _).
      unfold good, init_arg. cbn [EOPatch.getitem] in *. rewrite Hg in *.
      exists (VList l). split; [reflexivity|now apply deep_eq_refl].
Qed.

Lemma saved_arrays ft name v :
  FeatureType.contains_ndarrays ft = true ->
  In (name, v) (items_of p ft) -> exists a, v = VArray a.
Proof.
  intros Hc Hin. pose proof (contains_ndarrays_has_dict ft Hc) as Hd.
  destruct (well_formed_dict p ft Hp Hd) as (d & Hg & _ & Hv).
  rewrite (items_of_dict p ft ft d Hg) in Hin. destruct (Hv name v Hin) as [H _].
  unfold FeatureDict.violates in H. unfold FeatureType.contains_ndarrays in Hc.
  destruct (FeatureType.ndim ft) as [n|] eqn:En; [|discriminate].
  assert (n <> 0) as Hn by (destruct ft; cbn in En; congruence).
  apply Nat.eqb_neq in Hn. rewrite Hn in H. cbn in H. apply negb_false_iff in H.
  destruct v; try discriminate. eauto.
Qed.

Lemma load_feature_type_saved ff mmap lazy c ft :
  fmt = EOPatch.PICKLE \/ compress = false \/ lazy = false ->
  (path_exists files (FeatureType.value ft) = true ->
   match ff with Some EOPatch.PICKLE => true | _ => false end
   || negb (FeatureType.contains_ndarrays ft)
   = match fmt with EOPatch.PICKLE => true | EOPatch.NPY => false end
     || negb (FeatureType.contains_ndarrays ft)) ->
  exists c',
    load_feature_type listdir_order pickle_load np_load np_load_gzip loader_object
      files ff mmap lazy c ft = Loaded c' /\
    (c' = c /\ good ft VNone \/ exists v, c' = EOPatch.store c ft v /\ good ft v).
Proof.
  intros Hlazy Hff. unfold load_feature_type. cbv zeta.
  unfold path_exists, isdir, isfile, dict_mem in *. rewrite saved_get, saved_listing in *.
  destruct (saved_file p fmt ft) as [content|] eqn:Ef.
  - cbn [orb negb] in *. rewrite (Hff eq_refl).
    assert (match fmt with EOPatch.PICKLE => true | EOPatch.NPY => false end
            || negb (FeatureType.contains_ndarrays ft) = true) as ->.
    { unfold saved_file in Ef. destruct (truthy (EOPatch.getitem p ft)) as [[|]|];
        try discriminate. now destruct (_ || _). }
    assert (exists v, content = EOPatch.Pickled v) as [v ->].
    { unfold saved_file in Ef. destruct (truthy (EOPatch.getitem p ft)) as [[|]|];
        try discriminate. destruct (_ || _); [|discriminate]. injection Ef as <-. eauto. }
    rewrite pickle_load_dump. exists (EOPatch.store c ft v). split; [reflexivity|].
    right. exists v. split; [reflexivity|now apply good_pickled].
  - cbn [orb negb] in *.
    destruct (saved_folder p fmt compress ft) as [|file folder] eqn:El.
    + cbn. exists c. split; [reflexivity|]. left. split; [reflexivity|].
      now apply good_absent.
    + cbn [length Nat.eqb negb] in *. rewrite (Hff eq_refl).
      unfold saved_folder in El.
      destruct (truthy (EOPatch.getitem p ft)) as [[|]|]; try discriminate.
      destruct (_ || _) eqn:Eb; [discriminate|].
      apply orb_false_iff in Eb as [Efmt Ec]. apply negb_false_iff in Ec.
      pose proof (contains_ndarrays_has_dict ft Ec) as Hd.
      destruct (well_formed_dict p ft Hp Hd) as (d & Hg & Hnd & _).
      destruct (load_npy_saved compress mmap lazy (items_of p ft)) as (d2 & E2 & Hperm).
      * destruct Hlazy as [->|[H|H]]; [discriminate|now left|now right].
      * now rewrite (items_of_dict p ft ft d Hg).
      * intros k v. now apply saved_arrays.
      * rewrite El in E2. rewrite E2. exists (EOPatch.store c ft (VDict d2)).
        split; [reflexivity|]. right. exists (VDict d2). split; [reflexivity|].
        apply (good_dict ft d d2); [exact Hd|exact Hg|].
        now rewrite <- (items_of_dict p ft ft d Hg).
Qed.

Lemma load_loop_saved ff mmap lazy l c :
  fmt = EOPatch.PICKLE \/ compress = false \/ lazy = false ->
  (forall ft, path_exists files (FeatureType.value ft) = true ->
     match ff with Some EOPatch.PICKLE => true | _ => false end
     || negb (FeatureType.contains_ndarrays ft)
     = match fmt with EOPatch.PICKLE => true | EOPatch.NPY => false end
       || negb (FeatureType.contains_ndarrays ft)) ->
  List.NoDup l ->
  (forall ft, In ft l -> EOPatch.getitem c ft = VNone) ->
  exists c',
    fold_left
      (fun acc ft =>
         match acc with
         | Failed e => Failed e
         | Loaded eopatch_content =>
             load_feature_type listdir_order pickle_load np_load np_load_gzip
               loader_object files ff mmap lazy eopatch_content ft
         end) l (Loaded c) = Loaded c' /\
    (forall ft, In ft l -> good ft (EOPatch.getitem c' ft)) /\
    (forall ft, ~ In ft l -> EOPatch.getitem c' ft = EOPatch.getitem c ft).
Proof.
  intros Hlazy Hff. revert c. induction l as [|ft l IH]; intros c Hnd Hc; cbn [fold_left].
  - exists c. split; [reflexivity|]. split; [intros ft []|reflexivity].
  - apply List.NoDup_cons_iff in Hnd as [Hft Hnd].
    destruct (load_feature_type_saved ff mmap lazy c ft Hlazy (Hff ft)) as (c1 & -> & H1).
    assert (good ft (EOPatch.getitem c1 ft) /\
            forall ft', ft' <> ft -> EOPatch.getitem c1 ft' = EOPatch.getitem c ft')
      as [Hgood Hrest].
    { destruct H1 as [[-> Hg]|(v & -> & Hg)].
      - rewrite Hc by now left. now split.
      - rewrite getitem_store_eq. split; [exact Hg|].
        intros ft' Hne. now apply getitem_store_ne. }
    destruct (IH c1 Hnd) as (c' & E & Hin & Hout).
    { intros ft' Hin. rewrite Hrest by congruence. apply Hc. now right. }
    exists c'. split; [exact E|]. split.
    + intros ft' [<-|H]; [|now apply Hin]. now rewrite Hout.
    + intros ft' Hn. rewrite Hout by (intros Hi; apply Hn; now right). apply Hrest. intros ->. apply Hn. now left.
Qed.

Lemma init_loaded c :
  (forall ft, good ft (EOPatch.getitem c ft)) ->
  exists q, EOPatch.init c = Ok q /\ EOPatch.eq p q = true.
Proof.
  intros H. unfold EOPatch.init.
  destruct (H DATA) as (q1 & E1 & D1), (H MASK) as (q2 & E2 & D2),
    (H SCALAR) as (q3 & E3 & D3), (H LABEL) as (q4 & E4 & D4),
    (H VECTOR) as (q5 & E5 & D5), (H DATA_TIMELESS) as (q6 & E6 & D6),
    (H MASK_TIMELESS) as (q7 & E7 & D7), (H SCALAR_TIMELESS) as (q8 & E8 & D8),
    (H LABEL_TIMELESS) as (q9 & E9 & D9), (H VECTOR_TIMELESS) as (q10 & E10 & D10),
    (H META_INFO) as (q11 & E11 & D11), (H BBOX) as (q12 & E12 & D12),
    (H TIMESTAMP) as (q13 & E13 & D13).
  cbn [init_arg EOPatch.getitem] in *.
  rewrite E1, E2, E3, E4, E5, E6, E7, E8, E9, E10, E11, E12, E13. cbn [rbind].
  eexists. split; [reflexivity|]. unfold EOPatch.eq. cbn [forallb FeatureType.all].
  cbn [EOPatch.getitem EOPatch.data EOPatch.mask EOPatch.scalar EOPatch.label
         EOPatch.vector EOPatch.data_timeless EOPatch.mask_timeless
         EOPatch.scalar_timeless EOPatch.label_timeless EOPatch.vector_timeless
         EOPatch.meta_info EOPatch.bbox EOPatch.timestamp] in *.
  now rewrite D1, D2, D3, D4, D5, D6, D7, D8, D9, D10, D11, D12, D13.
Qed.

Lemma load_saved mmap lazy :
  fmt = EOPatch.PICKLE \/ compress = false \/ lazy = false ->
  exists q,
    load listdir_order pickle_load np_load np_load_gzip loader_object
      (EOPatch.IsDir files) None mmap lazy = Loaded q /\
    EOPatch.eq p q = true.
Proof.
  intros Hlazy. unfold load. cbv zeta.
  destruct get_file_format_saved as (ff & -> & Hff).
  destruct (load_loop_saved ff mmap lazy FeatureType.all EOPatch.no_args Hlazy Hff all_NoDup)
    as (c & E & Hgood & _).
  { intros ft _. apply getitem_no_args. }
  cbn [default from_option]. unfold Datatypes.id. rewrite E.
  destruct (init_loaded c) as (q & -> & Hq).
  { intros ft. apply Hgood, all_complete. }
  now exists q.
Qed.

(** X17.  Save, then load: when [save] of a well-formed patch with all
    feature types returns, [load] of the folder with all feature types
    returns a patch that [==] finds equal to the saved one, in the pickle
    format and in the npy format, compressed or not, provided compressed
    arrays are not loaded lazily.  The bounding box is [None] or truthy, the
    feature names hold no ['/'], [pickle.load] and [np.load] give back what
    was dumped and saved, and [os.listdir] lists the files of a folder in
    any order. *)
Theorem save_load_round_trip (path path' : EOPatch.path_state)
    (overwrite mmap lazy : bool) :
  (forall ft name, In name (feature_names p ft) -> plain_name name = true) ->
  fmt = EOPatch.PICKLE \/ compress = false \/ lazy = false ->
  EOPatch.save lower p path None fmt overwrite compress = (Ok tt, path') ->
  exists q,
    load listdir_order pickle_load np_load np_load_gzip loader_object
      path' None mmap lazy = Loaded q /\
    EOPatch.eq p q = true.
Proof.
  intros _ Hlazy. unfold EOPatch.save. cbn [default from_option]. unfold Datatypes.id.
  destruct (EOPatch.save_loop lower p fmt compress FeatureType.all []) as [r fs] eqn:E.
  assert (r = Ok tt -> exists q,
            load listdir_order pickle_load np_load np_load_gzip loader_object
              (EOPatch.IsDir fs) None mmap lazy = Loaded q /\
            EOPatch.eq p q = true) as H.
  { intros ->. apply save_loop_fresh in E; [|exact Hp]. subst fs.
    now apply load_saved. }
  destruct path as [| |[|f0 fs0]]; try discriminate.
  - intros [= -> <-]. now apply H.
  - intros [= -> <-]. now apply H.
  - destruct overwrite; cbn [negb]; [|discriminate].
    intros [= -> <-]. now apply H.
Qed.

(** *** Lazy loading *)

Hypothesis loader_no_array : forall content a, loader_object content <> VArray a.

Lemma dict_set_not_nil {V} k (v : V) d : dict_set k v d <> [].
Proof. destruct d as [|[k' v'] d]; cbn; [discriminate|]. now destruct (String.eqb k k'). Qed.

Lemma load_npy_lazy mmap (d : pydict) :
  d <> [] ->
  exists d2,
    _load_npy_feature_type listdir_order np_load np_load_gzip loader_object
      (map (fun item => ((fst item ++ ".npy.gz")%string,
                         EOPatch.NpyFile true (snd item))) d) mmap true = Ok d2 /\
    d2 <> [] /\
    forall k v, In (k, v) d2 -> exists content, v = loader_object content.
Proof.
  intros Hd. unfold _load_npy_feature_type.
  destruct (Permutation_map_inv _ _ (listdir_Permutation
              (map (fun item : string * pyvalue =>
                      ((fst item ++ ".npy.gz")%string,
                       EOPatch.NpyFile true (snd item))) d)))
    as (d' & -> & Hperm).
  assert (d' <> []) as Hd'.
  { intros ->. apply Permutation_length in Hperm. destruct d; [congruence|discriminate]. }
  clear Hperm Hd d.
  enough (forall acc,
            (forall k v, In (k, v) acc -> exists content, v = loader_object content) ->
            exists d2,
              foldM (fun data (file : string * EOPatch.file_content) =>
                       let file_name := fst file in
                       if ends_with file_name ".npy"
                       then
                         let feature_name := drop_last 4 file_name in
                         let* feature := np_load mmap (snd file) in
                         Ok (dict_set feature_name feature data)
                       else if ends_with file_name ".npy.gz"
                       then
                         let feature_name := drop_last 7 file_name in
                         let* feature := (if true then Ok (loader_object (snd file))
                                          else np_load_gzip (snd file)) in
                         Ok (dict_set feature_name feature data)
                       else Ok data)
                (map (fun item : string * pyvalue =>
                        ((fst item ++ ".npy.gz")%string,
                         EOPatch.NpyFile true (snd item))) d') acc = Ok d2 /\
              (acc <> [] \/ d' <> [] -> d2 <> []) /\
              forall k v, In (k, v) d2 -> exists content, v = loader_object content) as H.
  { destruct (H []) as (d2 & E & Hne & Hv); [intros k v []|].
    exists d2. split; [exact E|]. split; [|exact Hv]. apply Hne. now right. }
  clear Hd'. induction d' as [|[name v] d' IH]; intros acc Hacc; cbn [map foldM].
  - exists acc. split; [reflexivity|]. split; [|exact Hacc]. now intros [H|H].
  - cbv zeta. cbn [fst snd]. rewrite ends_with_gz, ends_with_append. cbn [rbind].
    destruct (IH (dict_set (drop_last 7 (name ++ ".npy.gz"))
                    (loader_object (EOPatch.NpyFile true v)) acc))
      as (d2 & E & Hne & Hv).
    { intros k u [[= _ ->]|Hin]%In_dict_set; [eauto|now apply (Hacc k u)]. }
    exists d2. split; [exact E|]. split; [|exact Hv].
    intros _. apply Hne. left. apply dict_set_not_nil.
Qed.

(** What the constructor does with the argument loaded for a namespace: it
    stores it, or raises the error of the rank check. *)
Let accepted (ft : FeatureType) (v : pyvalue) : Prop :=
  exists q, EOPatch.checked_value ft (init_arg ft v) = Ok q.

Let rejected (ft : FeatureType) (v : pyvalue) : Prop :=
  exists n, EOPatch.checked_value ft (init_arg ft v) = Raise (ValueError_dimension ft n).

Lemma accepted_absent ft : accepted ft VNone.
Proof. destruct ft; eexists; reflexivity. Qed.

Lemma rejected_loaders ft (d2 : pydict) :
  FeatureType.contains_ndarrays ft = true ->
  d2 <> [] ->
  (forall k v, In (k, v) d2 -> exists content, v = loader_object content) ->
  rejected ft (VDict d2).
Proof.
  intros Hc Hne Hv. unfold FeatureType.contains_ndarrays in Hc.
  destruct (FeatureType.ndim ft) as [n|] eqn:En; [|discriminate].
  exists n. rewrite init_arg_dict by (apply contains_ndarrays_has_dict;
    unfold FeatureType.contains_ndarrays; now rewrite En).
  cbn [EOPatch.or_default]. destruct d2 as [|[k v] d2]; [contradiction|].
  apply (checked_value_violates ft n v k); [exact En| |now left].
  destruct (Hv k v) as [content ->]; [now left|].
  destruct (loader_object content) eqn:E; try reflexivity.
  exfalso. eapply loader_no_array, E.
Qed.

Lemma load_feature_type_lazy ff mmap c ft :
  fmt = EOPatch.NPY -> compress = true ->
  (path_exists files (FeatureType.value ft) = true ->
   match ff with Some EOPatch.PICKLE => true | _ => false end
   || negb (FeatureType.contains_ndarrays ft)
   = match fmt with EOPatch.PICKLE => true | EOPatch.NPY => false end
     || negb (FeatureType.contains_ndarrays ft)) ->
  exists c',
    load_feature_type listdir_order pickle_load np_load np_load_gzip loader_object
      files ff mmap true c ft = Loaded c' /\
    (c' = c /\ saved_folder p fmt compress ft = [] \/
     exists v, c' = EOPatch.store c ft v /\
               (accepted ft v /\ saved_folder p fmt compress ft = [] \/ rejected ft v)).
Proof.
  intros Hfmt Hcompress Hff. unfold load_feature_type. cbv zeta.
  unfold path_exists, isdir, isfile, dict_mem in *. rewrite saved_get, saved_listing in *.
  destruct (saved_file p fmt ft) as [content|] eqn:Ef.
  - cbn [orb negb] in *. rewrite (Hff eq_refl).
    assert (match fmt with EOPatch.PICKLE => true | EOPatch.NPY => false end
            || negb (FeatureType.contains_ndarrays ft) = true) as ->.
    { unfold saved_file in Ef. destruct (truthy (EOPatch.getitem p ft)) as [[|]|];
        try discriminate. now destruct (_ || _). }
    assert (exists v, content = EOPatch.Pickled v) as [v ->].
    { unfold saved_file in Ef. destruct (truthy (EOPatch.getitem p ft)) as [[|]|];
        try discriminate. destruct (_ || _); [|discriminate]. injection Ef as <-. eauto. }
    rewrite pickle_load_dump. exists (EOPatch.store c ft v). split; [reflexivity|].
    right. exists v. split; [reflexivity|]. left. split.
    + destruct (good_pickled ft v Ef) as (q & E & _). now exists q.
    + eapply saved_file_folder, Ef.
  - cbn [orb negb] in *.
    destruct (saved_folder p fmt compress ft) as [|file folder] eqn:El.
    + cbn. exists c. split; [reflexivity|]. now left.
    + cbn [length Nat.eqb negb] in *. rewrite (Hff eq_refl).
      unfold saved_folder in El.
      destruct (truthy (EOPatch.getitem p ft)) as [[|]|]; try discriminate.
      destruct (_ || _) eqn:Eb; [discriminate|].
      apply orb_false_iff in Eb as [_ Ec]. apply negb_false_iff in Ec.
      rewrite Hcompress in El.
      destruct (load_npy_lazy mmap (items_of p ft)) as (d2 & E2 & Hne & Hv).
      * intros H. rewrite H in El. discriminate.
      * rewrite El in E2. rewrite E2. exists (EOPatch.store c ft (VDict d2)).
        split; [reflexivity|]. right. exists (VDict d2). split; [reflexivity|].
        right. now apply rejected_loaders.
Qed.

Lemma load_loop_lazy ff mmap l c :
  fmt = EOPatch.NPY -> compress = true ->
  (forall ft, path_exists files (FeatureType.value ft) = true ->
     match ff with Some EOPatch.PICKLE => true | _ => false end
     || negb (FeatureType.contains_ndarrays ft)
     = match fmt with EOPatch.PICKLE => true | EOPatch.NPY => false end
       || negb (FeatureType.contains_ndarrays ft)) ->
  List.NoDup l ->
  (forall ft, In ft l -> EOPatch.getitem c ft = VNone) ->
  exists c',
    fold_left
      (fun acc ft =>
         match acc with
         | Failed e => Failed e
         | Loaded eopatch_content =>
             load_feature_type listdir_order pickle_load np_load np_load_gzip
               loader_object files ff mmap true eopatch_content ft
         end) l (Loaded c) = Loaded c' /\
    (forall ft, In ft l ->
       accepted ft (EOPatch.getitem c' ft) /\ saved_folder p fmt compress ft = [] \/
       rejected ft (EOPatch.getitem c' ft)) /\
    (forall ft, ~ In ft l -> EOPatch.getitem c' ft = EOPatch.getitem c ft).
Proof.
  intros Hfmt Hcompress Hff. revert c.
  induction l as [|ft l IH]; intros c Hnd Hc; cbn [fold_left].
  - exists c. split; [reflexivity|]. split; [intros ft []|reflexivity].
  - apply List.NoDup_cons_iff in Hnd as [Hft Hnd].
    destruct (load_feature_type_lazy ff mmap c ft Hfmt Hcompress (Hff ft))
      as (c1 & -> & H1).
    assert ((accepted ft (EOPatch.getitem c1 ft) /\ saved_folder p fmt compress ft = [] \/
             rejected ft (EOPatch.getitem c1 ft)) /\
            forall ft', ft' <> ft -> EOPatch.getitem c1 ft' = EOPatch.getitem c ft')
      as [Hgood Hrest].
    { destruct H1 as [[-> Hg]|(v & -> & Hg)].
      - rewrite Hc by now left. split; [|reflexivity]. left.
        split; [apply accepted_absent|exact Hg].
      - rewrite getitem_store_eq. split; [exact Hg|].
        intros ft' Hne. now apply getitem_store_ne. }
    destruct (IH c1 Hnd) as (c' & E & Hin & Hout).
    { intros ft' Hin. rewrite Hrest by congruence. apply Hc. now right. }
    exists c'. split; [exact E|]. split.
    + intros ft' [<-|H]; [|now apply Hin]. now rewrite Hout.
    + intros ft' Hn. rewrite Hout by (intros Hi; apply Hn; now right). apply Hrest.
      intros ->. apply Hn. now left.
Qed.

Lemma init_rejected c ft0 :
  (forall ft, accepted ft (EOPatch.getitem c ft) \/ rejected ft (EOPatch.getitem c ft)) ->
  rejected ft0 (EOPatch.getitem c ft0) ->
  exists ft n, EOPatch.init c = Raise (ValueError_dimension ft n).
Proof.
  intros H H0. unfold EOPatch.init.
  destruct (H DATA) as [(q1 & E1)|(n & E)]; cbn [init_arg EOPatch.getitem] in *;
    [rewrite E1|rewrite E; cbn [rbind]; eauto]; cbn [rbind].
  destruct (H MASK) as [(q2 & E2)|(n & E)]; cbn [init_arg EOPatch.getitem] in *;
    [rewrite E2|rewrite E; cbn [rbind]; eauto]; cbn [rbind].
  destruct (H SCALAR) as [(q3 & E3)|(n & E)]; cbn [init_arg EOPatch.getitem] in *;
    [rewrite E3|rewrite E; cbn [rbind]; eauto]; cbn [rbind].
  destruct (H LABEL) as [(q4 & E4)|(n & E)]; cbn [init_arg EOPatch.getitem] in *;
    [rewrite E4|rewrite E; cbn [rbind]; eauto]; cbn [rbind].
  destruct (H VECTOR) as [(q5 & E5)|(n & E)]; cbn [init_arg EOPatch.getitem] in *;
    [rewrite E5|rewrite E; cbn [rbind]; eauto]; cbn [rbind].
  destruct (H DATA_TIMELESS) as [(q6 & E6)|(n & E)]; cbn [init_arg EOPatch.getitem] in *;
    [rewrite E6|rewrite E; cbn [rbind]; eauto]; cbn [rbind].
  destruct (H MASK_TIMELESS) as [(q7 & E7)|(n & E)]; cbn [init_arg EOPatch.getitem] in *;
    [rewrite E7|rewrite E; cbn [rbind]; eauto]; cbn [rbind].
  destruct (H SCALAR_TIMELESS) as [(q8 & E8)|(n & E)]; cbn [init_arg EOPatch.getitem] in *;
    [rewrite E8|rewrite E; cbn [rbind]; eauto]; cbn [rbind].
  destruct (H LABEL_TIMELESS) as [(q9 & E9)|(n & E)]; cbn [init_arg EOPatch.getitem] in *;
    [rewrite E9|rewrite E; cbn [rbind]; eauto]; cbn [rbind].
  destruct (H VECTOR_TIMELESS) as [(q10 & E10)|(n & E)]; cbn [init_arg EOPatch.getitem] in *;
    [rewrite E10|rewrite E; cbn [rbind]; eauto]; cbn [rbind].
  destruct (H META_INFO) as [(q11 & E11)|(n & E)]; cbn [init_arg EOPatch.getitem] in *;
    [rewrite E11|rewrite E; cbn [rbind]; eauto]; cbn [rbind].
  destruct (H BBOX) as [(q12 & E12)|(n & E)]; cbn [init_arg EOPatch.getitem] in *;
    [rewrite E12|rewrite E; cbn [rbind]; eauto]; cbn [rbind].
  destruct (H TIMESTAMP) as [(q13 & E13)|(n & E)]; cbn [init_arg EOPatch.getitem] in *;
    [rewrite E13|rewrite E; cbn [rbind]; eauto]; cbn [rbind].
  exfalso. destruct H0 as (n & E). destruct ft0; cbn [init_arg EOPatch.getitem] in E;
    congruence.
Qed.

(** X18.  With [lazy] set, as it is when not given, [load] does not return
    a patch from a folder saved in the npy format with compression, as soon
    as one namespace of arrays holds a feature: what is loaded for the
    feature is a function and no array, and the constructor raises the
    [ValueError] of the rank check. *)
Theorem load_lazy_compressed (path path' : EOPatch.path_state) (overwrite mmap : bool)
    (ft0 : FeatureType) :
  fmt = EOPatch.NPY -> compress = true ->
  FeatureType.contains_ndarrays ft0 = true ->
  items_of p ft0 <> [] ->
  EOPatch.save lower p path None fmt overwrite compress = (Ok tt, path') ->
  exists ft n,
    load listdir_order pickle_load np_load np_load_gzip loader_object
      path' None mmap true = Failed (Raised (ValueError_dimension ft n)).
Proof.
  intros Hfmt Hcompress Hc0 Hne.
  unfold EOPatch.save. cbn [default from_option]. unfold Datatypes.id.
  destruct (EOPatch.save_loop lower p fmt compress FeatureType.all []) as [r fs] eqn:E.
  assert (r = Ok tt -> exists ft n,
            load listdir_order pickle_load np_load np_load_gzip loader_object
              (EOPatch.IsDir fs) None mmap true
            = Failed (Raised (ValueError_dimension ft n))) as H.
  { intros ->. apply save_loop_fresh in E; [|exact Hp]. subst fs.
    unfold load. cbv zeta. fold files.
    destruct get_file_format_saved as (ff & -> & Hff).
    destruct (load_loop_lazy ff mmap FeatureType.all EOPatch.no_args Hfmt Hcompress Hff
                all_NoDup) as (c & El & Hst & _).
    { intros ft _. apply getitem_no_args. }
    cbn [default from_option]. unfold Datatypes.id. rewrite El.
    destruct (init_rejected c ft0) as (ft & n & ->).
    - intros ft. destruct (Hst ft (all_complete ft)) as [[Ha _]|Hr]; [now left|now right].
    - destruct (Hst ft0 (all_complete ft0)) as [[_ Hl]|Hr]; [|exact Hr].
      exfalso. unfold saved_folder in Hl.
      pose proof (contains_ndarrays_has_dict ft0 Hc0) as Hd.
      destruct (well_formed_dict p ft0 Hp Hd) as (d & Hg & _).
      rewrite (items_of_dict p ft0 ft0 d Hg) in *. rewrite Hg, Hfmt, Hc0 in Hl.
      destruct d; [contradiction|discriminate].
    - now exists ft, n. }
  destruct path as [| |[|f0 fs0]]; try discriminate.
  - intros [= -> <-]. now apply H.
  - intros [= -> <-]. now apply H.
  - destruct overwrite; cbn [negb]; [|discriminate].
    intros [= -> <-]. now apply H.
Qed.

(** *** Loading some feature types *)

Lemma checked_absent ft :
  EOPatch.checked_value ft (init_arg ft VNone) = Ok (EOPatch.getitem empty_patch ft).
Proof. now destruct ft. Qed.

Lemma init_partial c :
  (forall ft, good ft (EOPatch.getitem c ft) \/ EOPatch.getitem c ft = VNone) ->
  exists q,
    EOPatch.init c = Ok q /\
    forall ft,
      (good ft (EOPatch.getitem c ft) ->
       deep_eq (EOPatch.getitem p ft) (EOPatch.getitem q ft) = true) /\
      (EOPatch.getitem c ft = VNone ->
       EOPatch.getitem q ft = EOPatch.getitem empty_patch ft).
Proof.
  intros H.
  assert (forall ft, exists q,
            EOPatch.checked_value ft (init_arg ft (EOPatch.getitem c ft)) = Ok q /\
            (good ft (EOPatch.getitem c ft) -> deep_eq (EOPatch.getitem p ft) q = true) /\
            (EOPatch.getitem c ft = VNone -> q = EOPatch.getitem empty_patch ft)) as Hq.
  { intros ft. destruct (H ft) as [(q & E & D)|Hn].
    - exists q. split; [exact E|]. split; [intros _; exact D|].
      intros Hn. rewrite Hn, checked_absent in E. congruence.
    - exists (EOPatch.getitem empty_patch ft). rewrite Hn.
      split; [apply checked_absent|]. split; [|reflexivity].
      intros (q & E & D). rewrite checked_absent in E. congruence. }
  unfold EOPatch.init.
  destruct (Hq DATA) as (q1 & E1 & D1), (Hq MASK) as (q2 & E2 & D2),
    (Hq SCALAR) as (q3 & E3 & D3), (Hq LABEL) as (q4 & E4 & D4),
    (Hq VECTOR) as (q5 & E5 & D5), (Hq DATA_TIMELESS) as (q6 & E6 & D6),
    (Hq MASK_TIMELESS) as (q7 & E7 & D7), (Hq SCALAR_TIMELESS) as (q8 & E8 & D8),
    (Hq LABEL_TIMELESS) as (q9 & E9 & D9), (Hq VECTOR_TIMELESS) as (q10 & E10 & D10),
    (Hq META_INFO) as (q11 & E11 & D11), (Hq BBOX) as (q12 & E12 & D12),
    (Hq TIMESTAMP) as (q13 & E13 & D13).
  cbn [init_arg EOPatch.getitem] in E1, E2, E3, E4, E5, E6, E7, E8, E9, E10, E11, E12, E13.
  rewrite E1, E2, E3, E4, E5, E6, E7, E8, E9, E10, E11, E12, E13. cbn [rbind].
  eexists. split; [reflexivity|]. intros ft. destruct ft; assumption.
Qed.

(** X23.  Save with all feature types, then load with a list of feature
    types: the loaded patch holds, for each listed feature type, an
    attribute that [deep_eq] finds equal to the one saved, and is empty in
    every other one. *)
Theorem save_load_feature_list (path path' : EOPatch.path_state)
    (overwrite mmap lazy : bool) (feature_list : list FeatureType) :
  List.NoDup feature_list ->
  (forall ft name, In name (feature_names p ft) -> plain_name name = true) ->
  fmt = EOPatch.PICKLE \/ compress = false \/ lazy = false ->
  EOPatch.save lower p path None fmt overwrite compress = (Ok tt, path') ->
  exists q,
    load listdir_order pickle_load np_load np_load_gzip loader_object
      path' (Some feature_list) mmap lazy = Loaded q /\
    forall ft,
      (In ft feature_list ->
       deep_eq (EOPatch.getitem p ft) (EOPatch.getitem q ft) = true) /\
      (~ In ft feature_list ->
       EOPatch.getitem q ft = EOPatch.getitem empty_patch ft).
Proof.
  intros Hnd _ Hlazy. unfold EOPatch.save. cbn [default from_option]. unfold Datatypes.id.
  destruct (EOPatch.save_loop lower p fmt compress FeatureType.all []) as [r fs] eqn:E.
  assert (r = Ok tt -> exists q,
            load listdir_order pickle_load np_load np_load_gzip loader_object
              (EOPatch.IsDir fs) (Some feature_list) mmap lazy = Loaded q /\
            forall ft,
              (In ft feature_list ->
               deep_eq (EOPatch.getitem p ft) (EOPatch.getitem q ft) = true) /\
              (~ In ft feature_list ->
               EOPatch.getitem q ft = EOPatch.getitem empty_patch ft)) as H.
  { intros ->. apply save_loop_fresh in E; [|exact Hp]. subst fs.
    unfold load. cbv zeta. fold files.
    destruct get_file_format_saved as (ff & -> & Hff).
    destruct (load_loop_saved ff mmap lazy feature_list EOPatch.no_args Hlazy Hff Hnd)
      as (c & El & Hin & Hout).
    { intros ft _. apply getitem_no_args. }
    cbn [default from_option]. unfold Datatypes.id. rewrite El.
    destruct (init_partial c) as (q & -> & Hq).
    { intros ft. destruct (in_dec FeatureType_eq_dec ft feature_list) as [Hi|Hi].
      - left. now apply Hin.
      - right. rewrite (Hout ft Hi). apply getitem_no_args. }
    exists q. split; [reflexivity|]. intros ft. destruct (Hq ft) as [H1 H2]. split.
    - intros Hi. apply H1. now apply Hin.
    - intros Hi. apply H2. rewrite (Hout ft Hi). apply getitem_no_args. }
  destruct path as [| |[|f0 fs0]]; try discriminate.
  - intros [= -> <-]. now apply H.
  - intros [= -> <-]. now apply H.
  - destruct overwrite; cbn [negb]; [|discriminate].
    intros [= -> <-]. now apply H.
Qed.

End RoundTrip.

End SaveLoad.

Lemma save_folder_content_witness :
  well_formed (example_patch (example_array 1 [5%Z]) [VDatetime 0]) = true /\
  EOPatch.save EOPatch.ascii_lower (example_patch (example_array 1 [5%Z]) [VDatetime 0])
    (EOPatch.IsDir [("old", EOPatch.Pickled VNone)]) None EOPatch.NPY true true
  = (Ok tt,
     EOPatch.IsDir [("data/x.npy.gz", EOPatch.NpyFile true (example_array 1 [5%Z]));
                    ("timestamp", EOPatch.Pickled (VList [VDatetime 0]))]) /\
  EOPatch.IsDir [("data/x.npy.gz", EOPatch.NpyFile true (example_array 1 [5%Z]));
                 ("timestamp", EOPatch.Pickled (VList [VDatetime 0]))]
  = EOPatch.IsDir
      (flat_map (saved_files (example_patch (example_array 1 [5%Z]) [VDatetime 0])
                   EOPatch.NPY true) FeatureType.all).
Proof.
  split; [reflexivity|]. split; [reflexivity|].
  apply (save_folder_content EOPatch.ascii_lower _ (EOPatch.IsDir [("old", EOPatch.Pickled VNone)]) _
           EOPatch.NPY true true); reflexivity.
Defined.

Lemma save_load_round_trip_witness :
  exists q,
    load (@rev _) example_pickle_load example_np_load example_np_load_gzip
      (fun _ => VNone)
      (snd (EOPatch.save EOPatch.ascii_lower (example_patch (example_array 1 [5%Z]) [VDatetime 0])
              EOPatch.NoPath None EOPatch.NPY false true))
      None true false = Loaded q /\
    EOPatch.eq (example_patch (example_array 1 [5%Z]) [VDatetime 0]) q = true.
Proof.
  apply (save_load_round_trip EOPatch.ascii_lower (@rev _) example_pickle_load example_np_load
           example_np_load_gzip (fun _ => VNone)
           (fun l => Permutation_sym (Permutation_rev l))
           (fun v => eq_refl) (fun mmap a => eq_refl) (fun a => eq_refl)
           (example_patch (example_array 1 [5%Z]) [VDatetime 0]) EOPatch.NPY true
           eq_refl (or_introl eq_refl) EOPatch.NoPath _ false true false).
  - intros ft name H. destruct ft; cbn in H; try contradiction;
      destruct H as [<-|[]]; reflexivity.
  - right. now right.
  - reflexivity.
Defined.

Lemma load_lazy_compressed_witness :
  exists ft n,
    load (@rev _) example_pickle_load example_np_load example_np_load_gzip
      (fun _ => VNone)
      (snd (EOPatch.save EOPatch.ascii_lower (example_patch (example_array 1 [5%Z]) [VDatetime 0])
              EOPatch.NoPath None EOPatch.NPY false true))
      None true true = Failed (Raised (ValueError_dimension ft n)).
Proof.
  apply (load_lazy_compressed EOPatch.ascii_lower (@rev _) example_pickle_load example_np_load
           example_np_load_gzip (fun _ => VNone)
           (fun l => Permutation_sym (Permutation_rev l)) (fun v => eq_refl)
           (example_patch (example_array 1 [5%Z]) [VDatetime 0]) EOPatch.NPY true
           eq_refl) with (path := EOPatch.NoPath) (overwrite := false) (ft0 := DATA).
  - intros content a. discriminate.
  - reflexivity.
  - reflexivity.
  - reflexivity.
  - discriminate.
  - reflexivity.
Defined.

Lemma save_load_feature_list_witness :
  exists q,
    load (@rev _) example_pickle_load example_np_load example_np_load_gzip
      (fun _ => VNone)
      (snd (EOPatch.save EOPatch.ascii_lower (example_patch (example_array 1 [5%Z]) [VDatetime 0])
              EOPatch.NoPath None EOPatch.NPY false false))
      (Some [DATA]) true true = Loaded q /\
    forall ft,
      (In ft [DATA] ->
       deep_eq (EOPatch.getitem (example_patch (example_array 1 [5%Z]) [VDatetime 0]) ft)
         (EOPatch.getitem q ft) = true) /\
      (~ In ft [DATA] -> EOPatch.getitem q ft = EOPatch.getitem empty_patch ft).
Proof.
  apply (save_load_feature_list EOPatch.ascii_lower (@rev _) example_pickle_load example_np_load
           example_np_load_gzip (fun _ => VNone)
           (fun l => Permutation_sym (Permutation_rev l))
           (fun v => eq_refl) (fun mmap a => eq_refl) (fun a => eq_refl)
           (example_patch (example_array 1 [5%Z]) [VDatetime 0]) EOPatch.NPY false
           eq_refl (or_introl eq_refl) EOPatch.NoPath _ false true true [DATA]).
  - repeat constructor. intros [].
  - intros ft name H. destruct ft; cbn in H; try contradiction;
      destruct H as [<-|[]]; reflexivity.
  - right. now left.
  - reflexivity.
Defined.

(** ** What [load] does with other folders *)

Section LoadEdges.
Variable listdir_order :
  list (string * EOPatch.file_content) -> list (string * EOPatch.file_content).
Variable pickle_load : EOPatch.file_content -> result pyvalue.
Variable np_load : bool -> EOPatch.file_content -> result pyvalue.
Variable np_load_gzip : EOPatch.file_content -> result pyvalue.
Variable loader_object : EOPatch.file_content -> pyvalue.

Lemma load_loop_nothing ff mmap lazy (l : list FeatureType) (c : EOPatch.t (list Z)) :
  fold_left
    (fun acc ft =>
       match acc with
       | Failed e => Failed e
       | Loaded eopatch_content =>
           load_feature_type listdir_order pickle_load np_load np_load_gzip
             loader_object [] ff mmap lazy eopatch_content ft
       end) l (Loaded c) = Loaded c.
Proof. induction l as [|ft l IH]; [reflexivity|exact IH]. Qed.

(** X19.  [load] of a folder without files, and of a path that is a file
    and no folder, returns the empty patch, whatever feature types are asked
    for: nothing is raised. *)
Theorem load_nothing_to_load (feature_list : option (list FeatureType))
    (mmap lazy : bool) :
  load listdir_order pickle_load np_load np_load_gzip loader_object
    (EOPatch.IsDir []) feature_list mmap lazy = Loaded empty_patch /\
  load listdir_order pickle_load np_load np_load_gzip loader_object
    EOPatch.IsFile feature_list mmap lazy = Loaded empty_patch.
Proof.
  unfold load. cbv zeta.
  change (_get_file_format []) with (@Loaded (option EOPatch.FileFormat) None).
  cbv iota beta. rewrite load_loop_nothing, init_no_args. now split.
Qed.

Lemma get_file_format_failed files e (l : list string) :
  fold_left
    (fun acc feature_path =>
       match acc with
       | Failed e => Failed e
       | Loaded file_format =>
           if isfile files feature_path || isdir files feature_path
           then
             let ftype_file_format :=
               if isfile files feature_path then EOPatch.PICKLE else EOPatch.NPY in
             match file_format with
             | None => Loaded (Some ftype_file_format)
             | Some f =>
                 if match f, ftype_file_format with
                    | EOPatch.PICKLE, EOPatch.PICKLE | EOPatch.NPY, EOPatch.NPY => true
                    | _, _ => false
                    end
                 then Loaded file_format
                 else Failed ValueError_file_formats
             end
           else Loaded file_format
       end) l (Failed e) = Failed e.
Proof. induction l as [|x l IH]; [reflexivity|exact IH]. Qed.

Lemma get_file_format_mixed files (l : list string) acc :
  (acc = Some EOPatch.PICKLE /\ exists y, In y l /\ isdir files y = true) \/
  (acc = Some EOPatch.NPY /\ exists x, In x l /\ isfile files x = true) \/
  ((exists x, In x l /\ isfile files x = true) /\
   (exists y, In y l /\ isdir files y = true)) ->
  fold_left
    (fun acc feature_path =>
       match acc with
       | Failed e => Failed e
       | Loaded file_format =>
           if isfile files feature_path || isdir files feature_path
           then
             let ftype_file_format :=
               if isfile files feature_path then EOPatch.PICKLE else EOPatch.NPY in
             match file_format with
             | None => Loaded (Some ftype_file_format)
             | Some f =>
                 if match f, ftype_file_format with
                    | EOPatch.PICKLE, EOPatch.PICKLE | EOPatch.NPY, EOPatch.NPY => true
                    | _, _ => false
                    end
                 then Loaded file_format
                 else Failed ValueError_file_formats
             end
           else Loaded file_format
       end) l (Loaded acc) = Failed ValueError_file_formats.
Proof.
  revert acc. induction l as [|z l IH]; intros acc H.
  - exfalso. destruct H as [(_ & y & [] & _)|[(_ & x & [] & _)|[(x & [] & _) _]]].
  - cbn [fold_left]. cbv zeta.
    assert (forall y, isdir files y = true -> isfile files y = false) as Hdir.
    { intros y Hy. unfold isdir in Hy. apply andb_true_iff in Hy as [Hy _].
      now apply negb_true_iff. }
    destruct (isfile files z) eqn:Ef; [|destruct (isdir files z) eqn:Ed]; cbn [orb].
    + assert (forall y, In y (z :: l) -> isdir files y = true -> In y l) as Hin.
      { intros y [<-|Hy] Hy'; [|exact Hy]. apply Hdir in Hy'. congruence. }
      destruct H as [(-> & y & Hy & Hy')|[(-> & _)|[_ (y & Hy & Hy')]]].
      * apply IH. left. split; [reflexivity|]. exists y. split; [now apply Hin|exact Hy'].
      * apply get_file_format_failed.
      * destruct acc as [[|]|].
        -- apply IH. left. split; [reflexivity|]. exists y. split; [now apply Hin|exact Hy'].
        -- apply get_file_format_failed.
        -- apply IH. left. split; [reflexivity|]. exists y. split; [now apply Hin|exact Hy'].
    + assert (forall x, In x (z :: l) -> isfile files x = true -> In x l) as Hin.
      { intros x [<-|Hx] Hx'; [congruence|exact Hx]. }
      destruct H as [(-> & _)|[(-> & x & Hx & Hx')|[(x & Hx & Hx') _]]].
      * apply get_file_format_failed.
      * apply IH. right. left. split; [reflexivity|]. exists x.
        split; [now apply Hin|exact Hx'].
      * destruct acc as [[|]|].
        -- apply get_file_format_failed.
        -- apply IH. right. left. split; [reflexivity|]. exists x.
           split; [now apply Hin|exact Hx'].
        -- apply IH. right. left. split; [reflexivity|]. exists x.
           split; [now apply Hin|exact Hx'].
    + apply IH.
      assert (forall x, In x (z :: l) -> isfile files x = true -> In x l) as Hin1.
      { intros x [<-|Hx] Hx'; [congruence|exact Hx]. }
      assert (forall y, In y (z :: l) -> isdir files y = true -> In y l) as Hin2.
      { intros y [<-|Hy] Hy'; [congruence|exact Hy]. }
      destruct H as [(-> & y & Hy & Hy')|[(-> & x & Hx & Hx')|[(x & Hx & Hx') (y & Hy & Hy')]]].
      * left. eauto.
      * right. left. eauto.
      * right. right. split; eauto.
Qed.

(** X20.  A folder that holds one namespace of arrays as a pickle file and
    another one as a sub-folder is refused with a [ValueError], whatever
    feature types are asked for. *)
Theorem load_mixed_formats (files : list (string * EOPatch.file_content))
    (ft1 ft2 : FeatureType) (feature_list : option (list FeatureType))
    (mmap lazy : bool) :
  FeatureType.contains_ndarrays ft1 = true ->
  FeatureType.contains_ndarrays ft2 = true ->
  isfile files (FeatureType.value ft1) = true ->
  isdir files (FeatureType.value ft2) = true ->
  load listdir_order pickle_load np_load np_load_gzip loader_object
    (EOPatch.IsDir files) feature_list mmap lazy = Failed ValueError_file_formats.
Proof.
  intros H1 H2 Hf Hd. unfold load. cbv zeta.
  unfold _get_file_format, _get_file_paths. rewrite get_file_format_mixed; [reflexivity|].
  right. right. split.
  - exists (FeatureType.value ft1). split; [|exact Hf].
    apply in_map, List.filter_In. split; [apply all_complete|exact H1].
  - exists (FeatureType.value ft2). split; [|exact Hd].
    apply in_map, List.filter_In. split; [apply all_complete|exact H2].
Qed.

End LoadEdges.

Lemma load_mixed_formats_witness :
  load (fun l => l) example_pickle_load example_np_load example_np_load_gzip
    (fun _ => VNone)
    (EOPatch.IsDir [("data", EOPatch.Pickled (VDict []));
                    ("mask/m.npy", EOPatch.NpyFile false (example_array 1 [5%Z]))])
    (Some [BBOX]) true true = Failed ValueError_file_formats.
Proof.
  apply (load_mixed_formats (fun l => l) example_pickle_load example_np_load
           example_np_load_gzip (fun _ => VNone) _ DATA MASK); reflexivity.
Defined.
(** ** Copies restricted by a feature list *)

Lemma getitem_empty_dict {B} ft :
  FeatureType.has_dict ft = true ->
  EOPatch.getitem (B:=B) empty_patch ft = VFeatureDict ft [].
Proof. now destruct ft. Qed.

Lemma well_formed_attribute_ok {B} (p : EOPatch.t B) ft :
  well_formed p = true -> attribute_ok ft (EOPatch.getitem p ft).
Proof.
  intros Hp. destruct (well_formed_at p ft Hp) as [_ H]. unfold attribute_ok.
  destruct (FeatureType.type ft); [|exact H|exact I].
  destruct (EOPatch.getitem p ft); try discriminate. eauto.
Qed.

Lemma setitem_feature_dict {B} (new : EOPatch.t B) ft dn name v :
  EOPatch.getitem new ft = VFeatureDict ft dn ->
  FeatureDict.violates ft v = false ->
  EOPatch.setitem_feature ft name v new
  = (Ok tt, EOPatch.store new ft (VFeatureDict ft (dict_set name v dn))).
Proof.
  intros Hn Hv. unfold EOPatch.setitem_feature, FeatureDict.setitem. now rewrite Hn, Hv.
Qed.

(** The inner loop of [__copy__], over the names selected in a namespace. *)
Lemma copy_names (p : EOPatch.t loc) ft dp names :
  EOPatch.getitem p ft = VFeatureDict ft dp ->
  (forall k v, In (k, v) dp -> FeatureDict.violates ft v = false) ->
  forall new dn,
  EOPatch.getitem new ft = VFeatureDict ft dn ->
  (exists dn',
     foldM (fun new_eopatch feature_name =>
              let* v := EOPatch.get_feature p ft feature_name in
              match EOPatch.setitem_feature ft feature_name v new_eopatch with
              | (Ok _, new_eopatch') => Ok new_eopatch'
              | (Raise e, _) => Raise e
              end) names new = Ok (EOPatch.store new ft (VFeatureDict ft dn')) /\
     (forall name, In name names -> In name (dict_keys dp)) /\
     forall name,
       (In name names -> dict_get name dn' = dict_get name dp) /\
       (~ In name names -> dict_get name dn' = dict_get name dn)) \/
  (exists name,
     In name names /\ ~ In name (dict_keys dp) /\
     foldM (fun new_eopatch feature_name =>
              let* v := EOPatch.get_feature p ft feature_name in
              match EOPatch.setitem_feature ft feature_name v new_eopatch with
              | (Ok _, new_eopatch') => Ok new_eopatch'
              | (Raise e, _) => Raise e
              end) names new = Raise (KeyError name)).
Proof.
  intros Hg Hv. induction names as [|n names IH]; intros new dn Hn; cbn [foldM].
  - left. exists dn. rewrite <- Hn, store_same. split; [reflexivity|].
    split; [intros name []|]. intros name. split; [intros []|reflexivity].
  - unfold EOPatch.get_feature at 1 3. rewrite Hg. cbn [mapping_items].
    destruct (dict_get n dp) as [v|] eqn:En; cbn [rbind].
    + rewrite (setitem_feature_dict new ft dn n v Hn)
        by (apply (Hv n v); now apply dict_get_In).
      cbv beta iota. cbn [rbind].
      destruct (IH (EOPatch.store new ft (VFeatureDict ft (dict_set n v dn)))
                  (dict_set n v dn))
        as [(dn' & E & Hall & Hget)|(name & Hin & Hmiss & E)].
      * apply getitem_store_eq.
      * left. exists dn'. rewrite E, store_store. split; [reflexivity|]. split.
        -- intros name [<-|H]; [eapply dict_get_Some_key, En|now apply Hall].
        -- intros name. destruct (Hget name) as [H1 H2]. split.
           ++ intros [<-|H]; [|now apply H1].
              destruct (in_dec String.string_dec n names) as [Hi|Hi]; [now apply H1|].
              now rewrite H2, dict_get_set_eq.
           ++ intros H. rewrite H2 by (intros Hi; apply H; now right).
              apply dict_get_set_ne. intros ->. apply H. now left.
      * right. exists name. split; [now right|]. split; [exact Hmiss|exact E].
    + right. exists n. split; [now left|]. split; [|reflexivity].
      now apply dict_get_None.
Qed.

(** The loop of [__copy__] over the parsed selection. *)
Lemma copy_entries (p : EOPatch.t loc) es :
  well_formed p = true ->
  List.NoDup (map fst es) ->
  (forall ft ns, In (ft, EOPatch.Names ns) es -> FeatureType.has_dict ft = true) ->
  forall new h,
  (forall ft, In ft (map fst es) -> EOPatch.getitem new ft = EOPatch.getitem empty_patch ft) ->
  (exists q h',
     foldM (EOPatch.copy_selected p) es (new, h) = Ok (q, h') /\
     grows h h' /\
     (forall ft ns name, In (ft, EOPatch.Names ns) es -> In name ns ->
                         In name (feature_names p ft)) /\
     (forall ft, ~ In ft (map fst es) -> EOPatch.getitem q ft = EOPatch.getitem new ft) /\
     (forall ft, In (ft, EOPatch.Whole) es ->
                 (forall a, EOPatch.getitem p ft <> VArray a) ->
                 EOPatch.getitem q ft = EOPatch.getitem p ft) /\
     (forall ft ns, In (ft, EOPatch.Names ns) es ->
        exists dq,
          EOPatch.getitem q ft = VFeatureDict ft dq /\
          forall name,
            (In name ns -> dict_get name dq = dict_get name (items_of p ft)) /\
            (~ In name ns -> dict_get name dq = None))) \/
  (exists ft ns name,
     In (ft, EOPatch.Names ns) es /\ In name ns /\ ~ In name (feature_names p ft) /\
     foldM (EOPatch.copy_selected p) es (new, h) = Raise (KeyError name)).
Proof.
  intros Hp. induction es as [|[ft sel] es IH]; intros Hnd Hnames new h Hnew;
    cbn [foldM map fst] in *.
  - left. exists new, h. split; [reflexivity|]. split; [apply grows_refl|].
    split; [intros ? ? ? []|]. split; [reflexivity|].
    split; [intros ? []|intros ? ? []].
  - apply List.NoDup_cons_iff in Hnd as [Hft Hnd].
    assert (forall ft' ns, In (ft', EOPatch.Names ns) es -> FeatureType.has_dict ft' = true)
      as Hnames'.
    { intros ft' ns H. apply (Hnames ft' ns). now right. }
    assert (forall ft' s, In (ft', s) es -> ft' <> ft) as Hother.
    { intros ft' s H ->. apply Hft. apply in_map_iff. now exists (ft, s). }
    unfold EOPatch.copy_selected at 1 3. cbn [fst snd].
    destruct sel as [|ns].
    + destruct (py_copy_typed ft (EOPatch.getitem p ft) h (well_formed_attribute_ok p ft Hp))
        as (v & h1 & -> & Hg1 & Hv & Hsame).
      rewrite (setitem_typed ft v new Hv). cbn [rbind].
      destruct (IH Hnd Hnames' (EOPatch.store new ft v) h1)
        as [(q & h' & E & Hg & Hall & Hout & Hwhole & Hsel)|(ft' & ns & name & Hin & Hn & Hm & E)].
      * intros ft' Hin. rewrite getitem_store_ne; [apply Hnew; now right|].
        intros ->. contradiction.
      * left. exists q, h'. split; [exact E|].
        split; [eapply grows_trans; eassumption|].
        split; [intros ft' ns name [[=]|H]; now apply (Hall ft' ns)|].
        split; [|split].
        -- intros ft' Hn. rewrite Hout by (intros H; apply Hn; now right).
           apply getitem_store_ne. intros ->. apply Hn. now left.
        -- intros ft' [[= <-]|H] Hna; [|now apply Hwhole].
           rewrite (Hout ft Hft), getitem_store_eq. now apply Hsame.
        -- intros ft' ns [[=]|H]. now apply Hsel.
      * right. exists ft', ns, name. split; [now right|]. now split.
    + pose proof (Hnames ft ns (or_introl eq_refl)) as Hd.
      destruct (well_formed_dict p ft Hp Hd) as (dp & Hgp & _ & Hvp).
      destruct (copy_names p ft dp ns Hgp (fun k v H => proj1 (Hvp k v H)) new [])
        as [(dn' & -> & Hall1 & Hget)|(name & Hin & Hmiss & ->)].
      * rewrite Hnew by now left. now apply getitem_empty_dict.
      * cbn [rbind].
        destruct (IH Hnd Hnames' (EOPatch.store new ft (VFeatureDict ft dn')) h)
          as [(q & h' & E & Hg & Hall & Hout & Hwhole & Hsel)
             |(ft' & ns' & name & Hin & Hn & Hm & E)].
        -- intros ft' Hin. rewrite getitem_store_ne; [apply Hnew; now right|].
           intros ->. contradiction.
        -- left. exists q, h'. split; [exact E|]. split; [exact Hg|]. split; [|split; [|split]].
           ++ intros ft' ns' name [[= <- <-]|H] Hn; [|now apply (Hall ft' ns')].
              unfold feature_names. rewrite Hgp. now apply Hall1.
           ++ intros ft' Hn. rewrite Hout by (intros H; apply Hn; now right).
              apply getitem_store_ne. intros ->. apply Hn. now left.
           ++ intros ft' [[=]|H]. now apply Hwhole.
           ++ intros ft' ns' [[= <- <-]|H]; [|now apply Hsel].
              exists dn'. rewrite (Hout ft Hft), getitem_store_eq. split; [reflexivity|].
              intros name. rewrite (items_of_dict p ft ft dp Hgp).
              destruct (Hget name) as [H1 H2]. split; [exact H1|exact H2].
        -- right. exists ft', ns', name. split; [now right|]. now split.
      * right. exists ft, ns, name. split; [now left|]. split; [exact Hin|].
        split; [|reflexivity]. unfold feature_names. now rewrite Hgp.
Qed.

(** What [_parse_to_dict] builds is a dictionary: no feature type is a key
    twice, and a set of names is only given for a mapping namespace. *)
Lemma selection_set_keys ft sel d :
  List.NoDup (map fst d) -> List.NoDup (map fst (EOPatch.selection_set ft sel d)).
Proof.
  induction d as [|[ft' s'] d IH]; cbn; [intros _; repeat constructor; intros []|].
  intros [Hft Hnd]%List.NoDup_cons_iff.
  destruct (decide (ft = ft')) as [->|Hne]; cbn.
  - now constructor.
  - constructor; [|now apply IH].
    intros H. apply Hft. clear -H Hne.
    induction d as [|[ft0 s0] d IHd]; cbn in *.
    + destruct H as [H|[]]. congruence.
    + destruct (decide (ft = ft0)) as [->|Hne0]; cbn in H.
      * destruct H as [H|H]; [congruence|now right].
      * destruct H as [H|H]; [now left|right; now apply IHd].
Qed.

Lemma selection_set_In ft sel d ft' s :
  In (ft', s) (EOPatch.selection_set ft sel d) -> (ft', s) = (ft, sel) \/ In (ft', s) d.
Proof.
  induction d as [|[ft0 s0] d IH]; cbn.
  - intros [H|[]]. now left.
  - destruct (decide (ft = ft0)) as [->|Hne]; cbn.
    + intros [H|H]; [now left|right; now right].
    + intros [H|H]; [right; now left|]. destruct (IH H) as [H'|H']; [now left|right; now right].
Qed.

Lemma parse_item_dict acc item d :
  EOPatch.parse_item acc item = Ok d ->
  List.NoDup (map fst acc) /\
  (forall ft ns, In (ft, EOPatch.Names ns) acc -> FeatureType.has_dict ft = true) ->
  List.NoDup (map fst d) /\
  (forall ft ns, In (ft, EOPatch.Names ns) d -> FeatureType.has_dict ft = true).
Proof.
  intros E [Hnd Hn]. destruct item as [ft|[ft|] names| |]; cbn in E; try discriminate.
  - injection E as <-. split; [now apply selection_set_keys|].
    intros ft' ns [[=]|H]%selection_set_In. now apply (Hn ft' ns).
  - destruct (bool_decide (ft = TIMESTAMP) || bool_decide (ft = BBOX)) eqn:Eb;
      [discriminate|].
    assert (FeatureType.has_dict ft = true) as Hd.
    { apply orb_false_iff in Eb as [E1 E2].
      apply bool_decide_eq_false in E1, E2. destruct ft; try reflexivity; congruence. }
    destruct (default (EOPatch.Names []) (EOPatch.selection_get ft acc));
      injection E as <-; (split; [now apply selection_set_keys|]);
      intros ft' ns [[= -> _]|H]%selection_set_In; try exact Hd; now apply (Hn ft' ns).
Qed.

Lemma parse_loop_dict l :
  forall acc d, foldM EOPatch.parse_item l acc = Ok d ->
  List.NoDup (map fst acc) /\
  (forall ft ns, In (ft, EOPatch.Names ns) acc -> FeatureType.has_dict ft = true) ->
  List.NoDup (map fst d) /\
  (forall ft ns, In (ft, EOPatch.Names ns) d -> FeatureType.has_dict ft = true).
Proof.
  induction l as [|item l IH]; intros acc d; cbn [foldM]; [now intros [= ->]|].
  destruct (EOPatch.parse_item acc item) as [acc'|] eqn:E; cbn [rbind]; [|discriminate].
  intros Hd Hacc. apply (IH acc' d Hd). now apply (parse_item_dict acc item).
Qed.

Lemma parse_to_dict_dict fl d :
  EOPatch._parse_to_dict fl = Ok d ->
  List.NoDup (map fst d) /\
  (forall ft ns, In (ft, EOPatch.Names ns) d -> FeatureType.has_dict ft = true).
Proof.
  unfold EOPatch._parse_to_dict. intros H. apply parse_loop_dict in H; [exact H|].
  split; [constructor|intros ? ? []].
Qed.

Lemma selection_get_In ft s d :
  List.NoDup (map fst d) -> EOPatch.selection_get ft d = Some s <-> In (ft, s) d.
Proof.
  induction d as [|[ft' s'] d IH]; cbn; [intros _; split; [discriminate|intros []]|].
  intros [Hft Hnd]%List.NoDup_cons_iff. destruct (decide (ft = ft')) as [->|Hne].
  - split; [intros [= ->]; now left|]. intros [[= ->]|H]; [reflexivity|].
    exfalso. apply Hft. apply in_map_iff. now exists (ft', s).
  - rewrite (IH Hnd). split; [now right|]. intros [[=]|H]; [congruence|exact H].
Qed.

Lemma selection_get_None ft d :
  EOPatch.selection_get ft d = None <-> ~ In ft (map fst d).
Proof.
  induction d as [|[ft' s'] d IH]; cbn; [tauto|].
  destruct (decide (ft = ft')) as [->|Hne].
  - split; [discriminate|]. intros H. exfalso. apply H. now left.
  - rewrite IH. split; [intros H [H'|H']; [congruence|contradiction]|tauto].
Qed.

(** X21.  A copy restricted by a feature list, when every name the list
    selects is a feature of the patch: a namespace the list does not name is
    left empty in the copy (the bounding box is [None], the timestamps are the
    empty list); a namespace named whole holds what it holds in the source;
    a namespace named by tuples holds exactly the selected features, with
    the very values of the source. *)
Theorem copy_feature_list (p : EOPatch.t loc) (feature_list : option (list EOPatch.feature_item))
    (d : list (FeatureType * EOPatch.selection)) (h : heap) :
  well_formed p = true ->
  EOPatch._parse_to_dict feature_list = Ok d ->
  (forall ft ns name, EOPatch.selection_get ft d = Some (EOPatch.Names ns) ->
                      In name ns -> In name (feature_names p ft)) ->
  exists q h',
    EOPatch.copy p feature_list h = Ok (q, h') /\
    grows h h' /\
    (forall ft, EOPatch.selection_get ft d = None ->
                EOPatch.getitem q ft = EOPatch.getitem empty_patch ft) /\
    (forall ft, EOPatch.selection_get ft d = Some EOPatch.Whole ->
                (forall a, EOPatch.getitem p ft <> VArray a) ->
                EOPatch.getitem q ft = EOPatch.getitem p ft) /\
    (forall ft ns name, EOPatch.selection_get ft d = Some (EOPatch.Names ns) ->
       (In name ns -> EOPatch.get_feature q ft name = EOPatch.get_feature p ft name) /\
       (~ In name ns -> EOPatch.get_feature q ft name = Raise (KeyError name))).
Proof.
  intros Hp Hd Hall. unfold EOPatch.copy. rewrite init_no_args, Hd. cbn [rbind].
  destruct (parse_to_dict_dict feature_list d Hd) as [Hnd Hnames].
  destruct (copy_entries p d Hp Hnd Hnames empty_patch h (fun ft _ => eq_refl))
    as [(q & h' & E & Hg & _ & Hout & Hwhole & Hsel)|(ft & ns & name & Hin & Hn & Hm & _)].
  - exists q, h'. split; [exact E|]. split; [exact Hg|]. split; [|split].
    + intros ft H. apply Hout. now apply selection_get_None.
    + intros ft H. apply Hwhole. now apply selection_get_In.
    + intros ft ns name H. apply (selection_get_In ft _ d Hnd) in H.
      destruct (Hsel ft ns H) as (dq & Hq & Hget). destruct (Hget name) as [H1 H2].
      destruct (well_formed_dict p ft Hp (Hnames ft ns H)) as (dp & Hgp & _).
      unfold EOPatch.get_feature. rewrite Hq, Hgp. cbn [mapping_items].
      rewrite (items_of_dict p ft ft dp Hgp) in H1. split.
      * intros Hi. now rewrite H1.
      * intros Hi. now rewrite H2.
  - exfalso. apply Hm. apply (Hall ft ns name); [|exact Hn].
    now apply selection_get_In.
Qed.

(** X22.  A copy restricted by a feature list that selects a name the
    patch does not hold raises [KeyError] for such a name: nothing is
    returned. *)
Theorem copy_missing_feature (p : EOPatch.t loc)
    (feature_list : option (list EOPatch.feature_item))
    (d : list (FeatureType * EOPatch.selection)) (h : heap)
    (ft : FeatureType) (ns : list string) (name : string) :
  well_formed p = true ->
  EOPatch._parse_to_dict feature_list = Ok d ->
  EOPatch.selection_get ft d = Some (EOPatch.Names ns) ->
  In name ns -> ~ In name (feature_names p ft) ->
  exists ft' ns' name',
    EOPatch.selection_get ft' d = Some (EOPatch.Names ns') /\
    In name' ns' /\ ~ In name' (feature_names p ft') /\
    EOPatch.copy p feature_list h = Raise (KeyError name').
Proof.
  intros Hp Hd Hsel Hin Hmiss. unfold EOPatch.copy. rewrite init_no_args, Hd. cbn [rbind].
  destruct (parse_to_dict_dict feature_list d Hd) as [Hnd Hnames].
  destruct (copy_entries p d Hp Hnd Hnames empty_patch h (fun ft _ => eq_refl))
    as [(q & h' & _ & _ & Hall & _)|(ft' & ns' & name' & Hin' & Hn & Hm & E)].
  - exfalso. apply Hmiss. apply (Hall ft ns name); [|exact Hin].
    now apply selection_get_In.
  - exists ft', ns', name'. split; [now apply selection_get_In|]. now split.
Qed.

Lemma copy_feature_list_witness :
  exists q h',
    EOPatch.copy example_stored_patch (Some [EOPatch.ItemTuple (Some DATA) ["x"]]) [[5%Z]]
    = Ok (q, h') /\
    grows [[5%Z]] h' /\
    (forall ft, EOPatch.selection_get ft [(DATA, EOPatch.Names ["x"])] = None ->
                EOPatch.getitem q ft = EOPatch.getitem empty_patch ft) /\
    (forall ft, EOPatch.selection_get ft [(DATA, EOPatch.Names ["x"])] = Some EOPatch.Whole ->
                (forall a, EOPatch.getitem example_stored_patch ft <> VArray a) ->
                EOPatch.getitem q ft = EOPatch.getitem example_stored_patch ft) /\
    (forall ft ns name,
       EOPatch.selection_get ft [(DATA, EOPatch.Names ["x"])] = Some (EOPatch.Names ns) ->
       (In name ns ->
        EOPatch.get_feature q ft name = EOPatch.get_feature example_stored_patch ft name) /\
       (~ In name ns -> EOPatch.get_feature q ft name = Raise (KeyError name))).
Proof.
  apply (copy_feature_list example_stored_patch
           (Some [EOPatch.ItemTuple (Some DATA) ["x"]]) [(DATA, EOPatch.Names ["x"])]).
  - reflexivity.
  - reflexivity.
  - intros ft ns name H. destruct ft; cbn in H; try discriminate.
    injection H as <-. intros [<-|[]]. now left.
Defined.

Lemma copy_missing_feature_witness :
  exists ft' ns' name',
    EOPatch.selection_get ft' [(DATA, EOPatch.Names ["y"])] = Some (EOPatch.Names ns') /\
    In name' ns' /\ ~ In name' (feature_names example_stored_patch ft') /\
    EOPatch.copy example_stored_patch (Some [EOPatch.ItemTuple (Some DATA) ["y"]]) [[5%Z]]
    = Raise (KeyError name').
Proof.
  apply (copy_missing_feature example_stored_patch
           (Some [EOPatch.ItemTuple (Some DATA) ["y"]]) [(DATA, EOPatch.Names ["y"])]
           [[5%Z]] DATA ["y"] "y").
  - reflexivity.
  - reflexivity.
  - reflexivity.
  - now left.
  - cbn. intros [H|[]]. discriminate.
Defined.

